(** * Patient-dashboard backend

  A shallow embedding of the token service ([middleware/auth.ts]), the
  authentication middleware ([middlewares/auth.middleware.ts]), the
  environment schema ([config/env.ts]), the auth, medication,
  weight-entry and shipment controllers, the routers and the application
  ([app.ts]) with its error handler, the pagination helper
  ([utils/apiResponse.ts]) and the connection logic
  ([config/database.ts], [server.ts]), with the properties of the
  specification stated and settled against them, followed by further
  properties of the code.

  Conventions of the embedding.
  - An instant is the number of milliseconds since the epoch ([Z]); a
    handler receives the clock reading [now] of the request it serves, and
    the handler that compares one reading and stores another
    ([createWeightEntry]) receives both.
  - Numbers are computed with exact integers and rationals.  The code
    computes with doubles, which gives the same values as long as every
    integer involved is at most [Js.MAX_SAFE_INTEGER] in magnitude; the
    statements that give the value of a computed number are made within
    that range.
  - Strings are sequences of 8-bit characters.  [Js.toLowerCase],
    [Js.trim] and the lengths are those of JavaScript on strings of ASCII
    characters ([Js.is_ascii]), for which a character is a byte and a
    UTF-16 code unit at once.
  - The store answers every operation: a promise that the driver rejects
    because the connection is lost is not part of the model.
  - Strings that only ever carry a structured value are represented by that
    value: the hexadecimal text of a store id by [IdString], a compact JWS
    by [Token], a bcrypt digest by [PasswordHash], the text produced by
    [Date.prototype.toISOString] by the instant it prints.
  - HMAC-SHA256 and bcrypt are treated symbolically: a signature names the
    key it was made with, a digest names the password it was made from.
  - A JavaScript [throw] is the left injection of [Res]; an [async]
    handler is a function of the store, and one that owns a
    [try]/[catch] is written with [async_try_catch]. *)

From Stdlib Require Import Ascii String ZArith QArith Lia.
From stdpp Require Import base option list strings sorting pretty.

Set Warnings "-register-all".
Set Default Proof Using "Type".

(* ===================================================================== *)
(** ** JavaScript values that the sources manipulate *)
(* ===================================================================== *)

Module Js.

(** [s.slice(-1)]: the last character of [s] (empty for the empty string). *)
Fixpoint slice_last (s : string) : string :=
  match s with
  | EmptyString => ""
  | String c EmptyString => String c ""
  | String _ r => slice_last r
  end.

(** [s.slice(0, -1)]: [s] without its last character. *)
Fixpoint slice_init (s : string) : string :=
  match s with
  | EmptyString => ""
  | String _ EmptyString => ""
  | String c r => String c (slice_init r)
  end.

Definition is_space (c : ascii) : bool :=
  let n := nat_of_ascii c in
  (n =? 32)%nat || ((9 <=? n)%nat && (n <=? 13)%nat).

Fixpoint skip_spaces (s : string) : string :=
  match s with
  | String c r => if is_space c then skip_spaces r else s
  | EmptyString => ""
  end.

(** Value of a digit in the given radix (10 or 16). *)
Definition digit_val (radix : Z) (c : ascii) : option Z :=
  let n := Z.of_nat (nat_of_ascii c) in
  let v :=
    if (48 <=? n)%Z && (n <=? 57)%Z then Some (n - 48)%Z
    else if (97 <=? n)%Z && (n <=? 102)%Z then Some (n - 87)%Z
    else if (65 <=? n)%Z && (n <=? 70)%Z then Some (n - 55)%Z
    else None in
  match v with
  | Some d => if (d <? radix)%Z then Some d else None
  | None => None
  end.

(** Longest prefix of digits, accumulated left to right; [None] when the
    prefix is empty. *)
Fixpoint digits_prefix (radix : Z) (acc : option Z) (s : string) : option Z :=
  match s with
  | EmptyString => acc
  | String c r =>
      match digit_val radix c with
      | Some d => digits_prefix radix (Some (default 0%Z acc * radix + d)%Z) r
      | None => acc
      end
  end.

(** [parseInt(s)] with no radix argument; [None] is [NaN].  Leading white
    space is skipped, a sign is read, a [0x]/[0X] prefix selects radix 16,
    and parsing stops at the first character that is not a digit. *)
Definition parseInt (s : string) : option Z :=
  let s := skip_spaces s in
  let '(sign, s) :=
    match s with
    | String "-" r => ((-1)%Z, r)
    | String "+" r => (1%Z, r)
    | _ => (1%Z, s)
    end in
  let '(radix, s) :=
    match s with
    | String "0" (String "x" r) => (16%Z, r)
    | String "0" (String "X" r) => (16%Z, r)
    | _ => (10%Z, s)
    end in
  (λ v, sign * v)%Z <$> digits_prefix radix None s.

(** A JavaScript number restricted to the integers the sources compute
    with; [None] is [NaN].  The products and sums below are the exact
    ones. *)
Definition Num := option Z.

Definition num_mul (a : Num) (k : Z) : Num := (λ v, v * k)%Z <$> a.
Definition num_add (k : Z) (a : Num) : Num := (λ v, k + v)%Z <$> a.

(** Largest magnitude of a valid [Date] time value. *)
Definition MAX_TIME : Z := 8640000000000000.

(** [Number.MAX_SAFE_INTEGER], [2^53 - 1]: up to this magnitude every
    integer is a double, and sums and products of integers that stay
    within it are computed exactly. *)
Definition MAX_SAFE_INTEGER : Z := 9007199254740991.

(** A value of a request body where the handlers expect a date.
    [DateText] is a non-empty string with the instant that [Date.parse]
    reads in it ([None] when it reads none); it also stands for an array or
    an object, which are truthy and which [Date] reads through their text.
    The others are the empty string, a number (an integer here; [Date]
    drops the fraction of any other), a boolean and [null].  An absent
    field is [None] of [option DateInput]. *)
Inductive DateInput :=
| DateText (denotes : option Z)
| DateEmptyText
| DateNumber (n : Z)
| DateBool (b : bool)
| DateNull.

(** Whether [v] is truthy; [undefined], [null], [false], [0] and [''] are
    not. *)
Definition truthy (v : option DateInput) : bool :=
  match v with
  | Some (DateText _) => true
  | Some (DateNumber n) => negb (n =? 0)%Z
  | Some (DateBool b) => b
  | Some DateEmptyText | Some DateNull | None => false
  end.

(** The time value of [new Date(v)]; [None] is an Invalid Date. *)
Definition new_Date (v : DateInput) : option Z :=
  match v with
  | DateText denotes => denotes
  | DateEmptyText => None
  | DateNumber n => if (Z.abs n <=? MAX_TIME)%Z then Some n else None
  | DateBool b => Some (if b then 1 else 0)%Z
  | DateNull => Some 0%Z
  end.


(** [toLowerCase] and [trim] below are those of JavaScript on strings of
    ASCII characters: the letters [A] to [Z] are lowered, and the white
    space is the blank and the characters 9 to 13. *)
Definition lower (c : ascii) : ascii :=
  let n := nat_of_ascii c in
  if (65 <=? n)%nat && (n <=? 90)%nat then ascii_of_nat (n + 32) else c.

Fixpoint toLowerCase (s : string) : string :=
  match s with
  | EmptyString => ""
  | String c r => String (lower c) (toLowerCase r)
  end.

Definition rev_string (s : string) : string :=
  string_of_list_ascii (rev (list_ascii_of_string s)).

Definition trim (s : string) : string :=
  rev_string (skip_spaces (rev_string (skip_spaces s))).

(** [s.split(' ')]: the pieces of [s] between single spaces (always at
    least one piece). *)
Fixpoint split_space_aux (cur : string) (s : string) : list string :=
  match s with
  | EmptyString => [rev_string cur]
  | String c r =>
      if Ascii.eqb c " " then rev_string cur :: split_space_aux "" r
      else split_space_aux (String c cur) r
  end.

Definition split_space (s : string) : list string := split_space_aux "" s.

(** [parts.join(' ')]. *)
Fixpoint join_space (l : list string) : string :=
  match l with
  | [] => ""
  | [x] => x
  | x :: r => x +:+ " " +:+ join_space r
  end.

(** The value of the first entry with key [k]. *)
Fixpoint assoc {V} (k : string) (l : list (string * V)) : option V :=
  match l with
  | [] => None
  | (k', v) :: r => if String.eqb k k' then Some v else assoc k r
  end.

(** [a || b] on strings: the empty string is falsy. *)
Definition or_string (a b : string) : string :=
  if String.eqb a "" then b else a.

End Js.


(* ===================================================================== *)
(** ** Exceptions and results *)
(* ===================================================================== *)

(** The error classes that the sources throw, catch or test with
    [instanceof].  Message texts are kept where a handler forwards them. *)
Inductive JsError :=
| PlainError (message : string)                       (* new Error(message) *)
| RangeError (message : string)
| ApiError (message : string) (statusCode : Z)        (* utils/ApiError.ts *)
| JsonWebTokenError (message : string)                (* jsonwebtoken *)
| TokenExpiredError (message : string) (expiredAt : Z)
| NotBeforeError (message : string)
| ZodError (path message : string)                    (* zod *)
| ValidationError (path : string)                     (* mongoose *)
| CastError (path : string)
| MongoServerError (code : Z).

(** A computation that returns a value or throws. *)
Definition Res (A : Type) : Type := (JsError + A)%type.

Definition throw {A} (e : JsError) : Res A := inl e.

#[global] Instance Res_ret : MRet Res := λ A x, inr x.
#[global] Instance Res_bind : MBind Res := λ A B f m,
  match m with
  | inl e => inl e
  | inr x => f x
  end.

#[global] Instance Res_fmap : FMap Res := λ A B f m,
  match m with
  | inl e => inl e
  | inr x => inr (f x)
  end.

(** utils/ApiError.ts, [createApiError]. *)
Module createApiError.
Definition badRequest (message : string) : JsError := ApiError message 400.
Definition unauthorized (message : string) : JsError := ApiError message 401.
Definition forbidden (message : string) : JsError := ApiError message 403.
Definition notFound (message : string) : JsError := ApiError message 404.
Definition conflict (message : string) : JsError := ApiError message 409.
End createApiError.

(* ===================================================================== *)
(** ** Store ids, tokens and digests *)
(* ===================================================================== *)

(** A store-generated id (a 96-bit [ObjectId]). *)
Definition ObjectId := N.

(** A string used where an id is expected: the text of an [ObjectId]
    ([String(_id)], [_id.toString()]), or some other text.
    [Types.ObjectId.isValid] holds of the former only. *)
Inductive IdString :=
| ValidId (o : ObjectId)
| InvalidId (s : string).

#[global] Instance IdString_eq_dec : EqDecision IdString.
Proof. solve_decision. Defined.

Definition ObjectId_isValid (s : IdString) : bool :=
  match s with
  | ValidId _ => true
  | InvalidId _ => false
  end.

Inductive Role := admin | user | moderator.

#[global] Instance Role_eq_dec : EqDecision Role.
Proof. solve_decision. Defined.

Definition Role_to_string (r : Role) : string :=
  match r with
  | admin => "admin"
  | user => "user"
  | moderator => "moderator"
  end.

(** The object that a token carries once decoded: the [JwtPayload] of the
    sources (the one of auth.middleware.ts, which has the optional [role])
    with the registered claims [iss] and [aud] that [sign] adds. *)
Record JwtPayload := mkJwtPayload {
  userId : IdString;
  email : string;
  role : option string;
  iat : option Z;
  exp : option Z;
  iss : option string;
  aud : option string;
}.

(** A string presented as a token: a well-formed JWS over a payload with an
    HS256 signature made with [key], or any other text. *)
Inductive Token :=
| Signed (key : string) (payload : JwtPayload)
| Opaque (raw : string).

(** A stored password digest: bcrypt's output for a password (what bcrypt
    reads of it) with some salt and cost, or text that is no bcrypt
    digest. *)
Inductive PasswordHash :=
| Bcrypt (salt : N) (rounds : Z) (password : string)
| NotADigest (raw : string).

(* ===================================================================== *)
(** ** The jsonwebtoken library, as far as the sources use it *)
(* ===================================================================== *)

Module Jsonwebtoken.

(** [TokenExpiredError] and [NotBeforeError] are subclasses of
    [JsonWebTokenError] (their prototypes are created from
    [JsonWebTokenError.prototype]). *)
Definition instanceof_JsonWebTokenError (e : JsError) : bool :=
  match e with
  | JsonWebTokenError _ | TokenExpiredError _ _ | NotBeforeError _ => true
  | _ => false
  end.

Definition instanceof_TokenExpiredError (e : JsError) : bool :=
  match e with
  | TokenExpiredError _ _ => true
  | _ => false
  end.

(** The unit table of the [ms] package, in milliseconds. *)
Definition ms_units : list (string * Z) :=
  let s := 1000%Z in
  let m := (s * 60)%Z in
  let h := (m * 60)%Z in
  let d := (h * 24)%Z in
  let w := (d * 7)%Z in
  let y := 31557600000%Z in
  [("years", y); ("year", y); ("yrs", y); ("yr", y); ("y", y);
   ("weeks", w); ("week", w); ("w", w);
   ("days", d); ("day", d); ("d", d);
   ("hours", h); ("hour", h); ("hrs", h); ("hr", h); ("h", h);
   ("minutes", m); ("minute", m); ("mins", m); ("min", m); ("m", m);
   ("seconds", s); ("second", s); ("secs", s); ("sec", s); ("s", s);
   ("milliseconds", 1%Z); ("millisecond", 1%Z); ("msecs", 1%Z);
   ("msec", 1%Z); ("ms", 1%Z); ("", 1%Z)].

Definition is_digit (c : ascii) : bool :=
  let n := nat_of_ascii c in (48 <=? n)%nat && (n <=? 57)%nat.

(** Splits a string into its longest prefix of decimal digits and the rest. *)
Fixpoint span_digits (s : string) : string * string :=
  match s with
  | String c r =>
      if is_digit c then let '(ds, rest) := span_digits r in (String c ds, rest)
      else ("", s)
  | EmptyString => ("", "")
  end.

Fixpoint skip_blanks (s : string) : string :=
  match s with
  | String c r => if Ascii.eqb c " " then skip_blanks r else s
  | EmptyString => ""
  end.

(** [ms(str)] for a string: an optional minus sign, a run of digits, blanks,
    and an optional unit name in any letter case; strings longer than 100
    characters and strings of any other form have no value.  The value is
    the exact product; the package computes [parseFloat(n) * unit] in
    doubles, which is that product while it is at most
    [Js.MAX_SAFE_INTEGER].  The package also reads magnitudes with a
    decimal point; they are outside this model ([None] here), and nothing
    below is stated about them. *)
Definition ms (str : string) : option Z :=
  if (100 <? String.length str)%nat then None else
  let '(sign, body) :=
    match str with
    | String "-" r => ((-1)%Z, r)
    | _ => (1%Z, str)
    end in
  let '(ds, rest) := span_digits body in
  match Js.digits_prefix 10 None ds with
  | None => None
  | Some n =>
      match Js.assoc (Js.toLowerCase (skip_blanks rest)) ms_units with
      | Some u => Some (sign * n * u)%Z
      | None => None
      end
  end.

(** lib/timespan.js: [Math.floor(iat + ms(time) / 1000)], with the exact
    quotient.  The doubles of the library give the same integer while
    [iat] and [ms(time)] are not negative and [iat * 1000 + ms(time)] is
    at most [Js.MAX_TIME]: quotient and sum are then below [2^43], each is
    rounded by at most [2^-11], and the fraction of the exact sum is a
    multiple of 1/1000. *)
Definition timespan (time : string) (iat : Z) : option Z :=
  match ms time with
  | Some millis => Some (iat + millis / 1000)%Z
  | None => None
  end.

Record SignOptions := mkSignOptions {
  expiresIn : string;
  issuer : string;
  audience : string;
}.

(** [jwt.sign(payload, secret, options)] with the default algorithm HS256
    and the three options the sources pass. *)
Definition sign (now : Z) (payload : JwtPayload) (secret : string)
    (options : SignOptions) : Res Token :=
  if String.eqb secret "" then
    throw (PlainError "secretOrPrivateKey must have a value")
  else if String.eqb (expiresIn options) "" then
    throw (PlainError "expiresIn should be a number of seconds or string representing a timespan")
  else if bool_decide (is_Some (exp payload)) then
    throw (PlainError "Bad options.expiresIn option the payload already has an exp property.")
  else if bool_decide (is_Some (iss payload)) then
    throw (PlainError "Bad options.issuer option. The payload already has an iss property.")
  else if bool_decide (is_Some (aud payload)) then
    throw (PlainError "Bad options.audience option. The payload already has an aud property.")
  else
    let timestamp := default (now / 1000)%Z (iat payload) in
    match timespan (expiresIn options) timestamp with
    | None =>
        throw (PlainError "expiresIn should be a number of seconds or string representing a timespan")
    | Some e =>
        mret (Signed secret
                {| userId := userId payload; email := email payload;
                   role := role payload; iat := Some timestamp; exp := Some e;
                   iss := Some (issuer options);
                   aud := Some (audience options) |})
    end.

(** [jwt.verify(token, secret)] with no options: the token must be
    provided and well formed, its signature must verify under [secret],
    and only then is the expiry compared with the clock, in seconds. *)
Definition verify (now : Z) (token : Token) (secret : string) : Res JwtPayload :=
  match token with
  | Opaque raw =>
      if String.eqb raw "" then throw (JsonWebTokenError "jwt must be provided")
      else throw (JsonWebTokenError "jwt malformed")
  | Signed key payload =>
      if String.eqb secret "" then
        throw (JsonWebTokenError "secret or public key must be provided")
      else if negb (String.eqb key secret) then
        throw (JsonWebTokenError "invalid signature")
      else
        match exp payload with
        | Some e =>
            if (e <=? now / 1000)%Z then
              throw (TokenExpiredError "jwt expired" (e * 1000))
            else mret payload
        | None => mret payload
        end
  end.

End Jsonwebtoken.

(* ===================================================================== *)
(** ** config: the JWT slice of the validated environment *)
(* ===================================================================== *)

Module Env.

(** The three variables of [process.env] that [envSchema] reads for the
    token service; [None] is an unset variable. *)
Record ProcessEnv := mkProcessEnv {
  JWT_SECRET : option string;
  JWT_EXPIRES_IN : option string;
  REFRESH_TOKEN_EXPIRES_IN : option string;
}.

(** [config.jwt]. *)
Record JwtConfig := mkJwtConfig {
  secret : string;
  expiresIn : string;
  refreshExpiresIn : string;
}.

(** [z.string().min(1, message)]. *)
Definition string_min1 (path message : string) (v : option string) : Res string :=
  match v with
  | None => throw (ZodError path "Required")
  | Some s => if String.eqb s "" then throw (ZodError path message) else mret s
  end.

(** [z.string().default(d)]. *)
Definition string_default (d : string) (v : option string) : Res string :=
  mret (default d v).

(** [envSchema.parse(process.env)] followed by the construction of
    [config.jwt]; a [ZodError] makes the process exit with status 1. *)
Definition parse (env : ProcessEnv) : Res JwtConfig :=
  s ← string_min1 "JWT_SECRET" "JWT_SECRET is required" (JWT_SECRET env);
  e ← string_default "1h" (JWT_EXPIRES_IN env);
  r ← string_default "7d" (REFRESH_TOKEN_EXPIRES_IN env);
  mret {| secret := s; expiresIn := e; refreshExpiresIn := r |}.

End Env.

(* ===================================================================== *)
(** ** JSON payloads *)
(* ===================================================================== *)

(** What [res.json] is given.  The leaves keep structured strings apart:
    [JIso t] is [new Date(t).toISOString()], [JIsoDay t] its part before
    the [T], [JTok] a token, [JHash] a password digest. *)
Inductive JVal :=
| JNull
| JBool (b : bool)
| JNum (q : Q)
| JStr (s : string)
| JIso (t : Z)
| JIsoDay (t : Z)
| JOid (o : ObjectId)
| JTok (t : Token)
| JHash (h : PasswordHash)
| JArr (items : list JVal)
| JObj (fields : list (string * JVal)).

Definition JInt (z : Z) : JVal := JNum (inject_Z z).

Definition json_of_IdString (s : IdString) : JVal :=
  match s with
  | ValidId o => JOid o
  | InvalidId t => JStr t
  end.

(** [v] has a field named [k], at any depth. *)
Fixpoint has_key (k : string) (v : JVal) : bool :=
  match v with
  | JArr items => existsb (has_key k) items
  | JObj fields =>
      existsb (λ kv, String.eqb k (fst kv) || has_key k (snd kv)) fields
  | _ => false
  end.

(** [v] holds a password digest, at any depth. *)
Fixpoint has_hash (v : JVal) : bool :=
  match v with
  | JHash _ => true
  | JArr items => existsb has_hash items
  | JObj fields => existsb (λ kv, has_hash (snd kv)) fields
  | _ => false
  end.

(** The field [k] of an object ([None] when absent or not an object). *)
Definition field (k : string) (v : JVal) : option JVal :=
  match v with
  | JObj fields => Js.assoc k fields
  | _ => None
  end.

Record Response := mkResponse {
  status : Z;
  body : JVal;
}.

(* ===================================================================== *)
(** ** Requests and responses of the middlewares *)
(* ===================================================================== *)

(** The value of the [Authorization] header: ['Bearer '] followed by a
    token string, or anything else. *)
Inductive AuthHeader :=
| Bearer (token : Token)
| OtherHeader (raw : string).

(** [req.user] as the middleware attaches it; an absent timestamp is the
    empty string. *)
Record AuthUser := mkAuthUser {
  au_id : IdString;
  au_email : string;
  au_role : string;
  au_createdAt : option Z;
  au_updatedAt : option Z;
}.

Inductive MiddlewareResult :=
| Responded (r : Response)
| Next (u : AuthUser).

(** The body of an error response of the middlewares. *)
Definition error_body (now : Z) (error message : string) : JVal :=
  JObj [("success", JBool false); ("error", JStr error);
        ("message", JStr message); ("timestamp", JIso now)].

(** [authHeader && authHeader.startsWith('Bearer ') ? authHeader.substring(7) : null],
    with the empty string, which is falsy like [null], mapped to [None]. *)
Definition bearer_token (authorization : option AuthHeader) : option Token :=
  match authorization with
  | Some (Bearer (Opaque "")) => None
  | Some (Bearer t) => Some t
  | _ => None
  end.

(* ===================================================================== *)
(** ** middleware/auth.ts: the token service *)
(* ===================================================================== *)

(** The [User] object of the API ([transformUserForAPI] adds [role]). *)
Record User := mkUser {
  user_id : IdString;
  user_email : string;
  firstName : string;
  lastName : string;
  dateOfBirth : Z;       (* printed as the day part of the ISO text *)
  enrollmentDate : Z;    (* idem *)
  user_createdAt : Z;
  user_updatedAt : Z;
  user_role : Role;
}.

Module Auth.

Definition sign_options (expiresIn : string) : Jsonwebtoken.SignOptions :=
  {| Jsonwebtoken.expiresIn := expiresIn;
     Jsonwebtoken.issuer := "acme-patient-dashboard";
     Jsonwebtoken.audience := "acme-patient-dashboard-frontend" |}.

Definition payload_of (u : User) : JwtPayload :=
  {| userId := user_id u; email := user_email u; role := None;
     iat := None; exp := None; iss := None; aud := None |}.

Definition generateAccessToken (config : Env.JwtConfig) (now : Z) (u : User)
    : Res Token :=
  Jsonwebtoken.sign now (payload_of u) (Env.secret config)
    (sign_options (Env.expiresIn config)).

Definition generateRefreshToken (config : Env.JwtConfig) (now : Z) (u : User)
    : Res Token :=
  Jsonwebtoken.sign now (payload_of u) (Env.secret config)
    (sign_options (Env.refreshExpiresIn config)).

Definition verifyRefreshToken (config : Env.JwtConfig) (now : Z) (token : Token)
    : Res JwtPayload :=
  Jsonwebtoken.verify now token (Env.secret config).

(** The products are the exact ones; the doubles of the code give the
    same number while the result is at most [Js.MAX_SAFE_INTEGER]. *)
Definition parseExpiration (expiresIn : string) : Res Js.Num :=
  let unit := Js.slice_last expiresIn in
  let value := Js.parseInt (Js.slice_init expiresIn) in
  if String.eqb unit "s" then mret (Js.num_mul value 1000)
  else if String.eqb unit "m" then mret (Js.num_mul (Js.num_mul value 60) 1000)
  else if String.eqb unit "h" then
    mret (Js.num_mul (Js.num_mul (Js.num_mul value 60) 60) 1000)
  else if String.eqb unit "d" then
    mret (Js.num_mul (Js.num_mul (Js.num_mul (Js.num_mul value 24) 60) 60) 1000)
  else throw (PlainError ("Invalid expiration format: " +:+ expiresIn)).

(** Returns the instant whose ISO text the source returns;
    [toISOString] throws a [RangeError] on an invalid date. *)
Definition getTokenExpiration (now : Z) (expiresIn : string) : Res Z :=
  p ← parseExpiration expiresIn;
  match Js.num_add now p with
  | Some t =>
      if (Z.abs t <=? Js.MAX_TIME)%Z then mret t
      else throw (RangeError "Invalid time value")
  | None => throw (RangeError "Invalid time value")
  end.

(** [authenticateToken] of this file: after the verification the user
    lookup is a constant [null] (the lookup is left as a TODO), so a token
    that verifies is answered with "User not found". *)
Definition authenticateToken (config : Env.JwtConfig) (now : Z)
    (authorization : option AuthHeader) : MiddlewareResult :=
  match bearer_token authorization with
  | None =>
      Responded
        {| status := 401;
           body := error_body now "Access token required"
                     "Please provide a valid access token in the Authorization header" |}
  | Some token =>
      match Jsonwebtoken.verify now token (Env.secret config) with
      | inr decoded =>
          Responded
            {| status := 401;
               body := error_body now "User not found"
                         "The user associated with this token no longer exists" |}
      | inl error =>
          if Jsonwebtoken.instanceof_TokenExpiredError error then
            Responded
              {| status := 401;
                 body := error_body now "Token expired"
                           "Access token has expired. Please refresh your token or login again" |}
          else if Jsonwebtoken.instanceof_JsonWebTokenError error then
            Responded
              {| status := 401;
                 body := error_body now "Invalid token"
                           "The provided access token is invalid" |}
          else
            Responded
              {| status := 500;
                 body := error_body now "Authentication failed"
                           "An error occurred during authentication" |}
      end
  end.

End Auth.

(* ===================================================================== *)
(** ** models: documents and the store *)
(* ===================================================================== *)

(** models/user.model.ts *)
Record UserDoc := mkUserDoc {
  u_id : ObjectId;
  u_email : string;
  u_passwordHash : PasswordHash;
  u_name : string;
  u_dob : Z;
  u_role : Role;
  u_createdAt : Z;
  u_updatedAt : Z;
}.

(** models/medication.model.ts *)
Record MedicationDoc := mkMedicationDoc {
  m_id : ObjectId;
  m_userId : ObjectId;
  m_name : string;
  m_dosage : string;
  m_frequency : string;
  m_startDate : Z;
  m_endDate : option Z;
  m_createdAt : Z;
  m_updatedAt : Z;
}.

(** models/weightEntry.model.ts *)
Record WeightEntryDoc := mkWeightEntryDoc {
  w_id : ObjectId;
  w_userId : ObjectId;
  w_weight : Q;
  w_recordedAt : Z;
  w_notes : option string;
  w_createdAt : Z;
  w_updatedAt : Z;
}.

(** models/shipment.model.ts *)
Record ShipmentItem := mkShipmentItem {
  i_name : string;
  i_quantity : Q;
  i_price : option Q;
}.

Inductive ShipmentStatus := pending | shipped | delivered | cancelled.

Record ShipmentDoc := mkShipmentDoc {
  s_id : ObjectId;
  s_userId : ObjectId;
  s_items : list ShipmentItem;
  s_status : ShipmentStatus;
  s_trackingNumber : option string;
  s_shippedAt : option Z;
  s_deliveredAt : option Z;
  s_createdAt : Z;
  s_updatedAt : Z;
}.

(** The four collections, in insertion order, and the supply of fresh
    ids. *)
Record Db := mkDb {
  users : list UserDoc;
  medications : list MedicationDoc;
  weightEntries : list WeightEntryDoc;
  shipments : list ShipmentDoc;
  nextId : N;
}.

Definition emptyDb : Db :=
  {| users := []; medications := []; weightEntries := []; shipments := [];
     nextId := 1%N |}.

(** An [async] computation over the store: it returns or throws, and the
    writes made before a throw stay. *)
Definition Async (A : Type) : Type := Db → Res A * Db.

#[global] Instance Async_ret : MRet Async := λ A x db, (inr x, db).
#[global] Instance Async_bind : MBind Async := λ A B f m db,
  match m db with
  | (inl e, db') => (inl e, db')
  | (inr x, db') => f x db'
  end.

Definition lift {A} (r : Res A) : Async A := λ db, (r, db).
Definition async_throw {A} (e : JsError) : Async A := λ db, (inl e, db).
Definition read {A} (f : Db → A) : Async A := λ db, (inr (f db), db).
Definition write (f : Db → Db) : Async unit := λ db, (inr tt, f db).

Definition async_try_catch {A} (body : Async A) (handler : JsError → Async A)
    : Async A := λ db,
  match body db with
  | (inl e, db') => handler e db'
  | (inr x, db') => (inr x, db')
  end.

(** [new Types.ObjectId()] for a new document. *)
Definition fresh_id : Async ObjectId := λ db,
  (inr (nextId db),
   {| users := users db; medications := medications db;
      weightEntries := weightEntries db; shipments := shipments db;
      nextId := N.succ (nextId db) |}).

(** Casting a string to an [ObjectId] for a query or a document path. *)
Definition cast_ObjectId (path : string) (s : IdString) : Res ObjectId :=
  match s with
  | ValidId o => mret o
  | InvalidId _ => throw (CastError path)
  end.

(** Removes the first element that satisfies [p], as [findOneAndDelete]
    does. *)
Fixpoint remove_first {A} (p : A → bool) (l : list A) : list A :=
  match l with
  | [] => []
  | x :: r => if p x then r else x :: remove_first p r
  end.

(** Replaces the first element that satisfies [p] by its image under [f]. *)
Fixpoint update_first {A} (p : A → bool) (f : A → A) (l : list A) : list A :=
  match l with
  | [] => []
  | x :: r => if p x then f x :: r else x :: update_first p f r
  end.

(* ===================================================================== *)
(** ** utils/password.ts and the User model *)
(* ===================================================================== *)

(** What bcrypt reads of a password: its first 72 bytes. *)
Definition bcrypt_key (password : string) : string := substring 0 72 password.

(** [bcrypt.hash(password, saltRounds)] with the salt the library drew. *)
Definition hashPassword (salt : N) (password : option string) (saltRounds : Z)
    : Res PasswordHash :=
  match password with
  | Some p => mret (Bcrypt salt saltRounds (bcrypt_key p))
  | None => throw (PlainError "data and salt arguments required")
  end.

(** [bcrypt.compare(password, hashedPassword)]. *)
Definition comparePassword (password : option string) (hashedPassword : PasswordHash)
    : Res bool :=
  match password with
  | None => throw (PlainError "data and hash arguments required")
  | Some p =>
      match hashedPassword with
      | Bcrypt _ _ p' => mret (String.eqb (bcrypt_key p) (bcrypt_key p'))
      | NotADigest _ => mret false
      end
  end.

Module UserModel.

(** The schema's setters on [email]: [lowercase] and [trim]. *)
Definition normalize_email (s : string) : string := Js.trim (Js.toLowerCase s).

Definition Role_of_string (s : string) : option Role :=
  if String.eqb s "admin" then Some admin
  else if String.eqb s "user" then Some user
  else if String.eqb s "moderator" then Some moderator
  else None.

(** [User.findOne({ email })]: the filter value goes through the schema's
    setters; a filter whose value is [undefined] matches no document, every
    stored user having an email. *)
Definition findOne_email (e : option string) : Async (option UserDoc) :=
  read (λ db,
    match e with
    | Some s => List.find (λ u, String.eqb (u_email u) (normalize_email s)) (users db)
    | None => None
    end).

(** [User.findById(id)]. *)
Definition findById (i : IdString) : Async (option UserDoc) :=
  o ← lift (cast_ObjectId "_id" i);
  read (λ db, List.find (λ u, N.eqb (u_id u) o) (users db)).

(** The arguments of [new User({...})] in the register handler. *)
Record Input := mkInput {
  in_email : option string;
  in_passwordHash : PasswordHash;
  in_name : option string;
  in_dob : option Z;
  in_role : string;
}.

(** The document under construction: the schema's setters applied, and
    the paths that failed validation. *)
Definition validate (i : ObjectId) (now : Z) (x : Input) : Res UserDoc :=
  match in_email x, in_name x, in_dob x, Role_of_string (in_role x) with
  | None, _, _, _ => throw (ValidationError "email")
  | _, None, _, _ => throw (ValidationError "name")
  | _, _, None, _ => throw (ValidationError "dob")
  | _, _, _, None => throw (ValidationError "role")
  | Some e, Some n, Some d, Some r =>
      if String.eqb (normalize_email e) "" then throw (ValidationError "email")
      else if String.eqb (Js.trim n) "" then throw (ValidationError "name")
      else mret {| u_id := i; u_email := normalize_email e;
                   u_passwordHash := in_passwordHash x; u_name := Js.trim n;
                   u_dob := d; u_role := r;
                   u_createdAt := now; u_updatedAt := now |}
  end.

Definition insert (u : UserDoc) (db : Db) : Db :=
  {| users := users db ++ [u]; medications := medications db;
     weightEntries := weightEntries db; shipments := shipments db;
     nextId := nextId db |}.

(** [new User(x).save()]: validation, then the insert, which the unique
    index on [email] may refuse. *)
Definition create (now : Z) (x : Input) : Async UserDoc :=
  i ← fresh_id;
  u ← lift (validate i now x);
  taken ← read (λ db, existsb (λ v, String.eqb (u_email v) (u_email u)) (users db));
  if (taken : bool) then async_throw (MongoServerError 11000)
  else
    _ ← write (insert u);
    mret u.

(** The plain object of a document: [passwordHash] is there until it is
    deleted or projected away. *)
Record Object := mkObject {
  o_id : ObjectId;
  o_email : string;
  o_passwordHash : option PasswordHash;
  o_name : string;
  o_dob : Z;
  o_role : Role;
  o_createdAt : Z;
  o_updatedAt : Z;
}.

Definition toObject (u : UserDoc) : Object :=
  {| o_id := u_id u; o_email := u_email u;
     o_passwordHash := Some (u_passwordHash u); o_name := u_name u;
     o_dob := u_dob u; o_role := u_role u;
     o_createdAt := u_createdAt u; o_updatedAt := u_updatedAt u |}.

(** [delete (userResponse as any).passwordHash]. *)
Definition delete_passwordHash (o : Object) : Object :=
  {| o_id := o_id o; o_email := o_email o; o_passwordHash := None;
     o_name := o_name o; o_dob := o_dob o; o_role := o_role o;
     o_createdAt := o_createdAt o; o_updatedAt := o_updatedAt o |}.

(** [.select('-passwordHash')] followed by [toObject()]. *)
Definition select_without_passwordHash (u : UserDoc) : Object :=
  {| o_id := u_id u; o_email := u_email u; o_passwordHash := None;
     o_name := u_name u; o_dob := u_dob u; o_role := u_role u;
     o_createdAt := u_createdAt u; o_updatedAt := u_updatedAt u |}.

(** What [res.json] would print for a plain object. *)
Definition json_of_Object (o : Object) : JVal :=
  JObj ([("_id", JOid (o_id o)); ("email", JStr (o_email o))]
        ++ match o_passwordHash o with
           | Some h => [("passwordHash", JHash h)]
           | None => []
           end
        ++ [("name", JStr (o_name o)); ("dob", JIso (o_dob o));
            ("role", JStr (Role_to_string (o_role o)));
            ("createdAt", JIso (o_createdAt o));
            ("updatedAt", JIso (o_updatedAt o)); ("__v", JInt 0)]).

End UserModel.

(* ===================================================================== *)
(** ** middlewares/auth.middleware.ts *)
(* ===================================================================== *)

Module AuthMiddleware.

Definition handleAuthError (now : Z) (error : JsError) : Response :=
  if Jsonwebtoken.instanceof_JsonWebTokenError error then
    {| status := 401;
       body := error_body now "Invalid token"
                 "The provided token is invalid or malformed" |}
  else if Jsonwebtoken.instanceof_TokenExpiredError error then
    {| status := 401;
       body := error_body now "Token expired" "The provided token has expired" |}
  else
    {| status := 500;
       body := error_body now "Authentication error"
                 "An error occurred during authentication" |}.

Definition authenticateToken (config : Env.JwtConfig) (now : Z)
    (authorization : option AuthHeader) (db : Db) : MiddlewareResult :=
  match bearer_token authorization with
  | None =>
      Responded
        {| status := 401;
           body := error_body now "Access token required"
                     "Please provide a valid access token in the Authorization header" |}
  | Some token =>
      let attempt : Res MiddlewareResult :=
        decoded ← Jsonwebtoken.verify now token (Env.secret config);
        found ← fst (UserModel.findById (userId decoded) db);
        match found with
        | None =>
            mret (Responded
              {| status := 401;
                 body := error_body now "User not found"
                           "The user associated with this token no longer exists" |})
        | Some u =>
            mret (Next
              {| au_id := ValidId (u_id u);
                 au_email := u_email u;
                 au_role :=
                   Js.or_string (Role_to_string (u_role u))
                     (Js.or_string (default "" (role decoded)) "user");
                 au_createdAt := Some (u_createdAt u);
                 au_updatedAt := Some (u_updatedAt u) |})
        end in
      match attempt with
      | inr r => r
      | inl error => Responded (handleAuthError now error)
      end
  end.

End AuthMiddleware.

(* ===================================================================== *)
(** ** utils/apiResponse.ts and controllers/auth.controller.ts *)
(* ===================================================================== *)

Definition sendSuccess (now : Z) (data : JVal) (message : string) (statusCode : Z)
    : Response :=
  {| status := statusCode;
     body := JObj [("success", JBool true); ("message", JStr message);
                   ("data", data); ("timestamp", JIso now);
                   ("statusCode", JInt statusCode)] |}.

Module AuthController.

Definition transformUserForAPI (userDoc : UserModel.Object) : User :=
  let name := UserModel.o_name userDoc in
  {| user_id := ValidId (UserModel.o_id userDoc);
     user_email := UserModel.o_email userDoc;
     firstName := Js.or_string (hd "" (Js.split_space name)) name;
     lastName := Js.or_string (Js.join_space (tl (Js.split_space name))) "";
     dateOfBirth := UserModel.o_dob userDoc;
     enrollmentDate := UserModel.o_createdAt userDoc;
     user_createdAt := UserModel.o_createdAt userDoc;
     user_updatedAt := UserModel.o_updatedAt userDoc;
     user_role := UserModel.o_role userDoc |}.

Definition json_of_User (u : User) : JVal :=
  JObj [("id", json_of_IdString (user_id u));
        ("email", JStr (user_email u));
        ("firstName", JStr (firstName u));
        ("lastName", JStr (lastName u));
        ("dateOfBirth", JIsoDay (dateOfBirth u));
        ("enrollmentDate", JIsoDay (enrollmentDate u));
        ("createdAt", JIso (user_createdAt u));
        ("updatedAt", JIso (user_updatedAt u));
        ("role", JStr (Role_to_string (user_role u)))].

(** [AuthResponse]: [{ user, token, refreshToken, expiresIn }]. *)
Definition authResponse (apiUser : User) (accessToken refreshToken : Token)
    (expiresIn : Z) : JVal :=
  JObj [("user", json_of_User apiUser); ("token", JTok accessToken);
        ("refreshToken", JTok refreshToken); ("expiresIn", JIso expiresIn)].

(** The steps shared by register, login and refresh once the user object
    is at hand: transform, issue both tokens, compute the expiry text. *)
Definition issue (config : Env.JwtConfig) (now : Z) (userResponse : UserModel.Object)
    : Res JVal :=
  let apiUser := transformUserForAPI userResponse in
  accessToken ← Auth.generateAccessToken config now apiUser;
  refreshToken ← Auth.generateRefreshToken config now apiUser;
  expiresIn ← Auth.getTokenExpiration now (Env.expiresIn config);
  mret (authResponse apiUser accessToken refreshToken expiresIn).

(** [req.body] of [POST /auth/register]; [rb_dob] is the instant that
    [new Date(dob)] denotes, [None] when it denotes none. *)
Record RegisterBody := mkRegisterBody {
  rb_email : option string;
  rb_password : option string;
  rb_name : option string;
  rb_dob : option Z;
  rb_role : option string;
}.

Definition register (config : Env.JwtConfig) (now : Z) (salt : N)
    (req_body : RegisterBody) : Async Response :=
  existingUser ← UserModel.findOne_email (rb_email req_body);
  match existingUser with
  | Some _ =>
      async_throw (createApiError.conflict "User already exists with this email")
  | None =>
      passwordHash ← lift (hashPassword salt (rb_password req_body) 12);
      savedUser ← UserModel.create now
        {| UserModel.in_email := rb_email req_body;
           UserModel.in_passwordHash := passwordHash;
           UserModel.in_name := rb_name req_body;
           UserModel.in_dob := rb_dob req_body;
           UserModel.in_role := Js.or_string (default "" (rb_role req_body)) "user" |};
      let userResponse :=
        UserModel.delete_passwordHash (UserModel.toObject savedUser) in
      authResponse ← lift (issue config now userResponse);
      mret (sendSuccess now authResponse "User registered successfully" 201)
  end.

Record LoginBody := mkLoginBody {
  lb_email : option string;
  lb_password : option string;
}.

Definition login (config : Env.JwtConfig) (now : Z) (req_body : LoginBody)
    : Async Response :=
  found ← UserModel.findOne_email (lb_email req_body);
  match found with
  | None => async_throw (createApiError.unauthorized "Invalid credentials")
  | Some u =>
      isPasswordValid ← lift (comparePassword (lb_password req_body) (u_passwordHash u));
      if (isPasswordValid : bool) then
        let userResponse :=
          UserModel.delete_passwordHash (UserModel.toObject u) in
        authResponse ← lift (issue config now userResponse);
        mret (sendSuccess now authResponse "Login successful" 200)
      else async_throw (createApiError.unauthorized "Invalid credentials")
  end.

Definition logout (now : Z) : Async Response :=
  mret (sendSuccess now JNull "Logged out successfully" 200).

(** [req.body.refreshToken]; an absent field and the empty string are both
    falsy. *)
Definition refreshToken (config : Env.JwtConfig) (now : Z)
    (req_refreshToken : option Token) : Async Response :=
  match req_refreshToken with
  | None | Some (Opaque "") =>
      async_throw (createApiError.badRequest "Refresh token is required")
  | Some token =>
      async_try_catch
        (decoded ← lift (Auth.verifyRefreshToken config now token);
         found ← UserModel.findById (userId decoded);
         match found with
         | None => async_throw (createApiError.unauthorized "User not found")
         | Some u =>
             let userResponse :=
               UserModel.delete_passwordHash (UserModel.toObject u) in
             authResponse ← lift (issue config now userResponse);
             mret (sendSuccess now authResponse "Token refreshed successfully" 200)
         end)
        (λ _, async_throw
                (createApiError.unauthorized "Invalid or expired refresh token"))
  end.

(** [req.user?.id] is falsy when [req.user] is unset or the id is the
    empty string. *)
Definition truthy_id (u : option AuthUser) : option IdString :=
  match u with
  | None => None
  | Some a =>
      match au_id a with
      | InvalidId "" => None
      | i => Some i
      end
  end.

Definition getProfile (now : Z) (req_user : option AuthUser) : Async Response :=
  match truthy_id req_user with
  | None => async_throw (createApiError.unauthorized "User not authenticated")
  | Some i =>
      found ← UserModel.findById i;
      match found with
      | None => async_throw (createApiError.notFound "User not found")
      | Some u =>
          let apiUser :=
            transformUserForAPI (UserModel.select_without_passwordHash u) in
          mret (sendSuccess now (json_of_User apiUser)
                  "User profile retrieved successfully" 200)
      end
  end.

End AuthController.

(* ===================================================================== *)
(** ** controllers/medication.controller.ts *)
(* ===================================================================== *)

Definition set_medications (l : list MedicationDoc) (db : Db) : Db :=
  {| users := users db; medications := l; weightEntries := weightEntries db;
     shipments := shipments db; nextId := nextId db |}.

Definition json_opt {A} (k : string) (f : A → JVal) (v : option A)
    : list (string * JVal) :=
  match v with
  | Some x => [(k, f x)]
  | None => []
  end.

Definition json_of_Medication (m : MedicationDoc) : JVal :=
  JObj ([("_id", JOid (m_id m)); ("userId", JOid (m_userId m));
         ("name", JStr (m_name m)); ("dosage", JStr (m_dosage m));
         ("frequency", JStr (m_frequency m)); ("startDate", JIso (m_startDate m))]
        ++ json_opt "endDate" JIso (m_endDate m)
        ++ [("createdAt", JIso (m_createdAt m));
            ("updatedAt", JIso (m_updatedAt m)); ("__v", JInt 0)]).

Module MedicationController.

(** The handlers of this module read [req.user?.id]; they are stated for
    a request on which an authentication middleware has set [req.user],
    the [caller]. *)

(** [req.body] of a medication request, past the validators of the
    route: each field is absent or holds a value of the schema's type; a
    client may send a [userId] of its own. *)
Record Body := mkBody {
  b_userId : option IdString;
  b_name : option string;
  b_dosage : option string;
  b_frequency : option string;
  b_startDate : option Z;
  b_endDate : option Z;
}.

(** [{ ...req.body, userId: req.user?.id }]. *)
Definition spread_with_userId (req_body : Body) (uid : option IdString) : Body :=
  {| b_userId := uid; b_name := b_name req_body; b_dosage := b_dosage req_body;
     b_frequency := b_frequency req_body; b_startDate := b_startDate req_body;
     b_endDate := b_endDate req_body |}.

Definition required_string (path : string) (v : option string) : Res string :=
  match v with
  | Some s => if String.eqb (Js.trim s) "" then throw (ValidationError path)
              else mret (Js.trim s)
  | None => throw (ValidationError path)
  end.

Definition required_id (path : string) (v : option IdString) : Res ObjectId :=
  match v with
  | Some (ValidId o) => mret o
  | _ => throw (ValidationError path)
  end.

Definition required_date (path : string) (v : option Z) : Res Z :=
  match v with
  | Some t => mret t
  | None => throw (ValidationError path)
  end.

(** [Medication.create(x)]. *)
Definition create (now : Z) (x : Body) : Async MedicationDoc :=
  i ← fresh_id;
  m ← lift (uid ← required_id "userId" (b_userId x);
            name ← required_string "name" (b_name x);
            dosage ← required_string "dosage" (b_dosage x);
            frequency ← required_string "frequency" (b_frequency x);
            startDate ← required_date "startDate" (b_startDate x);
            mret {| m_id := i; m_userId := uid; m_name := name;
                    m_dosage := dosage; m_frequency := frequency;
                    m_startDate := startDate; m_endDate := b_endDate x;
                    m_createdAt := now; m_updatedAt := now |});
  _ ← write (λ db, set_medications (medications db ++ [m]) db);
  mret m.

Definition createMedication (now : Z) (caller : AuthUser) (req_body : Body)
    : Async Response :=
  medication ← create now (spread_with_userId req_body (Some (au_id caller)));
  mret {| status := 201;
          body := JObj [("success", JBool true);
                        ("data", json_of_Medication medication)] |}.

(** The filter [{ _id: req.params.id, userId: req.user?.id }], cast. *)
Definition owned_by (i uid : ObjectId) (m : MedicationDoc) : bool :=
  N.eqb (m_id m) i && N.eqb (m_userId m) uid.

Definition cast_filter (params_id : IdString) (caller : AuthUser)
    : Res (ObjectId * ObjectId) :=
  i ← cast_ObjectId "_id" params_id;
  uid ← cast_ObjectId "userId" (au_id caller);
  mret (i, uid).

Definition not_found : Response :=
  {| status := 404;
     body := JObj [("success", JBool false); ("error", JStr "Not found")] |}.

Definition ok (m : MedicationDoc) : Response :=
  {| status := 200;
     body := JObj [("success", JBool true); ("data", json_of_Medication m)] |}.

(** [getMedications]: [Medication.find({ userId: req.user?.id })]. *)
Definition getMedications (caller : AuthUser) : Async Response :=
  uid ← lift (cast_ObjectId "userId" (au_id caller));
  found ← read (λ db, filter (λ m, N.eqb (m_userId m) uid = true) (medications db));
  mret {| status := 200;
          body := JObj [("success", JBool true);
                        ("data", JArr (json_of_Medication <$> found))] |}.

Definition getMedication (caller : AuthUser) (params_id : IdString) : Async Response :=
  '(i, uid) ← lift (cast_filter params_id caller);
  medication ← read (λ db, List.find (owned_by i uid) (medications db));
  match medication with
  | None => mret not_found
  | Some m => mret (ok m)
  end.

(** The update that [findOneAndUpdate] applies for a request body: the
    fields present are set, and [updatedAt] is refreshed. *)
Definition apply_update (now : Z) (x : Body) (m : MedicationDoc) : MedicationDoc :=
  {| m_id := m_id m;
     m_userId := match b_userId x with
                 | Some (ValidId o) => o
                 | _ => m_userId m
                 end;
     m_name := default (m_name m) (Js.trim <$> b_name x);
     m_dosage := default (m_dosage m) (Js.trim <$> b_dosage x);
     m_frequency := default (m_frequency m) (Js.trim <$> b_frequency x);
     m_startDate := default (m_startDate m) (b_startDate x);
     m_endDate := match b_endDate x with
                  | Some t => Some t
                  | None => m_endDate m
                  end;
     m_createdAt := m_createdAt m;
     m_updatedAt := now |}.

Definition cast_update (x : Body) : Res Body :=
  match b_userId x with
  | Some (InvalidId _) => throw (CastError "userId")
  | _ => mret x
  end.

Definition updateMedication (now : Z) (caller : AuthUser) (params_id : IdString)
    (req_body : Body) : Async Response :=
  '(i, uid) ← lift (cast_filter params_id caller);
  x ← lift (cast_update req_body);
  medication ← read (λ db, List.find (owned_by i uid) (medications db));
  match medication with
  | None => mret not_found
  | Some m =>
      _ ← write (λ db,
            set_medications
              (update_first (owned_by i uid) (apply_update now x) (medications db)) db);
      mret (ok (apply_update now x m))
  end.

Definition deleteMedication (caller : AuthUser) (params_id : IdString)
    : Async Response :=
  '(i, uid) ← lift (cast_filter params_id caller);
  medication ← read (λ db, List.find (owned_by i uid) (medications db));
  match medication with
  | None => mret not_found
  | Some m =>
      _ ← write (λ db,
            set_medications (remove_first (owned_by i uid) (medications db)) db);
      mret (ok m)
  end.

End MedicationController.

(* ===================================================================== *)
(** ** controllers/weightEntry.controller.ts *)
(* ===================================================================== *)

Definition set_weightEntries (l : list WeightEntryDoc) (db : Db) : Db :=
  {| users := users db; medications := medications db; weightEntries := l;
     shipments := shipments db; nextId := nextId db |}.

Definition json_of_WeightEntry (w : WeightEntryDoc) : JVal :=
  JObj ([("_id", JOid (w_id w)); ("userId", JOid (w_userId w));
         ("weight", JNum (w_weight w)); ("recordedAt", JIso (w_recordedAt w))]
        ++ json_opt "notes" JStr (w_notes w)
        ++ [("createdAt", JIso (w_createdAt w));
            ("updatedAt", JIso (w_updatedAt w)); ("__v", JInt 0)]).

(** Values that a sort compares: a missing value sorts first, then
    numbers and dates, then strings. *)
Inductive SortKey :=
| KNull
| KNum (q : Q)
| KStr (s : string).

Definition key_leb (a b : SortKey) : bool :=
  match a, b with
  | KNull, _ => true
  | KNum _, KNull => false
  | KNum x, KNum y => Qle_bool x y
  | KNum _, KStr _ => true
  | KStr _, KNull => false
  | KStr _, KNum _ => false
  | KStr x, KStr y => String.leb x y
  end.

Module WeightEntryController.

(** The envelope of every response of this controller; [data: undefined]
    is left out by the serialiser. *)
Definition envelope (now : Z) (success : bool) (message : string)
    (data : option JVal) : JVal :=
  JObj ([("success", JBool success); ("message", JStr message)]
        ++ json_opt "data" (λ d, d) data
        ++ [("timestamp", JIso now)]).

Definition fail (now : Z) (code : Z) (message : string) : Response :=
  {| status := code; body := envelope now false message None |}.

Definition unauthenticated (now : Z) : Response := fail now 401 "User not authenticated".
Definition internal_error (now : Z) : Response := fail now 500 "Internal server error".
Definition invalid_id (now : Z) : Response := fail now 400 "Invalid weight entry ID".
Definition not_found (now : Z) : Response := fail now 404 "Weight entry not found".

(** [req.user?.id], [None] when it is falsy. *)
Definition userId_of (req_user : option AuthUser) : option IdString :=
  AuthController.truthy_id req_user.

(** [Types.ObjectId.isValid(userId) ? new Types.ObjectId(userId) : userId],
    then the cast of the query or document path [userId]. *)
Definition owner (userId : IdString) : Res ObjectId :=
  if ObjectId_isValid userId then cast_ObjectId "userId" userId
  else throw (CastError "userId").

(** [req.query] of the list request; the dates are the instants that
    [new Date(startDate)] and [new Date(endDate)] denote. *)
Record Query := mkQuery {
  q_page : option string;
  q_limit : option string;
  q_startDate : option Z;
  q_endDate : option Z;
  q_sortBy : option string;
  q_sortOrder : option string;
}.

Definition matches (uid : ObjectId) (startDate endDate : option Z)
    (w : WeightEntryDoc) : bool :=
  N.eqb (w_userId w) uid
  && match startDate with
     | Some a => (a <=? w_recordedAt w)%Z
     | None => true
     end
  && match endDate with
     | Some b => (w_recordedAt w <=? b)%Z
     | None => true
     end.

Definition sort_key (path : string) (w : WeightEntryDoc) : SortKey :=
  if String.eqb path "recordedAt" then KNum (inject_Z (w_recordedAt w))
  else if String.eqb path "weight" then KNum (w_weight w)
  else if String.eqb path "createdAt" then KNum (inject_Z (w_createdAt w))
  else if String.eqb path "updatedAt" then KNum (inject_Z (w_updatedAt w))
  else if String.eqb path "_id" then KNum (inject_Z (Z.of_N (w_id w)))
  else if String.eqb path "userId" then KNum (inject_Z (Z.of_N (w_userId w)))
  else if String.eqb path "notes" then
    match w_notes w with
    | Some s => KStr s
    | None => KNull
    end
  else KNull.

Definition key_le (path : string) (a b : WeightEntryDoc) : Prop :=
  key_leb (sort_key path a) (sort_key path b) = true.

#[global] Instance key_le_dec path a b : Decision (key_le path a b).
Proof. unfold key_le. apply _. Defined.

(** [.sort({ [path]: direction })]; ties keep the store's order. *)
Definition sorted (path : string) (descending : bool) (l : list WeightEntryDoc)
    : list WeightEntryDoc :=
  if descending then merge_sort (flip (key_le path)) l
  else merge_sort (key_le path) l.

(** [.skip(skip).limit(limit)]: a [NaN] or a negative skip is refused by
    the store; a limit of zero is no limit and a negative limit counts by
    its magnitude. *)
Definition skip_limit {A} (skip limit : Js.Num) (l : list A) : Res (list A) :=
  match skip, limit with
  | Some s, Some n =>
      if (s <? 0)%Z then throw (MongoServerError 2)
      else if (n =? 0)%Z then mret (drop (Z.to_nat s) l)
      else mret (take (Z.to_nat (Z.abs n)) (drop (Z.to_nat s) l))
  | _, _ => throw (CastError "skip")
  end.

Definition getWeightEntries (now : Z) (req_user : option AuthUser) (req_query : Query)
    : Async Response :=
  match userId_of req_user with
  | None => mret (unauthenticated now)
  | Some userId =>
      async_try_catch
        (let page := default "1" (q_page req_query) in
         let limit := default "50" (q_limit req_query) in
         let sortBy := default "recordedAt" (q_sortBy req_query) in
         let sortOrder := default "desc" (q_sortOrder req_query) in
         uid ← lift (owner userId);
         let query := matches uid (q_startDate req_query) (q_endDate req_query) in
         let skip :=
           match Js.parseInt page, Js.parseInt limit with
           | Some p, Some n => Some ((p - 1) * n)%Z
           | _, _ => None
           end in
         found ← read (λ db, filter (λ w, query w = true) (weightEntries db));
         entries ← lift (skip_limit skip (Js.parseInt limit)
                                 (sorted sortBy (String.eqb sortOrder "desc") found));
         total ← read (λ db, length (filter (λ w, query w = true) (weightEntries db)));
         mret {| status := 200;
                 body := envelope now true "Weight entries retrieved successfully"
                           (Some (JArr (json_of_WeightEntry <$> entries))) |})
        (λ _, mret (internal_error now))
  end.

(** [req.body] of a create or update request: [wb_weight] is the number
    that the schema casts [weight] to; [wb_recordedAt] is the value of
    [recordedAt], [None] when the field is absent. *)
Record Body := mkBody {
  wb_weight : option Q;
  wb_recordedAt : option Js.DateInput;
  wb_notes : option string;
}.

(** [recordedAt ? new Date(recordedAt) : new Date()], and likewise
    [new Date(recordedAt || Date.now())], for the reading [clock]; [None]
    is an Invalid Date. *)
Definition date_or (recordedAt : option Js.DateInput) (clock : Z) : option Z :=
  if Js.truthy recordedAt then recordedAt ≫= Js.new_Date else Some clock.

(** The cast of a [Date] for the path [recordedAt] of a filter. *)
Definition cast_Date (d : option Z) : Res Z :=
  match d with
  | Some t => mret t
  | None => throw (CastError "recordedAt")
  end.

(** The validation of the path [recordedAt] of a document. *)
Definition validate_recordedAt (d : option Z) : Res Z :=
  match d with
  | Some t => mret t
  | None => throw (ValidationError "recordedAt")
  end.

(** The schema's validators on [weight]: required, and at least 0. *)
Definition validate_weight (v : option Q) : Res Q :=
  match v with
  | Some q => if Qle_bool 0 q then mret q else throw (ValidationError "weight")
  | None => throw (ValidationError "weight")
  end.

Definition same_date (uid : ObjectId) (t : Z) (w : WeightEntryDoc) : bool :=
  N.eqb (w_userId w) uid && (w_recordedAt w =? t)%Z.

(** The handler reads the clock before and after it awaits the lookup.
    [now] is the first reading: [Date.now()] in the filter of the lookup
    (and the timestamp of the 401).  [later] stands for the readings made
    once the lookup has been awaited: [new Date()] for the date to store,
    the timestamps that [save()] sets, and the timestamps of the other
    answers. *)
Definition createWeightEntry (now later : Z) (req_user : option AuthUser)
    (req_body : Body) : Async Response :=
  match userId_of req_user with
  | None => mret (unauthenticated now)
  | Some userId =>
      async_try_catch
        (uid ← lift (owner userId);
         date ← lift (cast_Date (date_or (wb_recordedAt req_body) now));
         existingEntry ← read (λ db,
           List.find (same_date uid date) (weightEntries db));
         match existingEntry with
         | Some _ =>
             mret (fail later 409 "Weight entry already exists for this date")
         | None =>
             i ← fresh_id;
             weight ← lift (validate_weight (wb_weight req_body));
             recordedAt ← lift (validate_recordedAt
                                  (date_or (wb_recordedAt req_body) later));
             let savedEntry :=
               {| w_id := i; w_userId := uid; w_weight := weight;
                  w_recordedAt := recordedAt;
                  w_notes := wb_notes req_body;
                  w_createdAt := later; w_updatedAt := later |} in
             _ ← write (λ db, set_weightEntries (weightEntries db ++ [savedEntry]) db);
             mret {| status := 201;
                     body := envelope later true "Weight entry created successfully"
                               (Some (json_of_WeightEntry savedEntry)) |}
         end)
        (λ _, mret (internal_error later))
  end.

Definition owned_by (i uid : ObjectId) (w : WeightEntryDoc) : bool :=
  N.eqb (w_id w) i && N.eqb (w_userId w) uid.

Definition getWeightEntry (now : Z) (req_user : option AuthUser) (params_id : IdString)
    : Async Response :=
  match userId_of req_user with
  | None => mret (unauthenticated now)
  | Some userId =>
      if negb (ObjectId_isValid params_id) then mret (invalid_id now)
      else
          async_try_catch
            (i ← lift (cast_ObjectId "_id" params_id);
             uid ← lift (owner userId);
             weightEntry ← read (λ db, List.find (owned_by i uid) (weightEntries db));
             match weightEntry with
             | None => mret (not_found now)
             | Some w =>
                 mret {| status := 200;
                         body := envelope now true "Weight entry retrieved successfully"
                                   (Some (json_of_WeightEntry w)) |}
             end)
            (λ _, mret (internal_error now))
  end.

(** The assignments of the update handler, for the fields that are not
    [undefined].  The date assigned is [new Date(recordedAt)]; an Invalid
    Date is kept by the document as a failed cast, which [save()] reports. *)
Definition assign (x : Body) (w : WeightEntryDoc) : Res WeightEntryDoc :=
  recordedAt ← match wb_recordedAt x with
               | Some v => validate_recordedAt (Js.new_Date v)
               | None => mret (w_recordedAt w)
               end;
  mret {| w_id := w_id w; w_userId := w_userId w;
          w_weight := default (w_weight w) (wb_weight x);
          w_recordedAt := recordedAt;
          w_notes := match wb_notes x with
                     | Some s => Some s
                     | None => w_notes w
                     end;
          w_createdAt := w_createdAt w; w_updatedAt := w_updatedAt w |}.

(** Whether the assignments changed the document: assigning to a path
    the value it holds does not mark it modified. *)
Definition modified (loaded assigned : WeightEntryDoc) : bool :=
  negb (Qeq_bool (w_weight loaded) (w_weight assigned)
        && (w_recordedAt loaded =? w_recordedAt assigned)%Z
        && bool_decide (w_notes loaded = w_notes assigned)).

(** [save()] of a loaded document: the required path [weight] is
    validated, and a document that the assignments changed is written with
    a new [updatedAt]; one that they left as it was is not written. *)
Definition save_modified (now : Z) (loaded assigned : WeightEntryDoc)
    : Res WeightEntryDoc :=
  _ ← validate_weight (Some (w_weight assigned));
  if modified loaded assigned then
    mret {| w_id := w_id assigned; w_userId := w_userId assigned;
            w_weight := w_weight assigned;
            w_recordedAt := w_recordedAt assigned; w_notes := w_notes assigned;
            w_createdAt := w_createdAt assigned; w_updatedAt := now |}
  else mret loaded.

Definition updateWeightEntry (now : Z) (req_user : option AuthUser)
    (params_id : IdString) (req_body : Body) : Async Response :=
  match userId_of req_user with
  | None => mret (unauthenticated now)
  | Some userId =>
      if negb (ObjectId_isValid params_id) then mret (invalid_id now)
      else
          async_try_catch
            (i ← lift (cast_ObjectId "_id" params_id);
             uid ← lift (owner userId);
             weightEntry ← read (λ db, List.find (owned_by i uid) (weightEntries db));
             match weightEntry with
             | None => mret (not_found now)
             | Some w =>
                 assigned ← lift (assign req_body w);
                 updatedEntry ← lift (save_modified now w assigned);
                 _ ← write (λ db,
                       set_weightEntries
                         (update_first (λ v, N.eqb (w_id v) (w_id w)) (λ _, updatedEntry)
                            (weightEntries db)) db);
                 mret {| status := 200;
                         body := envelope now true "Weight entry updated successfully"
                                   (Some (json_of_WeightEntry updatedEntry)) |}
             end)
            (λ _, mret (internal_error now))
  end.

Definition deleteWeightEntry (now : Z) (req_user : option AuthUser)
    (params_id : IdString) : Async Response :=
  match userId_of req_user with
  | None => mret (unauthenticated now)
  | Some userId =>
      if negb (ObjectId_isValid params_id) then mret (invalid_id now)
      else
          async_try_catch
            (i ← lift (cast_ObjectId "_id" params_id);
             uid ← lift (owner userId);
             weightEntry ← read (λ db, List.find (owned_by i uid) (weightEntries db));
             match weightEntry with
             | None => mret (not_found now)
             | Some _ =>
                 _ ← write (λ db,
                       set_weightEntries
                         (remove_first (owned_by i uid) (weightEntries db)) db);
                 mret {| status := 200;
                         body := envelope now true "Weight entry deleted successfully"
                                   (Some JNull) |}
             end)
            (λ _, mret (internal_error now))
  end.

End WeightEntryController.

(* ===================================================================== *)
(** ** controllers/shipment.controller.ts *)
(* ===================================================================== *)

Definition set_shipments (l : list ShipmentDoc) (db : Db) : Db :=
  {| users := users db; medications := medications db;
     weightEntries := weightEntries db; shipments := l; nextId := nextId db |}.

Definition ShipmentStatus_to_string (s : ShipmentStatus) : string :=
  match s with
  | pending => "pending"
  | shipped => "shipped"
  | delivered => "delivered"
  | cancelled => "cancelled"
  end.

Definition json_of_ShipmentItem (i : ShipmentItem) : JVal :=
  JObj ([("name", JStr (i_name i)); ("quantity", JNum (i_quantity i))]
        ++ json_opt "price" JNum (i_price i)).

Definition json_of_Shipment (s : ShipmentDoc) : JVal :=
  JObj ([("_id", JOid (s_id s)); ("userId", JOid (s_userId s));
         ("items", JArr (json_of_ShipmentItem <$> s_items s));
         ("status", JStr (ShipmentStatus_to_string (s_status s)))]
        ++ json_opt "trackingNumber" JStr (s_trackingNumber s)
        ++ json_opt "shippedAt" JIso (s_shippedAt s)
        ++ json_opt "deliveredAt" JIso (s_deliveredAt s)
        ++ [("createdAt", JIso (s_createdAt s));
            ("updatedAt", JIso (s_updatedAt s)); ("__v", JInt 0)]).

Definition error_message (e : JsError) : string :=
  match e with
  | PlainError m | RangeError m | ApiError m _ | JsonWebTokenError m
  | TokenExpiredError m _ | NotBeforeError m => m
  | ZodError _ m => m
  | ValidationError path => "Shipment validation failed: " +:+ path
  | CastError path => "Cast to ObjectId failed at path " +:+ path
  | MongoServerError _ => "MongoServerError"
  end.

Module ShipmentController.

(** The routes of this controller are registered without
    [authenticateToken], and the handlers read [req.body] and
    [req.params] only. *)

Record ItemBody := mkItemBody {
  ib_name : option string;
  ib_quantity : option Q;
  ib_price : option Q;
}.

(** [req.body]: each field is absent or holds a value of the schema's
    type; [sb_id] is the [_id] that a client may send along. *)
Record Body := mkBody {
  sb_id : option IdString;
  sb_userId : option IdString;
  sb_items : option (list ItemBody);
  sb_status : option ShipmentStatus;
  sb_trackingNumber : option string;
  sb_shippedAt : option Z;
  sb_deliveredAt : option Z;
}.

Definition validate_item (x : ItemBody) : Res ShipmentItem :=
  match ib_name x, ib_quantity x with
  | Some n, Some q =>
      if String.eqb (Js.trim n) "" then throw (ValidationError "items.name")
      else if negb (Qle_bool 1 q) then throw (ValidationError "items.quantity")
      else
        match ib_price x with
        | Some p =>
            if Qle_bool 0 p then
              mret {| i_name := Js.trim n; i_quantity := q; i_price := Some p |}
            else throw (ValidationError "items.price")
        | None => mret {| i_name := Js.trim n; i_quantity := q; i_price := None |}
        end
  | None, _ => throw (ValidationError "items.name")
  | _, None => throw (ValidationError "items.quantity")
  end.

Fixpoint validate_items (l : list ItemBody) : Res (list ShipmentItem) :=
  match l with
  | [] => mret []
  | x :: r =>
      i ← validate_item x;
      rest ← validate_items r;
      mret (i :: rest)
  end.

(** [new Shipment(req.body)]: the document takes the [_id] of the body
    when there is one, and a fresh id otherwise; an [_id] that is no id is
    a failed cast, which [save()] reports. *)
Definition new_id (x : Body) : Async ObjectId :=
  match sb_id x with
  | None => fresh_id
  | Some (ValidId o) => mret o
  | Some (InvalidId _) => async_throw (ValidationError "_id")
  end.

(** The validation of [save()]; an absent [items] is the empty array. *)
Definition validate (i : ObjectId) (now : Z) (x : Body) : Res ShipmentDoc :=
  match sb_userId x with
  | Some (ValidId uid) =>
      match default [] (sb_items x) with
      | [] => throw (ValidationError "items")
      | l =>
          items ← validate_items l;
          mret {| s_id := i; s_userId := uid; s_items := items;
                  s_status := default pending (sb_status x);
                  s_trackingNumber := Js.trim <$> sb_trackingNumber x;
                  s_shippedAt := sb_shippedAt x;
                  s_deliveredAt := sb_deliveredAt x;
                  s_createdAt := now; s_updatedAt := now |}
      end
  | _ => throw (ValidationError "userId")
  end.

(** The insert of [save()], which the index on [_id] refuses when the id
    is taken. *)
Definition insert (shipment : ShipmentDoc) : Async unit :=
  taken ← read (λ db, existsb (λ s, N.eqb (s_id s) (s_id shipment)) (shipments db));
  if (taken : bool) then async_throw (MongoServerError 11000)
  else write (λ db, set_shipments (shipments db ++ [shipment]) db).

Definition getAllShipments : Async Response :=
  async_try_catch
    (found ← read shipments;
     mret {| status := 200;
             body := JObj [("success", JBool true);
                           ("data", JArr (json_of_Shipment <$> found))] |})
    (λ _, mret {| status := 500;
                  body := JObj [("success", JBool false);
                                ("error", JStr "Failed to fetch shipments")] |}).

Definition failed (code : Z) (error : string) (e : JsError) : Response :=
  {| status := code;
     body := JObj [("success", JBool false); ("error", JStr error);
                   ("message", JStr (error_message e))] |}.

Definition not_found : Response :=
  {| status := 404;
     body := JObj [("success", JBool false); ("error", JStr "Shipment not found")] |}.

Definition createShipment (now : Z) (req_body : Body) : Async Response :=
  async_try_catch
    (i ← new_id req_body;
     shipment ← lift (validate i now req_body);
     _ ← insert shipment;
     mret {| status := 201;
             body := JObj [("success", JBool true);
                           ("data", json_of_Shipment shipment)] |})
    (λ error, mret (failed 400 "Failed to create shipment" error)).

(** The cast of the update, made before the store is asked: the ids of
    the body. *)
Definition cast_update (x : Body) : Res (option ObjectId * option ObjectId) :=
  i ← match sb_id x with
      | Some v => Some <$> cast_ObjectId "_id" v
      | None => mret None
      end;
  uid ← match sb_userId x with
        | Some v => Some <$> cast_ObjectId "userId" v
        | None => mret None
        end;
  mret (i, uid).

(** The update that [findByIdAndUpdate] applies for a request body, with
    no validation; the store refuses to give a document another [_id]. *)
Definition apply_update (now : Z) (x : Body) (ids : option ObjectId * option ObjectId)
    (s : ShipmentDoc) : Res ShipmentDoc :=
  _ ← match fst ids with
      | Some i => if N.eqb i (s_id s) then mret tt else throw (MongoServerError 66)
      | None => mret tt
      end;
  mret {| s_id := s_id s; s_userId := default (s_userId s) (snd ids);
          s_items := match sb_items x with
                     | Some l =>
                         (λ y, {| i_name := Js.trim (default "" (ib_name y));
                                  i_quantity := default 0%Q (ib_quantity y);
                                  i_price := ib_price y |}) <$> l
                     | None => s_items s
                     end;
          s_status := default (s_status s) (sb_status x);
          s_trackingNumber := match sb_trackingNumber x with
                              | Some t => Some (Js.trim t)
                              | None => s_trackingNumber s
                              end;
          s_shippedAt := match sb_shippedAt x with
                         | Some t => Some t
                         | None => s_shippedAt s
                         end;
          s_deliveredAt := match sb_deliveredAt x with
                           | Some t => Some t
                           | None => s_deliveredAt s
                           end;
          s_createdAt := s_createdAt s; s_updatedAt := now |}.

Definition updateShipment (now : Z) (params_id : IdString) (req_body : Body)
    : Async Response :=
  async_try_catch
    (i ← lift (cast_ObjectId "_id" params_id);
     ids ← lift (cast_update req_body);
     found ← read (λ db, List.find (λ s, N.eqb (s_id s) i) (shipments db));
     match found with
     | None => mret not_found
     | Some s =>
         shipment ← lift (apply_update now req_body ids s);
         _ ← write (λ db,
               set_shipments
                 (update_first (λ s, N.eqb (s_id s) i) (λ _, shipment) (shipments db)) db);
         mret {| status := 200;
                 body := JObj [("success", JBool true);
                               ("data", json_of_Shipment shipment)] |}
     end)
    (λ error, mret (failed 400 "Failed to update shipment" error)).

Definition deleteShipment (params_id : IdString) : Async Response :=
  async_try_catch
    (i ← lift (cast_ObjectId "_id" params_id);
     found ← read (λ db, List.find (λ s, N.eqb (s_id s) i) (shipments db));
     match found with
     | None => mret not_found
     | Some _ =>
         _ ← write (λ db,
               set_shipments (remove_first (λ s, N.eqb (s_id s) i) (shipments db)) db);
         mret {| status := 200;
                 body := JObj [("success", JBool true);
                               ("message", JStr "Shipment deleted")] |}
     end)
    (λ error, mret (failed 400 "Failed to delete shipment" error)).

End ShipmentController.

(* ===================================================================== *)
(** ** validations: the custom validators *)
(* ===================================================================== *)

(** validations/shipment.validation.ts.  No router mounts these
    validators. *)
Module ShipmentValidation.




End ShipmentValidation.

(** validations/user.validation.ts. *)
Module UserValidation.

(** What [getFullYear()], [getMonth()] and [getDate()] return for a
    date. *)
Record Ymd := mkYmd {
  fullYear : Z;
  month : Z;
  date : Z;
}.

(** The custom validator on [dob] of [updateProfileValidation], for a
    [dob] that denotes a date. *)
Definition age (today dob : Ymd) : Z :=
  let age := (fullYear today - fullYear dob)%Z in
  let monthDiff := (month today - month dob)%Z in
  if (monthDiff <? 0)%Z || ((monthDiff =? 0)%Z && (date today <? date dob)%Z)
  then (age - 1)%Z else age.

Definition dob_custom (today dob : Ymd) : Res bool :=
  if (age today dob <? 13)%Z then
    throw (PlainError "User must be at least 13 years old")
  else if (120 <? age today dob)%Z then throw (PlainError "Invalid date of birth")
  else mret true.

End UserValidation.

(* ===================================================================== *)
(** ** utils/apiResponse.ts: pagination metadata *)
(* ===================================================================== *)

Module ApiResponse.

(** What [Math.ceil(total / limit)] is on integers: a finite integer, or
    an infinity or [NaN] when [limit] is zero.  The quotient here is the
    exact one; the double-precision quotient has the same ceiling as long
    as both numbers are below [2^26] in magnitude. *)
Inductive Pages :=
| Finite (n : Z)
| PlusInfinity
| MinusInfinity
| NotANumber.

Definition ceil_quotient (total limit : Z) : Pages :=
  if (limit =? 0)%Z then
    if (0 <? total)%Z then PlusInfinity
    else if (total <? 0)%Z then MinusInfinity
    else NotANumber
  else Finite (- ((- total) / limit))%Z.

(** [page < totalPages]; a comparison with [NaN] is false. *)
Definition less_than (page : Z) (p : Pages) : bool :=
  match p with
  | Finite n => (page <? n)%Z
  | PlusInfinity => true
  | MinusInfinity | NotANumber => false
  end.

Record PaginationMeta := mkPaginationMeta {
  pm_page : Z;
  pm_limit : Z;
  pm_total : Z;
  totalPages : Pages;
  hasNext : bool;
  hasPrev : bool;
}.

Definition calculatePagination (page limit total : Z) : PaginationMeta :=
  let totalPages := ceil_quotient total limit in
  {| pm_page := page; pm_limit := limit; pm_total := total;
     totalPages := totalPages;
     hasNext := less_than page totalPages;
     hasPrev := (1 <? page)%Z |}.

End ApiResponse.

(* ===================================================================== *)
(** ** validations/validation.middleware.ts and the routers *)
(* ===================================================================== *)

(** [handleValidationErrors]: when express-validator collected a failure
    the middleware throws one [ApiError]; the fields and messages it
    gathered are dropped.  [errors_isEmpty] is [errors.isEmpty()]. *)
Definition handleValidationErrors (errors_isEmpty : bool) : Res unit :=
  if errors_isEmpty then mret tt else throw (ApiError "Validation failed" 400).

Module Routes.

(** A middleware in front of a handler: it answers itself, or it sets
    [req.user] and calls [next()]. *)
Definition protect (middleware : Db → MiddlewareResult)
    (handler : AuthUser → Async Response) : Async Response := λ db,
  match middleware db with
  | Responded r => (inr r, db)
  | Next u => handler u db
  end.

(** routes/auth.routes.ts: no validator is mounted; only [GET /me] is
    behind the middleware.  [salt] is the salt that bcrypt draws while the
    request is served. *)
Inductive AuthRequest :=
| PostRegister (salt : N) (req_body : AuthController.RegisterBody)
| PostLogin (req_body : AuthController.LoginBody)
| PostRefresh (req_refreshToken : option Token)
| PostLogout
| GetMe (authorization : option AuthHeader).

Definition authRoutes (config : Env.JwtConfig) (now : Z) (r : AuthRequest)
    : Async Response :=
  match r with
  | PostRegister salt req_body => AuthController.register config now salt req_body
  | PostLogin req_body => AuthController.login config now req_body
  | PostRefresh req_refreshToken =>
      AuthController.refreshToken config now req_refreshToken
  | PostLogout => AuthController.logout now
  | GetMe authorization =>
      protect (AuthMiddleware.authenticateToken config now authorization)
        (λ u, AuthController.getProfile now (Some u))
  end.

(** routes/weightEntry.routes.ts: [router.use(authenticateToken)] of
    middlewares/auth.middleware.ts, then the handlers with no validator.
    [GET /stats/summary], whose handler computes with floating point, has
    no constructor here.  [later] is the clock once [createWeightEntry]
    has awaited its lookup. *)
Inductive WeightEntryRequest :=
| GetWeightEntries (req_query : WeightEntryController.Query)
| PostWeightEntry (later : Z) (req_body : WeightEntryController.Body)
| GetWeightEntry (params_id : IdString)
| PutWeightEntry (params_id : IdString) (req_body : WeightEntryController.Body)
| DeleteWeightEntry (params_id : IdString).

Definition weightEntryRoutes (config : Env.JwtConfig) (now : Z)
    (authorization : option AuthHeader) (r : WeightEntryRequest) : Async Response :=
  protect (AuthMiddleware.authenticateToken config now authorization)
    (λ u,
       match r with
       | GetWeightEntries req_query =>
           WeightEntryController.getWeightEntries now (Some u) req_query
       | PostWeightEntry later req_body =>
           WeightEntryController.createWeightEntry now later (Some u) req_body
       | GetWeightEntry params_id =>
           WeightEntryController.getWeightEntry now (Some u) params_id
       | PutWeightEntry params_id req_body =>
           WeightEntryController.updateWeightEntry now (Some u) params_id req_body
       | DeleteWeightEntry params_id =>
           WeightEntryController.deleteWeightEntry now (Some u) params_id
       end).

(** routes/medication.routes.ts: [router.use(authenticateToken)] of
    middleware/auth.ts, then on every route the validators followed by
    [handleValidationErrors], then the handler. *)
Inductive MedicationRequest :=
| PostMedication (req_body : MedicationController.Body)
| GetMedications
| GetMedication (params_id : IdString)
| PutMedication (params_id : IdString) (req_body : MedicationController.Body)
| DeleteMedication (params_id : IdString).

Definition medicationRoutes (config : Env.JwtConfig) (now : Z)
    (authorization : option AuthHeader) (errors_isEmpty : bool)
    (r : MedicationRequest) : Async Response :=
  protect (λ _, Auth.authenticateToken config now authorization)
    (λ u,
       _ ← lift (handleValidationErrors errors_isEmpty);
       match r with
       | PostMedication req_body =>
           MedicationController.createMedication now u req_body
       | GetMedications => MedicationController.getMedications u
       | GetMedication params_id => MedicationController.getMedication u params_id
       | PutMedication params_id req_body =>
           MedicationController.updateMedication now u params_id req_body
       | DeleteMedication params_id =>
           MedicationController.deleteMedication u params_id
       end).

(** routes/shipment.routes.ts: no middleware at all. *)
Inductive ShipmentRequest :=
| GetShipments
| PostShipment (req_body : ShipmentController.Body)
| PutShipment (params_id : IdString) (req_body : ShipmentController.Body)
| DeleteShipment (params_id : IdString).

Definition shipmentRoutes (now : Z) (r : ShipmentRequest) : Async Response :=
  match r with
  | GetShipments => ShipmentController.getAllShipments
  | PostShipment req_body => ShipmentController.createShipment now req_body
  | PutShipment params_id req_body =>
      ShipmentController.updateShipment now params_id req_body
  | DeleteShipment params_id => ShipmentController.deleteShipment params_id
  end.

End Routes.

(* ===================================================================== *)
(** ** app.ts *)
(* ===================================================================== *)

Module App.

(** A request by the router that serves it.  [Refused] is a request whose
    body the body parser, which comes before every router, refuses (a
    malformed JSON text, a body over the size limit): the parser passes an
    error with the given message to the error handler.  [Unrouted] is a
    request that no route matches.  The two informational routes
    ([/health], [/api]) and the preflight requests, which [cors] answers,
    are not part of the model. *)
Inductive Request :=
| AuthRoute (r : Routes.AuthRequest)
| WeightEntryRoute (authorization : option AuthHeader) (r : Routes.WeightEntryRequest)
| MedicationRoute (authorization : option AuthHeader) (errors_isEmpty : bool)
    (r : Routes.MedicationRequest)
| ShipmentRoute (r : Routes.ShipmentRequest)
| Refused (message : string)
| Unrouted.

(** The routers in mounting order; what a handler throws, or passes to
    [next], travels on to the error handler. *)
Definition route (config : Env.JwtConfig) (now : Z) (req : Request)
    : Async Response :=
  match req with
  | AuthRoute r => Routes.authRoutes config now r
  | WeightEntryRoute authorization r =>
      Routes.weightEntryRoutes config now authorization r
  | MedicationRoute authorization errors_isEmpty r =>
      Routes.medicationRoutes config now authorization errors_isEmpty r
  | ShipmentRoute r => Routes.shipmentRoutes now r
  | Refused message => async_throw (PlainError message)
  | Unrouted =>
      mret {| status := 404; body := JObj [("error", JStr "Route not found")] |}
  end.

(** The global error handler.  It never reads [statusCode]; [stack] is
    the text of [err.stack].  For the errors of mongoose the message is
    the approximation that [error_message] gives. *)
Definition globalErrorHandler (isDevelopment : bool) (stack : JsError → string)
    (err : JsError) : Response :=
  {| status := 500;
     body := JObj ([("error", JStr "Internal server error");
                    ("message",
                     JStr (if isDevelopment then error_message err
                           else "Something went wrong"))]
                   ++ if isDevelopment then [("stack", JStr (stack err))] else []) |}.

(** One request through the application: the response sent and the store
    afterwards. *)
Definition app (isDevelopment : bool) (stack : JsError → string)
    (config : Env.JwtConfig) (now : Z) (req : Request) (db : Db) : Response * Db :=
  match route config now req db with
  | (inr r, db') => (r, db')
  | (inl err, db') => (globalErrorHandler isDevelopment stack err, db')
  end.

End App.

(* ===================================================================== *)
(** ** config/database.ts and server.ts *)
(* ===================================================================== *)

Module Database.

Definition MAX_RETRY_ATTEMPTS : nat := 5.
Definition RETRY_DELAY : Z := 5000.
Definition RETRY_MULTIPLIER : Z := 2.

(** The two module variables and [mongoose.connection.readyState]. *)
Record State := mkState {
  isConnecting : bool;
  connectionAttempts : nat;
  readyState : Z;
}.

Definition initial : State :=
  {| isConnecting := false; connectionAttempts := 0; readyState := 0 |}.

(** How a call of [connectDB] ends: the promise resolves, with the delay
    of the timer that the call set if it set one, or it rejects. *)
Inductive Outcome :=
| Resolved (timer : option Z)
| Rejected.

(** [connectDB()], given whether [mongoose.connect] succeeds when it is
    called.  A successful connect leaves [readyState] at 1 and a failed
    one at 0. *)
Definition connectDB (connects : bool) (st : State) : Outcome * State :=
  if isConnecting st then (Resolved None, st)
  else if (readyState st =? 1)%Z then (Resolved None, st)
  else if connects then
    (Resolved None,
     {| isConnecting := false; connectionAttempts := 0; readyState := 1 |})
  else
    let attempts := S (connectionAttempts st) in
    let st' :=
      {| isConnecting := false; connectionAttempts := attempts; readyState := 0 |} in
    if (attempts <? MAX_RETRY_ATTEMPTS)%nat then
      (Resolved
         (Some (RETRY_DELAY * RETRY_MULTIPLIER ^ Z.of_nat (attempts - 1))%Z),
       st')
    else (Rejected, st').

(** The callback of the timer: [isConnecting = false; await connectDB()]. *)
Definition retry (connects : bool) (st : State) : Outcome * State :=
  connectDB connects
    {| isConnecting := false; connectionAttempts := connectionAttempts st;
       readyState := readyState st |}.

(** A call followed by the timer callbacks it leads to, while nothing
    else touches the state in between.  [connects] lists the outcomes of
    the successive calls of [mongoose.connect].  The result is the list of
    the delays of the timers set, and how the last call ended ([None]
    while a timer is still pending). *)
Fixpoint retries (first : bool) (connects : list bool) (st : State)
    : list Z * option Outcome * State :=
  match connects with
  | [] => ([], None, st)
  | c :: rest =>
      match (if first then connectDB c st else retry c st) with
      | (Resolved (Some delay), st') =>
          let '(delays, last, st'') := retries false rest st' in
          (delay :: delays, last, st'')
      | (o, st') => ([], Some o, st')
      end
  end.

(** [getConnectionStatus()]. *)
Definition getConnectionStatus (st : State) : string :=
  if (readyState st =? 0)%Z then "disconnected"
  else if (readyState st =? 1)%Z then "connected"
  else if (readyState st =? 2)%Z then "connecting"
  else if (readyState st =? 3)%Z then "disconnecting"
  else "unknown".

Definition isConnected (st : State) : bool := (readyState st =? 1)%Z.

End Database.

Module Server.

(** How [startServer] ends: the HTTP server is told to listen, or the
    process exits with status 1. *)
Inductive Started :=
| Listening
| Exit1.

(** server.ts, [startServer]: [await connectDB()], then [server.listen]. *)
Definition startServer (connects : bool) (st : Database.State)
    : Started * Database.State :=
  match Database.connectDB connects st with
  | (Database.Resolved _, st') => (Listening, st')
  | (Database.Rejected, st') => (Exit1, st')
  end.

End Server.

(* ===================================================================== *)
(** ** Vocabulary of the statements *)
(* ===================================================================== *)

(** The API view of a stored user, as the handlers compute it. *)
Definition api_user (u : UserDoc) : User :=
  AuthController.transformUserForAPI
    (UserModel.delete_passwordHash (UserModel.toObject u)).

(** The expiry that a token carries. *)
Definition token_exp (t : Token) : option Z :=
  match t with
  | Signed _ payload => exp payload
  | Opaque _ => None
  end.

Definition invalid_token_response (now : Z) : Response :=
  {| status := 401;
     body := error_body now "Invalid token"
               "The provided token is invalid or malformed" |}.

(** A payload is clean when no field of it, at any depth, is named
    [passwordHash] and no leaf of it is a password digest. *)
Definition clean (v : JVal) : bool :=
  negb (has_key "passwordHash" v) && negb (has_hash v).

(** The payload that a handler sent, if it sent one, is clean.  A handler
    that throws sends nothing itself; what it throws carries a message and
    a status code only. *)
Definition sent_clean (outcome : Res Response * Db) : Prop :=
  match fst outcome with
  | inr r => clean (body r) = true
  | inl _ => True
  end.

(** A duration that [parseExpiration] cannot turn into a number of
    milliseconds: its last character is none of [s], [m], [h], [d], or
    what precedes the last character does not start with a number. *)
Definition malformed_duration (duration : string) : Prop :=
  (Js.slice_last duration ≠ "s" ∧ Js.slice_last duration ≠ "m"
   ∧ Js.slice_last duration ≠ "h" ∧ Js.slice_last duration ≠ "d")
  ∨ Js.parseInt (Js.slice_init duration) = None.

(** The store with the digest of every user replaced by another one. *)
Definition with_digest (h : PasswordHash) (u : UserDoc) : UserDoc :=
  {| u_id := u_id u; u_email := u_email u; u_passwordHash := h;
     u_name := u_name u; u_dob := u_dob u; u_role := u_role u;
     u_createdAt := u_createdAt u; u_updatedAt := u_updatedAt u |}.

Definition rehash (f : UserDoc → PasswordHash) (db : Db) : Db :=
  {| users := (λ u, with_digest (f u) u) <$> users db;
     medications := medications db; weightEntries := weightEntries db;
     shipments := shipments db; nextId := nextId db |}.

(** At most one entry per user and recorded instant. *)
Definition unique_dates (db : Db) : Prop :=
  NoDup ((λ w, (w_userId w, w_recordedAt w)) <$> weightEntries db).

(** The stores that requests to the weight-entry routes lead to, from
    the empty store. *)
Inductive reachable : Db → Prop :=
| reachable_empty : reachable emptyDb
| reachable_create now later req_user req_body db :
    reachable db →
    reachable (snd (WeightEntryController.createWeightEntry now later req_user
                      req_body db))
| reachable_update now req_user params_id req_body db :
    reachable db →
    reachable (snd (WeightEntryController.updateWeightEntry now req_user params_id
                      req_body db))
| reachable_delete now req_user params_id db :
    reachable db →
    reachable (snd (WeightEntryController.deleteWeightEntry now req_user params_id db)).

(** The [p]-th page of [limit] items, pages counted from 1. *)
Definition page_of {A} (limit p : nat) (l : list A) : list A :=
  take limit (drop ((p - 1) * limit) l).

(** [Math.ceil(total / limit)], as utils/apiResponse.ts computes
    [totalPages]. *)
Definition ceil_div (total limit : nat) : nat := (total + limit - 1) / limit.

(** The ids that only the id generator makes: those of the users and of
    the weight entries, whose handlers build the document field by field.
    (A shipment takes the [_id] of the request body when it has one.) *)
Definition generated_ids (db : Db) : list ObjectId :=
  (u_id <$> users db) ++ (w_id <$> weightEntries db).

(** Ids are unique within each collection, the generated ones are older
    than the supply of fresh ids, and no two users share an email: what
    the [_id] index, the id generator and the unique index on [email]
    maintain. *)
Definition store_ok (db : Db) : Prop :=
  NoDup (u_id <$> users db) ∧ NoDup (u_email <$> users db)
  ∧ NoDup (m_id <$> medications db) ∧ NoDup (w_id <$> weightEntries db)
  ∧ NoDup (s_id <$> shipments db)
  ∧ Forall (λ i, (i < nextId db)%N) (generated_ids db).


(** A string of decimal digits. *)
Fixpoint all_digits (s : string) : bool :=
  match s with
  | EmptyString => true
  | String c r => Jsonwebtoken.is_digit c && all_digits r
  end.

(** The durations of the form that both readers of a duration, the [ms]
    package and [parseExpiration], understand: at most 99 decimal digits
    followed by one of [s], [m], [h], [d]. *)
Definition plain_duration (digits unit : string) : Prop :=
  digits ≠ "" ∧ all_digits digits = true ∧ (String.length digits ≤ 99)%nat
  ∧ unit ∈ ["s"; "m"; "h"; "d"].

(** The number that a string of decimal digits spells. *)
Fixpoint digits_value_from (acc : Z) (digits : string) : Z :=
  match digits with
  | EmptyString => acc
  | String c r => digits_value_from (acc * 10 + (Z.of_nat (nat_of_ascii c) - 48)) r
  end.

Definition digits_value (digits : string) : Z := digits_value_from 0 digits.

(** The number of milliseconds in a unit of a plain duration. *)
Definition unit_ms (unit : string) : Z :=
  if String.eqb unit "s" then 1000
  else if String.eqb unit "m" then 60000
  else if String.eqb unit "h" then 3600000
  else 86400000.

(** The weight entries of one user. *)
Definition entries_of (uid : ObjectId) (db : Db) : list WeightEntryDoc :=
  filter (λ w, w_userId w = uid) (weightEntries db).

(** Whether a string holds a blank, and whether it begins with one: the
    character at which [transformUserForAPI] splits a name. *)
Fixpoint has_blank (s : string) : bool :=
  match s with
  | EmptyString => false
  | String c r => Ascii.eqb c " " || has_blank r
  end.

Definition starts_blank (s : string) : bool :=
  match s with
  | String c _ => Ascii.eqb c " "
  | EmptyString => false
  end.

(** The order of calendar days. *)
Definition ymd_le (a b : UserValidation.Ymd) : Prop :=
  (UserValidation.fullYear a < UserValidation.fullYear b)%Z
  ∨ (UserValidation.fullYear a = UserValidation.fullYear b
     ∧ ((UserValidation.month a < UserValidation.month b)%Z
        ∨ (UserValidation.month a = UserValidation.month b
           ∧ (UserValidation.date a ≤ UserValidation.date b)%Z))).

(** The anniversary of a day, [n] years on. *)
Definition anniversary (n : Z) (d : UserValidation.Ymd) : UserValidation.Ymd :=
  {| UserValidation.fullYear := UserValidation.fullYear d + n;
     UserValidation.month := UserValidation.month d;
     UserValidation.date := UserValidation.date d |}.

(* ===================================================================== *)
(** ** Sample data used by the closed statements below *)
(* ===================================================================== *)

Module Sample.

Definition config : Env.JwtConfig :=
  {| Env.secret := "0123456789abcdef0123456789abcdef";
     Env.expiresIn := "1h";
     Env.refreshExpiresIn := "7d" |}.

(** 2023-11-14T22:13:20Z. *)
Definition t0 : Z := 1700000000000.

Definition hour : Z := 3600000.

Definition alice : UserDoc :=
  {| u_id := 1%N; u_email := "admin@example.com";
     u_passwordHash := Bcrypt 7 12 "demo123"; u_name := "Alice Admin";
     u_dob := 0; u_role := admin; u_createdAt := 1600000000000;
     u_updatedAt := 1600000000000 |}.

Definition bob : UserDoc :=
  {| u_id := 2%N; u_email := "patient@example.com";
     u_passwordHash := Bcrypt 8 12 "demo123"; u_name := "Bob Patient";
     u_dob := 0; u_role := user; u_createdAt := 1600000000000;
     u_updatedAt := 1600000000000 |}.

(** [req.user] as the middleware attaches it for a stored user. *)
Definition caller (u : UserDoc) : AuthUser :=
  {| au_id := ValidId (u_id u); au_email := u_email u;
     au_role := Role_to_string (u_role u);
     au_createdAt := Some (u_createdAt u);
     au_updatedAt := Some (u_updatedAt u) |}.

Definition db : Db :=
  {| users := [alice; bob];
     medications :=
       [{| m_id := 10%N; m_userId := 2%N; m_name := "Semaglutide";
           m_dosage := "1.0 mg"; m_frequency := "Weekly";
           m_startDate := 1705276800000; m_endDate := None;
           m_createdAt := 1705276800000; m_updatedAt := 1705276800000 |}];
     weightEntries :=
       [{| w_id := 20%N; w_userId := 2%N; w_weight := 185;
           w_recordedAt := 1705276800000; w_notes := None;
           w_createdAt := 1705276800000; w_updatedAt := 1705276800000 |};
        {| w_id := 21%N; w_userId := 1%N; w_weight := 170;
           w_recordedAt := 1705276800000; w_notes := None;
           w_createdAt := 1705276800000; w_updatedAt := 1705276800000 |};
        {| w_id := 22%N; w_userId := 2%N; w_weight := 183;
           w_recordedAt := 1705881600000; w_notes := Some "week 1";
           w_createdAt := 1705881600000; w_updatedAt := 1705881600000 |};
        {| w_id := 23%N; w_userId := 2%N; w_weight := 181;
           w_recordedAt := 1706486400000; w_notes := None;
           w_createdAt := 1706486400000; w_updatedAt := 1706486400000 |}];
     shipments :=
       [{| s_id := 30%N; s_userId := 2%N;
           s_items := [{| i_name := "Semaglutide"; i_quantity := 4;
                          i_price := None |}];
           s_status := pending; s_trackingNumber := None;
           s_shippedAt := None; s_deliveredAt := None;
           s_createdAt := 1705276800000; s_updatedAt := 1705276800000 |}];
     nextId := 100%N |}.

End Sample.

(* ===================================================================== *)
(** ** Tactics *)
(* ===================================================================== *)

(** Unfolds the operations of [Res] and [Async]. *)
Ltac run_async :=
  repeat (progress (unfold mbind, mret, Async_bind, Async_ret, Res_bind, Res_ret,
                      lift, read, write, async_throw, async_try_catch, throw in *;
                    cbn beta iota zeta in *)).

(** Case analysis on membership in a list given by its elements. *)
Ltac in_list H :=
  repeat (apply elem_of_cons in H as [->|H]); [..|by apply elem_of_nil in H].

(** Membership in a list given by its elements. *)
Ltac listed :=
  repeat first [apply list_elem_of_here | apply list_elem_of_further].

(* ===================================================================== *)
(** * Properties *)
(* ===================================================================== *)

(** ** The embedding on sample inputs *)

Example parseInt_decimal : Js.parseInt "15" = Some 15%Z.
Proof. reflexivity. Qed.

Example parseInt_prefix : Js.parseInt "  -7days" = Some (-7)%Z.
Proof. reflexivity. Qed.

Example parseInt_NaN : Js.parseInt "abc" = None.
Proof. reflexivity. Qed.

Example parseInt_hex : Js.parseInt "0x1f" = Some 31%Z.
Proof. reflexivity. Qed.

Example split_space_names :
  Js.split_space "Sarah Ann Johnson" = ["Sarah"; "Ann"; "Johnson"].
Proof. reflexivity. Qed.

Example trim_both_ends : Js.trim "  a b  " = "a b".
Proof. reflexivity. Qed.

Example ms_hour : Jsonwebtoken.ms "1h" = Some 3600000%Z.
Proof. reflexivity. Qed.

Example ms_days_word : Jsonwebtoken.ms "7 Days" = Some 604800000%Z.
Proof. reflexivity. Qed.

Example ms_plain_number : Jsonwebtoken.ms "120" = Some 120%Z.
Proof. reflexivity. Qed.

Example ms_unknown_unit : Jsonwebtoken.ms "1x" = None.
Proof. reflexivity. Qed.

Example parseExpiration_week :
  Auth.parseExpiration "1w" = inl (PlainError "Invalid expiration format: 1w").
Proof. reflexivity. Qed.

Example parseExpiration_hour : Auth.parseExpiration "2h" = inr (Some 7200000%Z).
Proof. reflexivity. Qed.

Example parseExpiration_NaN : Auth.parseExpiration "xh" = inr None.
Proof. reflexivity. Qed.

Example transform_alice :
  AuthController.json_of_User (api_user Sample.alice) =
  JObj [("id", JOid 1%N); ("email", JStr "admin@example.com");
        ("firstName", JStr "Alice"); ("lastName", JStr "Admin");
        ("dateOfBirth", JIsoDay 0); ("enrollmentDate", JIsoDay 1600000000000);
        ("createdAt", JIso 1600000000000); ("updatedAt", JIso 1600000000000);
        ("role", JStr "admin")].
Proof. reflexivity. Qed.

(** ** Token service *)

Section token_service.

Variables (config : Env.JwtConfig) (now : Z) (u : User).

(** What [sign] returns when it returns. *)
Lemma sign_inr payload secret options token :
  Jsonwebtoken.sign now payload secret options = inr token →
  ∃ e, Jsonwebtoken.timespan (Jsonwebtoken.expiresIn options)
         (default (now / 1000)%Z (iat payload)) = Some e
     ∧ String.eqb secret "" = false
     ∧ token = Signed secret
         {| userId := userId payload; email := email payload;
            role := role payload;
            iat := Some (default (now / 1000)%Z (iat payload)); exp := Some e;
            iss := Some (Jsonwebtoken.issuer options);
            aud := Some (Jsonwebtoken.audience options) |}.
Proof.
  unfold Jsonwebtoken.sign.
  destruct (String.eqb secret "") eqn:Hs; [discriminate|].
  destruct (String.eqb (Jsonwebtoken.expiresIn options) ""); [discriminate|].
  repeat (case_bool_decide; [discriminate|]).
  destruct (Jsonwebtoken.timespan _ _) as [e|] eqn:He; [|discriminate].
  intros [= <-]. eauto.
Qed.

(** Either generator, when it returns, returns a token signed with the
    configured secret whose payload is exactly
    [{userId, email, iat, exp, iss, aud}]: no [role]. *)
Lemma generate_shape (expiresIn : string) token :
  Jsonwebtoken.sign now (Auth.payload_of u) (Env.secret config)
    (Auth.sign_options expiresIn) = inr token →
  ∃ e, Jsonwebtoken.timespan expiresIn (now / 1000)%Z = Some e
     ∧ String.eqb (Env.secret config) "" = false
     ∧ token = Signed (Env.secret config)
         {| userId := user_id u; email := user_email u; role := None;
            iat := Some (now / 1000)%Z; exp := Some e;
            iss := Some "acme-patient-dashboard";
            aud := Some "acme-patient-dashboard-frontend" |}.
Proof. intros H. apply sign_inr in H. exact H. Qed.

(** A token signed with the configured secret verifies exactly while
    the clock, in seconds, is before its [exp]. *)
Lemma verify_signed (now' : Z) payload e :
  String.eqb (Env.secret config) "" = false →
  exp payload = Some e →
  Jsonwebtoken.verify now' (Signed (Env.secret config) payload) (Env.secret config) =
  if (e <=? now' / 1000)%Z then inl (TokenExpiredError "jwt expired" (e * 1000))
  else inr payload.
Proof.
  intros Hs He. unfold Jsonwebtoken.verify.
  rewrite Hs, String.eqb_refl, He. simpl. reflexivity.
Qed.

End token_service.

(** Whoever the user is, a token from either generator decodes to a
    payload without [role]; its [userId] and [email] are the user's. *)
Lemma generated_payload config now u expiresIn token now' payload :
  Jsonwebtoken.sign now (Auth.payload_of u) (Env.secret config)
    (Auth.sign_options expiresIn) = inr token →
  Jsonwebtoken.verify now' token (Env.secret config) = inr payload →
  userId payload = user_id u ∧ email payload = user_email u ∧ role payload = None.
Proof.
  intros Hsign Hverify.
  destruct (generate_shape config now u expiresIn token Hsign) as (e & _ & Hs & ->).
  rewrite (verify_signed config now' _ e Hs) in Hverify by reflexivity.
  destruct (e <=? now' / 1000)%Z; [discriminate|].
  injection Hverify as <-. auto.
Qed.

(** C1 (code defect): the access token issued for an administrator
    verifies one second later and yields the administrator's id and email,
    but the decoded claim has no role at all: [generateAccessToken] signs
    [{userId, email}] only, so the role of the claim cannot match the
    identity's. *)
Theorem C1_access_token_carries_no_role :
  ∃ token payload,
    Auth.generateAccessToken Sample.config Sample.t0 (api_user Sample.alice)
      = inr token
    ∧ Jsonwebtoken.verify (Sample.t0 + 1000) token (Env.secret Sample.config)
      = inr payload
    ∧ userId payload = user_id (api_user Sample.alice)
    ∧ email payload = user_email (api_user Sample.alice)
    ∧ user_role (api_user Sample.alice) = admin
    ∧ role payload = None.
Proof.
  eexists _, _. split; [vm_compute; reflexivity|].
  split; [vm_compute; reflexivity|]. repeat split.
Qed.

(** ** Authentication middleware *)

(** X5: the second branch of [handleAuthError] is dead: every
    [TokenExpiredError] is a [JsonWebTokenError] and is answered by the
    first branch, so no error is ever answered with "Token expired". *)
Theorem handleAuthError_never_expired now error :
  field "error" (body (AuthMiddleware.handleAuthError now error))
    ≠ Some (JStr "Token expired").
Proof.
  unfold AuthMiddleware.handleAuthError.
  destruct error; simpl; discriminate.
Qed.

(** Any token that verifies under the secret but is past its expiry is
    answered as an invalid token. *)
Lemma authenticateToken_expired config now payload e db :
  String.eqb (Env.secret config) "" = false →
  exp payload = Some e →
  (e <= now / 1000)%Z →
  AuthMiddleware.authenticateToken config now
    (Some (Bearer (Signed (Env.secret config) payload))) db
  = Responded (invalid_token_response now).
Proof.
  intros Hs He Hle.
  unfold AuthMiddleware.authenticateToken, bearer_token.
  rewrite (verify_signed config now payload e Hs He).
  destruct (Z.leb_spec e (now / 1000)); [reflexivity|lia].
Qed.

(** The middleware of middleware/auth.ts answers a token that verifies
    under the secret but is past its expiry with "Token expired". *)
Lemma sibling_authenticateToken_expired config now payload e :
  String.eqb (Env.secret config) "" = false →
  exp payload = Some e →
  (e <= now / 1000)%Z →
  Auth.authenticateToken config now
    (Some (Bearer (Signed (Env.secret config) payload)))
  = Responded
      {| status := 401;
         body := error_body now "Token expired"
                   "Access token has expired. Please refresh your token or login again" |}.
Proof.
  intros Hs He Hle. unfold Auth.authenticateToken, bearer_token.
  rewrite (verify_signed config now payload e Hs He).
  destruct (Z.leb_spec e (now / 1000)); [reflexivity|lia].
Qed.

(** C2 (code defect): a token issued by the service and presented two
    hours later, one hour past its expiry, makes [jwt.verify] throw
    [TokenExpiredError], and the middleware answers with the
    invalid-token response, not with the token-expired one: the very
    response that a malformed token and a token signed with another key
    get at that instant.  The [authenticateToken] of middleware/auth.ts,
    which tests [TokenExpiredError] first, answers the same token with
    "Token expired". *)
Theorem C2_expired_token_reported_invalid :
  ∃ token,
    Auth.generateAccessToken Sample.config Sample.t0 (api_user Sample.bob)
      = inr token
    ∧ Jsonwebtoken.verify (Sample.t0 + 2 * Sample.hour) token
        (Env.secret Sample.config)
      = inl (TokenExpiredError "jwt expired" (Sample.t0 + Sample.hour))
    ∧ AuthMiddleware.authenticateToken Sample.config (Sample.t0 + 2 * Sample.hour)
        (Some (Bearer token)) Sample.db
      = Responded (invalid_token_response (Sample.t0 + 2 * Sample.hour))
    ∧ field "error" (body (invalid_token_response (Sample.t0 + 2 * Sample.hour)))
      = Some (JStr "Invalid token")
    ∧ AuthMiddleware.authenticateToken Sample.config (Sample.t0 + 2 * Sample.hour)
        (Some (Bearer (Opaque "not.a.token"))) Sample.db
      = Responded (invalid_token_response (Sample.t0 + 2 * Sample.hour))
    ∧ (∀ payload,
         AuthMiddleware.authenticateToken Sample.config (Sample.t0 + 2 * Sample.hour)
           (Some (Bearer (Signed "another key" payload))) Sample.db
         = Responded (invalid_token_response (Sample.t0 + 2 * Sample.hour)))
    ∧ Auth.authenticateToken Sample.config (Sample.t0 + 2 * Sample.hour)
        (Some (Bearer token))
      = Responded
          {| status := 401;
             body := error_body (Sample.t0 + 2 * Sample.hour) "Token expired"
                       "Access token has expired. Please refresh your token or login again" |}.
Proof.
  eexists. split; [vm_compute; reflexivity|].
  repeat split; vm_compute; reflexivity.
Qed.

(** ** Ownership of medications, weight entries and shipments *)

Lemma find_foreign {A} (p : A → bool) (l : list A) :
  (∀ x, x ∈ l → p x = false) → List.find p l = None.
Proof.
  induction l as [|x l IH]; intros H; simpl; [reflexivity|].
  rewrite (H x) by left. apply IH. intros y Hy. apply H. by right.
Qed.






(** ** Owner of a created record *)

(** What a successful [Medication.create] persists. *)
Lemma medication_create_inr now x m db db' :
  MedicationController.create now x db = (inr m, db') →
  MedicationController.b_userId x = Some (ValidId (m_userId m))
  ∧ medications db' = medications db ++ [m].
Proof.
  unfold MedicationController.create, MedicationController.required_id,
    MedicationController.required_string, MedicationController.required_date,
    fresh_id.
  run_async.
  destruct (MedicationController.b_userId x) as [[o|]|]; try discriminate.
  destruct (MedicationController.b_name x) as [n|]; try discriminate.
  destruct (String.eqb (Js.trim n) ""); try discriminate.
  destruct (MedicationController.b_dosage x) as [d|]; try discriminate.
  destruct (String.eqb (Js.trim d) ""); try discriminate.
  destruct (MedicationController.b_frequency x) as [f|]; try discriminate.
  destruct (String.eqb (Js.trim f) ""); try discriminate.
  destruct (MedicationController.b_startDate x) as [t|]; try discriminate.
  intros [= <- <-]. split; reflexivity.
Qed.

Lemma shipment_validate_inr i now x s :
  ShipmentController.validate i now x = inr s →
  s_id s = i
  ∧ ShipmentController.sb_userId x = Some (ValidId (s_userId s))
  ∧ ∃ l, ShipmentController.sb_items x = Some l
       ∧ ShipmentController.validate_items l = inr (s_items s).
Proof.
  unfold ShipmentController.validate.
  destruct (ShipmentController.sb_userId x) as [[uid|]|]; try discriminate.
  destruct (ShipmentController.sb_items x) as [l|]; [|discriminate].
  cbn [from_option id]. destruct l as [|y l]; [discriminate|].
  unfold mbind, Res_bind, mret, Res_ret.
  destruct (ShipmentController.validate_items (y :: l)) eqn:Hv; [discriminate|].
  intros [= <-]. split; [done|]. split; [done|]. by exists (y :: l).
Qed.

Lemma existsb_shipment_id (i : ObjectId) (l : list ShipmentDoc) :
  existsb (λ v, N.eqb (s_id v) i) l = true ↔ i ∈ s_id <$> l.
Proof.
  induction l as [|y l IH]; simpl.
  - split; [discriminate|]. intros H. by apply elem_of_nil in H.
  - rewrite orb_true_iff, IH, elem_of_cons, N.eqb_eq.
    split; (intros [H|H]; [left|right]); done.
Qed.

(** What a shipment create answers and leaves: 400 and the collections as
    they were, or 201 and one more shipment, under the id of the body or,
    when the body has none, under the fresh id. *)
Lemma createShipment_outcome now x db :
  (∃ e db',
     ShipmentController.createShipment now x db
     = (inr (ShipmentController.failed 400 "Failed to create shipment" e), db')
     ∧ users db' = users db ∧ medications db' = medications db
     ∧ weightEntries db' = weightEntries db ∧ shipments db' = shipments db
     ∧ (nextId db ≤ nextId db')%N)
  ∨ (∃ s db',
       ShipmentController.createShipment now x db
       = (inr {| status := 201;
                 body := JObj [("success", JBool true);
                               ("data", json_of_Shipment s)] |}, db')
       ∧ ShipmentController.validate (s_id s) now x = inr s
       ∧ (s_id s ∉ s_id <$> shipments db)
       ∧ (ShipmentController.sb_id x = Some (ValidId (s_id s))
          ∨ ShipmentController.sb_id x = None ∧ s_id s = nextId db)
       ∧ users db' = users db ∧ medications db' = medications db
       ∧ weightEntries db' = weightEntries db ∧ shipments db' = shipments db ++ [s]
       ∧ (nextId db ≤ nextId db')%N).
Proof.
  assert (Hex : ∀ i l, existsb (λ v : ShipmentDoc, N.eqb (s_id v) i) l = false →
                       i ∉ s_id <$> l).
  { intros i l H Hin. apply existsb_shipment_id in Hin. congruence. }
  unfold ShipmentController.createShipment, ShipmentController.new_id,
    ShipmentController.insert, fresh_id.
  destruct (ShipmentController.sb_id x) as [[i|t]|] eqn:Hi; run_async.
  - destruct (ShipmentController.validate i now x) as [e|s] eqn:Hv.
    { left. eexists _, _. split; [reflexivity|]. split_and!; try done. }
    pose proof (shipment_validate_inr _ _ _ _ Hv) as [<- _].
    destruct (existsb _ (shipments db)) eqn:Hex'.
    { left. eexists _, _. split; [reflexivity|]. split_and!; try done. }
    right. eexists _, _. split; [reflexivity|]. split_and!; try done.
    + by apply Hex.
    + by left.
  - left. eexists _, _. split; [reflexivity|]. split_and!; try done.
  - destruct (ShipmentController.validate (nextId db) now x) as [e|s] eqn:Hv.
    { left. eexists _, _. split; [reflexivity|]. split_and!; try done.
      simpl. lia. }
    pose proof (shipment_validate_inr _ _ _ _ Hv) as [Hid _].
    cbn [shipments]. rewrite Hid.
    destruct (existsb _ (shipments db)) eqn:Hex'.
    { left. eexists _, _. split; [reflexivity|]. split_and!; try done.
      simpl. lia. }
    right. eexists _, _. split; [reflexivity|]. split_and!; try done.
    + by rewrite Hid.
    + rewrite Hid. by apply Hex.
    + by right.
    + simpl. lia.
Qed.

(** C4 (as amended): an authenticated create of a medication persists
    the caller's id as [userId], whatever [userId] the request body
    carries: two bodies that differ only there give the same outcome and
    the same store.  A shipment create, which the routes serve without a
    caller, persists the [userId] that the request body supplies. *)
Theorem C4_created_record_owner
    (now : Z) (caller : AuthUser) (body1 body2 : MedicationController.Body)
    (shipment_body : ShipmentController.Body) (db : Db) :
  MedicationController.b_name body1 = MedicationController.b_name body2 →
  MedicationController.b_dosage body1 = MedicationController.b_dosage body2 →
  MedicationController.b_frequency body1 = MedicationController.b_frequency body2 →
  MedicationController.b_startDate body1 = MedicationController.b_startDate body2 →
  MedicationController.b_endDate body1 = MedicationController.b_endDate body2 →
  MedicationController.createMedication now caller body1 db
  = MedicationController.createMedication now caller body2 db
  ∧ (∀ r db',
       MedicationController.createMedication now caller body1 db = (inr r, db') →
       ∃ m, medications db' = medications db ++ [m]
          ∧ au_id caller = ValidId (m_userId m)
          ∧ r = {| status := 201;
                   body := JObj [("success", JBool true);
                                 ("data", json_of_Medication m)] |})
  ∧ (∀ r db',
       ShipmentController.createShipment now shipment_body db = (inr r, db') →
       status r = 201%Z →
       ∃ s, shipments db' = shipments db ++ [s]
          ∧ ShipmentController.sb_userId shipment_body = Some (ValidId (s_userId s))).
Proof.
  intros Hn Hd Hf Hs He. split; [|split].
  - unfold MedicationController.createMedication,
      MedicationController.spread_with_userId.
    by rewrite Hn, Hd, Hf, Hs, He.
  - intros r db'. unfold MedicationController.createMedication.
    unfold mbind at 1. unfold Async_bind.
    destruct (MedicationController.create _ _ _) as [[e|m] db1] eqn:Hc;
      [discriminate|].
    apply medication_create_inr in Hc as [Hu Hm]. simpl in Hu.
    intros [= <- <-]. exists m. split; [exact Hm|]. split; [|reflexivity].
    by injection Hu.
  - intros r db' Hc Hst.
    destruct (createShipment_outcome now shipment_body db)
      as [(e & d & H & _)|(s & d & H & Hv & _ & _ & _ & _ & _ & Hsh & _)];
      rewrite H in Hc; injection Hc as <- <-; [discriminate Hst|].
    exists s. split; [exact Hsh|].
    by apply shipment_validate_inr in Hv as (_ & ? & _).
Qed.

Lemma C4_witness :
  let body v :=
    MedicationController.mkBody v (Some "Ozempic") (Some "0.5 mg") (Some "Weekly")
      (Some Sample.t0) None in
  MedicationController.createMedication Sample.t0 (Sample.caller Sample.bob)
    (body (Some (ValidId 1%N))) Sample.db
  = MedicationController.createMedication Sample.t0 (Sample.caller Sample.bob)
      (body None) Sample.db
  ∧ ∃ m, medications
           (snd (MedicationController.createMedication Sample.t0
                   (Sample.caller Sample.bob) (body (Some (ValidId 1%N))) Sample.db))
         = medications Sample.db ++ [m]
       ∧ m_userId m = u_id Sample.bob.
Proof.
  intros body.
  destruct (C4_created_record_owner Sample.t0 (Sample.caller Sample.bob)
              (body (Some (ValidId 1%N))) (body None)
              (ShipmentController.mkBody None None None None None None None) Sample.db
              eq_refl eq_refl eq_refl eq_refl eq_refl)
    as (Heq & H & _).
  split; [exact Heq|].
  destruct (H _ _ eq_refl) as (m & Hm & Hu & _).
  exists m. split; [exact Hm|]. injection Hu as Hu. symmetry. exact Hu.
Defined.

(** C4 (counterexample to the claim as stated): two shipment creates
    whose bodies differ only in [userId] persist different owners, each
    the one its body names. *)
Lemma C4_shipment_owner_from_body :
  let items :=
    Some [ShipmentController.mkItemBody (Some "Semaglutide") (Some 4%Q) None] in
  let body1 :=
    ShipmentController.mkBody None (Some (ValidId 1%N)) items None None None None in
  let body2 :=
    ShipmentController.mkBody None (Some (ValidId 2%N)) items None None None None in
  (status <$> fst (ShipmentController.createShipment Sample.t0 body1 Sample.db)) = inr 201%Z
  ∧ (status <$> fst (ShipmentController.createShipment Sample.t0 body2 Sample.db)) = inr 201%Z
  ∧ (s_userId <$> last (shipments (snd (ShipmentController.createShipment Sample.t0 body1 Sample.db))))
    = Some 1%N
  ∧ (s_userId <$> last (shipments (snd (ShipmentController.createShipment Sample.t0 body2 Sample.db))))
    = Some 2%N.
Proof. repeat split. Qed.

(** ** Weight entries: the duplicate guard *)

Lemma find_app_new {A} (p : A → bool) (l : list A) (x : A) :
  List.find p l = None → p x = true → List.find p (l ++ [x]) = Some x.
Proof.
  induction l as [|y l IH]; simpl; intros Hl Hx; [by rewrite Hx|].
  destruct (p y); [discriminate|]. by apply IH.
Qed.









(** When [recordedAt] is not truthy and the clock moves between the two
    readings, the date stored is not the date looked up, and the guard can
    miss: here the caller has an entry for the instant of the second
    reading, and the create answers 201 with a second entry for it. *)
Example createWeightEntry_between_readings :
  let u := Some (Sample.caller Sample.bob) in
  let db :=
    set_weightEntries
      [{| w_id := 1%N; w_userId := 2%N; w_weight := 180;
          w_recordedAt := Sample.t0 + 1; w_notes := None;
          w_createdAt := 0; w_updatedAt := 0 |}]
      {| users := []; medications := []; weightEntries := []; shipments := [];
         nextId := 2%N |} in
  let out :=
    WeightEntryController.createWeightEntry Sample.t0 (Sample.t0 + 1) u
      (WeightEntryController.mkBody (Some 181%Q) None None) db in
  unique_dates db
  ∧ (status <$> fst out) = inr 201%Z
  ∧ ((λ w, (w_userId w, w_recordedAt w)) <$> weightEntries (snd out))
    = [(2%N, Sample.t0 + 1); (2%N, Sample.t0 + 1)]%Z
  ∧ ¬ unique_dates (snd out).
Proof.
  intros u db out. split.
  { unfold unique_dates. apply (bool_decide_unpack _). by vm_compute. }
  split; [reflexivity|]. split; [reflexivity|].
  unfold unique_dates. intros Hnd.
  change (NoDup [(2%N, (Sample.t0 + 1)%Z); (2%N, (Sample.t0 + 1)%Z)]) in Hnd.
  apply NoDup_cons in Hnd as [Hnotin _]. apply Hnotin. by left.
Qed.

(** C10: the invariant that creation keeps is not kept by update.  From
    the empty store, two creates by the same user for two different
    instants lead to a store with unique dates; an update that moves the
    second entry to the instant of the first answers 200 and leaves two
    entries of that user with the same recorded instant. *)
Theorem C10_update_breaks_unique_dates :
  ∃ db now req_user params_id req_body resp db' w1 w2,
    reachable db
    ∧ unique_dates db
    ∧ WeightEntryController.updateWeightEntry now req_user params_id req_body db
      = (inr resp, db')
    ∧ status resp = 200%Z
    ∧ reachable db'
    ∧ weightEntries db' = [w1; w2]
    ∧ w_id w1 ≠ w_id w2
    ∧ w_userId w1 = w_userId w2
    ∧ w_recordedAt w1 = w_recordedAt w2
    ∧ ¬ unique_dates db'.
Proof.
  pose (u := Some (Sample.caller Sample.bob)).
  pose (db1 := snd (WeightEntryController.createWeightEntry Sample.t0 Sample.t0 u
                      (WeightEntryController.mkBody (Some 180%Q)
                         (Some (Js.DateNumber 1000)) None)
                      emptyDb)).
  pose (db2 := snd (WeightEntryController.createWeightEntry Sample.t0 Sample.t0 u
                      (WeightEntryController.mkBody (Some 179%Q)
                         (Some (Js.DateNumber 2000)) None)
                      db1)).
  assert (Hr : reachable db2) by (do 2 apply reachable_create; apply reachable_empty).
  exists db2, Sample.t0, u, (ValidId 2%N),
    (WeightEntryController.mkBody None (Some (Js.DateNumber 1000)) None).
  eexists _, _, _, _.
  split; [exact Hr|]. split.
  { unfold unique_dates. apply (bool_decide_unpack _). by vm_compute. }
  split; [vm_compute; reflexivity|]. split; [reflexivity|]. split.
  { change (reachable (snd (WeightEntryController.updateWeightEntry Sample.t0 u
                              (ValidId 2%N)
                              (WeightEntryController.mkBody None
                                 (Some (Js.DateNumber 1000)) None)
                              db2))).
    by apply reachable_update. }
  split; [reflexivity|]. split; [discriminate|]. split; [reflexivity|].
  split; [reflexivity|].
  unfold unique_dates. simpl. intros Hnd.
  apply NoDup_cons in Hnd as [Hnotin _]. apply Hnotin. by left.
Qed.

(** ** Listing weight entries and shipments *)








(** ** Auth controller *)

(** The predicate tells payloads apart: the plain object of a stored user
    is not clean until [passwordHash] is removed. *)
Lemma raw_object_not_clean u :
  clean (UserModel.json_of_Object (UserModel.toObject u)) = false
  ∧ clean (UserModel.json_of_Object
             (UserModel.delete_passwordHash (UserModel.toObject u))) = true.
Proof. split; reflexivity. Qed.

Lemma issue_clean config now o v :
  AuthController.issue config now o = inr v → clean v = true.
Proof.
  unfold AuthController.issue. run_async.
  destruct (Auth.generateAccessToken _ _ _); [discriminate|].
  destruct (Auth.generateRefreshToken _ _ _); [discriminate|].
  destruct (Auth.getTokenExpiration _ _); [discriminate|].
  intros [= <-]. reflexivity.
Qed.

Lemma sendSuccess_clean now data message statusCode :
  clean data = true → clean (body (sendSuccess now data message statusCode)) = true.
Proof.
  unfold clean. intros [Hk Hh]%andb_prop. apply negb_true_iff in Hk, Hh.
  simpl. by rewrite Hk, Hh.
Qed.

(** C7: whatever the configuration, the clock, the request and the
    store, the payload that register, login, token refresh or get-profile
    sends has no field named [passwordHash] and holds no password digest. *)
Theorem C7_no_password_hash_in_payload
    (config : Env.JwtConfig) (now : Z) (salt : N)
    (register_body : AuthController.RegisterBody)
    (login_body : AuthController.LoginBody)
    (refresh_body : option Token) (req_user : option AuthUser) (db : Db) :
  sent_clean (AuthController.register config now salt register_body db)
  ∧ sent_clean (AuthController.login config now login_body db)
  ∧ sent_clean (AuthController.refreshToken config now refresh_body db)
  ∧ sent_clean (AuthController.getProfile now req_user db).
Proof.
  unfold sent_clean. repeat split.
  - unfold AuthController.register, UserModel.findOne_email, UserModel.create,
      fresh_id.
    run_async.
    destruct (match AuthController.rb_email register_body with
              | Some _ => _ | None => _ end); [exact I|].
    destruct (hashPassword _ _ _); [exact I|]. simpl.
    destruct (UserModel.validate _ _ _); [exact I|]. simpl.
    destruct (existsb _ _); [exact I|]. simpl.
    destruct (AuthController.issue _ _ _) eqn:Hi; [exact I|]. simpl.
    apply sendSuccess_clean, (issue_clean _ _ _ _ Hi).
  - unfold AuthController.login, UserModel.findOne_email. run_async.
    destruct (match AuthController.lb_email login_body with
              | Some _ => _ | None => _ end); [|exact I].
    destruct (comparePassword _ _) as [|[|]]; [exact I| |exact I]. simpl.
    destruct (AuthController.issue _ _ _) eqn:Hi; [exact I|]. simpl.
    apply sendSuccess_clean, (issue_clean _ _ _ _ Hi).
  - unfold AuthController.refreshToken.
    destruct refresh_body as [[key payload|raw]|]; [| |exact I].
    + unfold UserModel.findById. run_async.
      destruct (Auth.verifyRefreshToken _ _ _); [exact I|]. simpl.
      destruct (cast_ObjectId _ _); [exact I|]. simpl.
      destruct (List.find _ _); [|exact I].
      destruct (AuthController.issue _ _ _) eqn:Hi; [exact I|]. simpl.
      apply sendSuccess_clean, (issue_clean _ _ _ _ Hi).
    + destruct raw as [|c raw]; [exact I|].
      unfold UserModel.findById. run_async. simpl. exact I.
  - unfold AuthController.getProfile, UserModel.findById.
    destruct (AuthController.truthy_id req_user); [|exact I]. run_async.
    destruct (cast_ObjectId _ _); [exact I|]. simpl.
    destruct (List.find _ _); [|exact I]. simpl. reflexivity.
Qed.

(** Registration on the sample store answers 201 with a clean payload
    that carries both tokens. *)
Example register_sample :
  ∃ r db',
    AuthController.register Sample.config Sample.t0 9
      (AuthController.mkRegisterBody (Some "a@x.com") (Some "Secret123!")
         (Some "A B") (Some 631152000000%Z) None) Sample.db = (inr r, db')
    ∧ status r = 201%Z
    ∧ clean (body r) = true
    ∧ (u_passwordHash <$> last (users db')) = Some (Bcrypt 9 12 "Secret123!")
    ∧ ∃ data a b, field "data" (body r) = Some data
                ∧ field "token" data = Some (JTok (Signed (Env.secret Sample.config) a))
                ∧ field "refreshToken" data
                  = Some (JTok (Signed (Env.secret Sample.config) b)).
Proof.
  eexists _, _. split; [vm_compute; reflexivity|].
  repeat split. eexists _, _, _. repeat split.
Qed.

(** ** Token durations *)

(** With a malformed duration the expiry text cannot be computed:
    [parseExpiration] throws on the unit, or [toISOString] throws on the
    invalid date that a [NaN] offset gives. *)
Lemma getTokenExpiration_malformed now duration :
  malformed_duration duration →
  ∃ e, Auth.getTokenExpiration now duration = inl e.
Proof.
  unfold Auth.getTokenExpiration, Auth.parseExpiration.
  intros [(Hs & Hm & Hh & Hd)|Hnan].
  - apply String.eqb_neq in Hs, Hm, Hh, Hd. rewrite Hs, Hm, Hh, Hd. eauto.
  - rewrite Hnan.
    destruct (String.eqb _ "s"); [eauto|].
    destruct (String.eqb _ "m"); [eauto|].
    destruct (String.eqb _ "h"); [eauto|].
    destruct (String.eqb _ "d"); eauto.
Qed.

Lemma issue_malformed config now o :
  malformed_duration (Env.expiresIn config) →
  ∃ e, AuthController.issue config now o = inl e.
Proof.
  intros H. unfold AuthController.issue.
  destruct (getTokenExpiration_malformed now _ H) as [e ->]. run_async.
  destruct (Auth.generateAccessToken _ _ _); [eauto|].
  destruct (Auth.generateRefreshToken _ _ _); eauto.
Qed.

(** C8 (as amended): the startup schema accepts every string as the
    access-token duration, so a malformed duration is not refused at
    startup; when the configured duration is malformed (its last character
    is none of [s], [m], [h], [d], or no number precedes it), the failure
    comes at run time: every register, login and refresh request ends in a
    thrown error. *)
Theorem C8_malformed_duration_fails_at_runtime
    (env : Env.ProcessEnv) (secret duration : string) :
  Env.JWT_SECRET env = Some secret →
  secret ≠ "" →
  Env.JWT_EXPIRES_IN env = Some duration →
  malformed_duration duration →
  ∃ config,
    Env.parse env = inr config
    ∧ Env.expiresIn config = duration
    ∧ (∀ now salt req_body db,
         ∃ e db', AuthController.register config now salt req_body db = (inl e, db'))
    ∧ (∀ now req_body db,
         ∃ e db', AuthController.login config now req_body db = (inl e, db'))
    ∧ (∀ now req_refreshToken db,
         ∃ e db', AuthController.refreshToken config now req_refreshToken db
                  = (inl e, db')).
Proof.
  intros Hsecret Hne Hduration Hmalformed.
  exists {| Env.secret := secret; Env.expiresIn := duration;
            Env.refreshExpiresIn := default "7d" (Env.REFRESH_TOKEN_EXPIRES_IN env) |}.
  split.
  { unfold Env.parse, Env.string_min1, Env.string_default.
    rewrite Hsecret, Hduration. apply String.eqb_neq in Hne. rewrite Hne.
    reflexivity. }
  split; [reflexivity|].
  set (config := {| Env.secret := secret |}).
  assert (Hissue : ∀ now o, ∃ e, AuthController.issue config now o = inl e)
    by (intros; by apply issue_malformed).
  split; [|split].
  - intros now salt req_body db.
    unfold AuthController.register, UserModel.findOne_email, UserModel.create,
      fresh_id.
    run_async.
    destruct (match AuthController.rb_email req_body with
              | Some _ => _ | None => _ end); [eauto|].
    destruct (hashPassword _ _ _); [eauto|]. simpl.
    destruct (UserModel.validate _ _ _); [eauto|]. simpl.
    destruct (existsb _ _); [eauto|]. simpl.
    destruct (Hissue now (UserModel.delete_passwordHash (UserModel.toObject u)))
      as [e ->].
    eauto.
  - intros now req_body db.
    unfold AuthController.login, UserModel.findOne_email. run_async.
    destruct (match AuthController.lb_email req_body with
              | Some _ => _ | None => _ end) as [u|]; [|eauto].
    destruct (comparePassword _ _) as [|[|]]; [eauto| |eauto]. simpl.
    destruct (Hissue now (UserModel.delete_passwordHash (UserModel.toObject u)))
      as [e ->].
    eauto.
  - intros now req_refreshToken db.
    unfold AuthController.refreshToken.
    destruct req_refreshToken as [[key payload|raw]|]; [| |eauto].
    + unfold UserModel.findById. run_async.
      destruct (Auth.verifyRefreshToken _ _ _); [eauto|]. simpl.
      destruct (cast_ObjectId _ _); [eauto|]. simpl.
      destruct (List.find _ _) as [u|]; [|eauto].
      destruct (Hissue now (UserModel.delete_passwordHash (UserModel.toObject u)))
        as [e ->].
      eauto.
    + destruct raw as [|c raw]; [eauto|].
      unfold UserModel.findById. run_async. simpl. eauto.
Qed.

Lemma C8_witness :
  ∃ e db',
    AuthController.login
      {| Env.secret := "0123456789abcdef0123456789abcdef"; Env.expiresIn := "90x";
         Env.refreshExpiresIn := "7d" |}
      Sample.t0 (AuthController.mkLoginBody (Some "patient@example.com") (Some "demo123"))
      Sample.db = (inl e, db').
Proof.
  destruct (C8_malformed_duration_fails_at_runtime
              (Env.mkProcessEnv (Some "0123456789abcdef0123456789abcdef")
                 (Some "90x") None)
              "0123456789abcdef0123456789abcdef" "90x")
    as (config & Hparse & _ & _ & Hlogin & _);
    [reflexivity|discriminate|reflexivity| |].
  { left. repeat split; discriminate. }
  injection Hparse as <-.
  exact (Hlogin Sample.t0
           (AuthController.mkLoginBody (Some "patient@example.com") (Some "demo123"))
           Sample.db).
Defined.

(** C8 (counterexample to the claim as stated): the duration [1w] passes
    the startup schema; with it a registration stores the user, signs both
    tokens, and then throws when the expiry text is computed. *)
Lemma C8_week_accepted_then_thrown :
  let env := Env.mkProcessEnv (Some "0123456789abcdef0123456789abcdef")
               (Some "1w") None in
  ∃ config,
    Env.parse env = inr config
    ∧ Env.expiresIn config = "1w"
    ∧ ∃ db',
        AuthController.register config Sample.t0 9
          (AuthController.mkRegisterBody (Some "a@x.com") (Some "Secret123!")
             (Some "A B") (Some 631152000000%Z) None) Sample.db
        = (inl (PlainError "Invalid expiration format: 1w"), db')
        ∧ (u_email <$> last (users db')) = Some "a@x.com".
Proof.
  eexists. split; [reflexivity|]. split; [reflexivity|].
  eexists. split; [vm_compute; reflexivity|reflexivity].
Qed.

(** ** Durations that both readers understand *)

Lemma is_digit_cases c :
  Jsonwebtoken.is_digit c = true →
  c ∈ ["0"; "1"; "2"; "3"; "4"; "5"; "6"; "7"; "8"; "9"]%char.
Proof.
  destruct c as [[] [] [] [] [] [] [] []]; intros H;
    solve [discriminate H | repeat (first [left | right])].
Qed.

Lemma slice_last_snoc ds u : Js.slice_last (ds +:+ String u "") = String u "".
Proof.
  induction ds as [|c r IH]; [reflexivity|].
  destruct r; [reflexivity|exact IH].
Qed.

Lemma slice_init_snoc ds u : Js.slice_init (ds +:+ String u "") = ds.
Proof.
  induction ds as [|c r IH]; [reflexivity|].
  destruct r as [|c' r']; [reflexivity|].
  change (String c (Js.slice_init (String c' r' +:+ String u ""))
          = String c (String c' r')).
  by rewrite IH.
Qed.

Lemma digit_val_digit c :
  Jsonwebtoken.is_digit c = true →
  ∃ d, Js.digit_val 10 c = Some d ∧ (0 ≤ d)%Z.
Proof.
  intros H. apply is_digit_cases in H.
  repeat (apply elem_of_cons in H as [->|H]; [by eexists; split; [reflexivity|]|]).
  by apply elem_of_nil in H.
Qed.

Lemma digits_prefix_digits ds acc :
  all_digits ds = true → (0 ≤ acc)%Z →
  ∃ n, Js.digits_prefix 10 (Some acc) ds = Some n ∧ (0 ≤ n)%Z.
Proof.
  revert acc. induction ds as [|c r IH]; intros acc Hds Hacc; [by eauto|].
  simpl in Hds. apply andb_prop in Hds as [Hc Hr].
  destruct (digit_val_digit c Hc) as (d & Hd & Hd0).
  cbn [Js.digits_prefix]. rewrite Hd. apply IH; [done|]. simpl. lia.
Qed.

Lemma digits_prefix_None_digits ds :
  ds ≠ "" → all_digits ds = true →
  ∃ n, Js.digits_prefix 10 None ds = Some n ∧ (0 ≤ n)%Z.
Proof.
  destruct ds as [|c r]; [done|]. intros _ Hds.
  simpl in Hds. apply andb_prop in Hds as [Hc Hr].
  destruct (digit_val_digit c Hc) as (d & Hd & Hd0).
  cbn [Js.digits_prefix]. rewrite Hd. apply digits_prefix_digits; [done|]. simpl. lia.
Qed.

Lemma parseInt_digits ds :
  all_digits ds = true → Js.parseInt ds = Js.digits_prefix 10 None ds.
Proof.
  intros Hds. destruct ds as [|c r]; [reflexivity|].
  simpl in Hds. apply andb_prop in Hds as [Hc Hr].
  assert (Hfmap : ∀ o : option Z, (λ v, 1 * v)%Z <$> o = o).
  { intros [v|]; [|reflexivity]. simpl. f_equal. lia. }
  apply is_digit_cases in Hc.
  repeat (apply elem_of_cons in Hc as [->|Hc];
          [first [ exact (Hfmap _)
                 | destruct r as [|c' r'];
                   [ reflexivity
                   | simpl in Hr; apply andb_prop in Hr as [Hc' _];
                     apply is_digit_cases in Hc';
                     repeat (apply elem_of_cons in Hc' as [->|Hc']; [exact (Hfmap _)|]);
                     by apply elem_of_nil in Hc' ] ]
          |]).
  by apply elem_of_nil in Hc.
Qed.

Lemma span_digits_app ds u :
  all_digits ds = true → u ∈ ["s"; "m"; "h"; "d"] →
  Jsonwebtoken.span_digits (ds +:+ u) = (ds, u).
Proof.
  intros Hds Hu. induction ds as [|c r IH].
  - repeat (apply elem_of_cons in Hu as [->|Hu]; [reflexivity|]).
    by apply elem_of_nil in Hu.
  - simpl in Hds. apply andb_prop in Hds as [Hc Hr].
    change (String c r +:+ u) with (String c (r +:+ u)).
    cbn [Jsonwebtoken.span_digits]. rewrite Hc, (IH Hr). reflexivity.
Qed.

Lemma length_app_string a b :
  String.length (a +:+ b) = (String.length a + String.length b)%nat.
Proof. induction a as [|c r IH]; [reflexivity|]. simpl. by rewrite IH. Qed.

Lemma ms_plain ds u n :
  plain_duration ds u → Js.digits_prefix 10 None ds = Some n →
  Jsonwebtoken.ms (ds +:+ u) = Some (n * unit_ms u)%Z.
Proof.
  intros (Hne & Hds & Hlen & Hu) Hn. unfold Jsonwebtoken.ms.
  assert (Hl : (100 <? String.length (ds +:+ u))%nat = false).
  { apply Nat.ltb_ge. rewrite length_app_string.
    repeat (apply elem_of_cons in Hu as [->|Hu]; [simpl; lia|]).
    by apply elem_of_nil in Hu. }
  rewrite Hl.
  assert (Hsign : (match ds +:+ u with
                   | String "-" r => ((-1)%Z, r)
                   | _ => (1%Z, ds +:+ u)
                   end) = (1%Z, ds +:+ u)).
  { destruct ds as [|c r]; [done|].
    simpl in Hds. apply andb_prop in Hds as [Hc _].
    apply is_digit_cases in Hc.
    repeat (apply elem_of_cons in Hc as [->|Hc]; [reflexivity|]).
    by apply elem_of_nil in Hc. }
  rewrite Hsign, (span_digits_app ds u Hds Hu), Hn.
  repeat (apply elem_of_cons in Hu as [->|Hu];
          [cbn; f_equal; unfold unit_ms; simpl; lia|]).
  by apply elem_of_nil in Hu.
Qed.

Lemma parseExpiration_plain ds u n :
  plain_duration ds u → Js.digits_prefix 10 None ds = Some n →
  Auth.parseExpiration (ds +:+ u) = inr (Some (n * unit_ms u)%Z).
Proof.
  intros (Hne & Hds & Hlen & Hu) Hn. unfold Auth.parseExpiration.
  repeat (apply elem_of_cons in Hu as [->|Hu];
          [rewrite slice_last_snoc, slice_init_snoc, (parseInt_digits ds Hds), Hn;
           cbn; do 2 f_equal; unfold unit_ms; simpl; lia|]).
  by apply elem_of_nil in Hu.
Qed.

Lemma digit_val_value c :
  Jsonwebtoken.is_digit c = true →
  Js.digit_val 10 c = Some (Z.of_nat (nat_of_ascii c) - 48)%Z.
Proof.
  intros Hc. apply is_digit_cases in Hc.
  repeat (apply elem_of_cons in Hc as [->|Hc]; [reflexivity|]).
  by apply elem_of_nil in Hc.
Qed.

Lemma digits_prefix_value ds acc :
  all_digits ds = true →
  Js.digits_prefix 10 (Some acc) ds = Some (digits_value_from acc ds).
Proof.
  revert acc. induction ds as [|c r IH]; intros acc Hds; [reflexivity|].
  simpl in Hds. apply andb_prop in Hds as [Hc Hr].
  cbn [Js.digits_prefix digits_value_from]. rewrite (digit_val_value c Hc).
  by apply IH.
Qed.

Lemma digits_value_from_nonneg ds acc :
  all_digits ds = true → (0 ≤ acc)%Z → (0 ≤ digits_value_from acc ds)%Z.
Proof.
  revert acc. induction ds as [|c r IH]; intros acc Hds Hacc; [done|].
  simpl in Hds. apply andb_prop in Hds as [Hc Hr].
  cbn [digits_value_from]. apply IH; [done|].
  unfold Jsonwebtoken.is_digit in Hc. apply andb_prop in Hc as [Hc _].
  apply Nat.leb_le in Hc. lia.
Qed.

(** On a plain duration [parseInt] reads the number that the digits
    spell. *)
Lemma parseInt_plain ds u :
  plain_duration ds u →
  Js.digits_prefix 10 None ds = Some (digits_value ds)
  ∧ Js.parseInt ds = Some (digits_value ds)
  ∧ (0 ≤ digits_value ds)%Z.
Proof.
  intros (Hne & Hds & _ & _).
  assert (H : Js.digits_prefix 10 None ds = Some (digits_value ds)).
  { destruct ds as [|c r]; [done|]. pose proof Hds as Hds'.
    simpl in Hds'. apply andb_prop in Hds' as [Hc Hr].
    cbn [Js.digits_prefix]. rewrite (digit_val_value c Hc).
    by rewrite (digits_prefix_value r _ Hr). }
  split; [exact H|]. split; [by rewrite (parseInt_digits ds Hds)|].
  by apply digits_value_from_nonneg.
Qed.

(** X4: the two readers of a configured duration agree on the plain
    durations.  For at most 99 decimal digits followed by [s], [m], [h]
    or [d], spelling a number of milliseconds that is at most
    [Number.MAX_SAFE_INTEGER], [parseInt] reads the number that the digits
    spell, and the [ms] package (which dates the tokens) and
    [parseExpiration] (which computes the announced expiry) return the
    same number of milliseconds: that number times the length of the
    unit. *)
Theorem plain_duration_readers_agree (digits unit : string) :
  plain_duration digits unit →
  (digits_value digits * unit_ms unit ≤ Js.MAX_SAFE_INTEGER)%Z →
  (0 ≤ digits_value digits)%Z
  ∧ Js.parseInt digits = Some (digits_value digits)
  ∧ Jsonwebtoken.ms (digits +:+ unit) = Some (digits_value digits * unit_ms unit)%Z
  ∧ Auth.parseExpiration (digits +:+ unit)
    = inr (Some (digits_value digits * unit_ms unit)%Z).
Proof.
  intros H _. destruct (parseInt_plain digits unit H) as (Hn & Hp & Hn0).
  split; [exact Hn0|]. split; [exact Hp|].
  split; [by apply ms_plain|by apply parseExpiration_plain].
Qed.

Lemma plain_duration_readers_agree_witness :
  Js.parseInt "15" = Some 15%Z
  ∧ Jsonwebtoken.ms "15m" = Some 900000%Z
  ∧ Auth.parseExpiration "15m" = inr (Some 900000%Z).
Proof.
  destruct (plain_duration_readers_agree "15" "m") as (_ & H1 & H2 & H3).
  - repeat split; [discriminate|simpl; lia|].
    apply elem_of_cons. right. apply elem_of_cons. by left.
  - vm_compute. discriminate.
  - split; [exact H1|]. split; [exact H2|exact H3].
Defined.







(** ** Refresh *)



(** ** The scenario of the specification, run on the embedding *)

(** Register, log in, authenticate with the access token of the login,
    create a weight entry, repeat the create, list: 201, 200, a resolved
    identity, 201, 409, and a list of one entry whose body carries no
    pagination metadata. *)
Example scenario_register_login_weight :
  let registration :=
    AuthController.mkRegisterBody (Some "a@x.com") (Some "Secret123!") (Some "A B")
      (Some 631152000000%Z) None in
  let entry :=
    WeightEntryController.mkBody (Some 180%Q)
      (Some (Js.DateText (Some 1704067200000%Z))) None in
  ∃ r1 db1 r2 access payload me r3 db3 r4 r5 item,
    AuthController.register Sample.config Sample.t0 9 registration emptyDb
      = (inr r1, db1)
    ∧ status r1 = 201%Z
    ∧ AuthController.login Sample.config (Sample.t0 + 1000)
        (AuthController.mkLoginBody (Some "a@x.com") (Some "Secret123!")) db1
      = (inr r2, db1)
    ∧ status r2 = 200%Z
    ∧ (field "data" (body r2) ≫= field "token") = Some (JTok (Signed access payload))
    ∧ AuthMiddleware.authenticateToken Sample.config (Sample.t0 + 2000)
        (Some (Bearer (Signed access payload))) db1
      = Next me
    ∧ au_email me = "a@x.com" ∧ au_role me = "user"
    ∧ WeightEntryController.createWeightEntry (Sample.t0 + 3000) (Sample.t0 + 3001)
        (Some me) entry db1
      = (inr r3, db3)
    ∧ status r3 = 201%Z
    ∧ WeightEntryController.createWeightEntry (Sample.t0 + 4000) (Sample.t0 + 4001)
        (Some me) entry db3
      = (inr r4, db3)
    ∧ status r4 = 409%Z
    ∧ WeightEntryController.getWeightEntries (Sample.t0 + 5000) (Some me)
        (WeightEntryController.mkQuery (Some "1") (Some "10") None None None None) db3
      = (inr r5, db3)
    ∧ status r5 = 200%Z
    ∧ field "data" (body r5) = Some (JArr [item])
    ∧ has_key "pagination" (body r5) = false
    ∧ AuthController.getProfile (Sample.t0 + 6000) (Some me) db3
      = (inr (sendSuccess (Sample.t0 + 6000)
                (AuthController.json_of_User
                   {| user_id := ValidId 1%N; user_email := "a@x.com";
                      firstName := "A"; lastName := "B";
                      dateOfBirth := 631152000000; enrollmentDate := Sample.t0;
                      user_createdAt := Sample.t0; user_updatedAt := Sample.t0;
                      user_role := user |})
                "User profile retrieved successfully" 200), db3).
Proof.
  intros registration entry.
  eexists _, _, _, _, _, _, _, _, _, _, _.
  split; [vm_compute; reflexivity|]. split; [reflexivity|].
  split; [vm_compute; reflexivity|]. split; [reflexivity|].
  split; [vm_compute; reflexivity|].
  split; [vm_compute; reflexivity|]. split; [reflexivity|]. split; [reflexivity|].
  split; [vm_compute; reflexivity|]. split; [reflexivity|].
  split; [vm_compute; reflexivity|]. split; [reflexivity|].
  split; [vm_compute; reflexivity|]. split; [reflexivity|].
  split; [vm_compute; reflexivity|]. split; [reflexivity|].
  vm_compute; reflexivity.
Qed.

(** ** Further properties of the handlers *)


(** X2: an access token that the service issued for a stored user and
    that has not expired passes the middleware, which attaches the id,
    email, role and timestamps of the stored user: the role comes from the
    store, not from the token. *)
Theorem X2_issued_token_authenticates
    (config : Env.JwtConfig) (issued now : Z) (u : UserDoc) (db : Db)
    (access : Token) (e : Z) :
  List.find (λ v, N.eqb (u_id v) (u_id u)) (users db) = Some u →
  Auth.generateAccessToken config issued (api_user u) = inr access →
  token_exp access = Some e →
  (now / 1000 < e)%Z →
  AuthMiddleware.authenticateToken config now (Some (Bearer access)) db
  = Next {| au_id := ValidId (u_id u); au_email := u_email u;
            au_role := Role_to_string (u_role u);
            au_createdAt := Some (u_createdAt u);
            au_updatedAt := Some (u_updatedAt u) |}.
Proof.
  intros Hfind Haccess Hexp Hnow.
  destruct (generate_shape config issued (api_user u) _ access Haccess)
    as (e' & _ & Hsecret & ->).
  simpl in Hexp. injection Hexp as ->.
  unfold AuthMiddleware.authenticateToken, bearer_token.
  rewrite (verify_signed config now _ e Hsecret) by reflexivity.
  destruct (Z.leb_spec e (now / 1000)); [lia|].
  unfold UserModel.findById. run_async. simpl. rewrite Hfind.
  by destruct (u_role u).
Qed.

Lemma X2_witness :
  ∃ access,
    Auth.generateAccessToken Sample.config Sample.t0 (api_user Sample.alice)
      = inr access
    ∧ AuthMiddleware.authenticateToken Sample.config (Sample.t0 + 60000)
        (Some (Bearer access)) Sample.db
      = Next (Sample.caller Sample.alice).
Proof.
  eexists. split; [reflexivity|].
  exact (X2_issued_token_authenticates Sample.config Sample.t0 (Sample.t0 + 60000)
           Sample.alice Sample.db _ 1700003600%Z eq_refl eq_refl eq_refl eq_refl).
Defined.

Lemma find_rehash (f : UserDoc → PasswordHash) (p : UserDoc → bool) l :
  (∀ u h, p (with_digest h u) = p u) →
  List.find p ((λ u, with_digest (f u) u) <$> l)
  = (λ u, with_digest (f u) u) <$> List.find p l.
Proof.
  intros Hp. induction l as [|u l IH]; [reflexivity|].
  cbn [fmap list_fmap List.find]. rewrite Hp.
  destruct (p u); [reflexivity|]. exact IH.
Qed.

(** X8: what get-profile and token refresh answer does not depend on the
    stored password digests: replacing every digest in the store by any
    other leaves both answers as they were. *)
Theorem X8_answers_independent_of_digests
    (config : Env.JwtConfig) (now : Z) (req_user : option AuthUser)
    (req_refreshToken : option Token) (f : UserDoc → PasswordHash) (db : Db) :
  fst (AuthController.getProfile now req_user (rehash f db))
  = fst (AuthController.getProfile now req_user db)
  ∧ fst (AuthController.refreshToken config now req_refreshToken (rehash f db))
    = fst (AuthController.refreshToken config now req_refreshToken db).
Proof.
  split.
  - unfold AuthController.getProfile, UserModel.findById.
    destruct (AuthController.truthy_id req_user); [|reflexivity]. run_async.
    destruct (cast_ObjectId _ _); [reflexivity|]. simpl.
    rewrite find_rehash by reflexivity.
    by destruct (List.find _ (users db)).
  - unfold AuthController.refreshToken.
    destruct req_refreshToken as [[key payload|raw]|]; [| |reflexivity].
    + unfold UserModel.findById. run_async.
      destruct (Auth.verifyRefreshToken _ _ _); [reflexivity|]. simpl.
      destruct (cast_ObjectId _ _); [reflexivity|]. simpl.
      rewrite find_rehash by reflexivity.
      destruct (List.find _ (users db)) as [u|]; [|reflexivity]. simpl.
      change (UserModel.delete_passwordHash
                (UserModel.toObject (with_digest (f u) u)))
        with (UserModel.delete_passwordHash (UserModel.toObject u)).
      by destruct (AuthController.issue _ _ _).
    + destruct raw; [reflexivity|].
      unfold UserModel.findById. run_async. reflexivity.
Qed.

(** ** What a passed request proves *)

Lemma find_elem_of {A} (p : A → bool) l x :
  List.find p l = Some x → x ∈ l ∧ p x = true.
Proof.
  intros H. apply List.find_some in H as [Hin Hp].
  split; [by apply list_elem_of_In|done].
Qed.

(** A token that [jwt.verify] accepts is signed with the secret, which
    is not empty, and has not expired. *)
Lemma verify_inr now token secret payload :
  Jsonwebtoken.verify now token secret = inr payload →
  token = Signed secret payload ∧ secret ≠ ""
  ∧ ∀ e, exp payload = Some e → (now / 1000 < e)%Z.
Proof.
  unfold Jsonwebtoken.verify. intros H.
  destruct token as [key p|raw]; [|destruct (String.eqb raw ""); discriminate].
  destruct (String.eqb_spec secret "") as [|Hs]; [discriminate|].
  destruct (String.eqb_spec key secret) as [->|]; [|discriminate].
  cbn [negb] in H.
  destruct (exp p) as [e|] eqn:He.
  - destruct (Z.leb_spec e (now / 1000)); [discriminate|].
    injection H as <-. split_and!; try done.
    intros e' He'. rewrite He in He'. injection He' as <-. lia.
  - injection H as <-. split_and!; try done. intros e' He'. congruence.
Qed.

Lemma bearer_token_Some authorization token :
  bearer_token authorization = Some token → authorization = Some (Bearer token).
Proof.
  destruct authorization as [[[k p|[|c r]]|raw]|]; simpl; congruence.
Qed.

(** The id that the middleware attaches is the one that the token
    names. *)
Lemma authenticateToken_Next_id config now authorization db u :
  AuthMiddleware.authenticateToken config now authorization db = Next u →
  ∃ payload i,
    authorization = Some (Bearer (Signed (Env.secret config) payload))
    ∧ userId payload = ValidId i ∧ au_id u = ValidId i.
Proof.
  unfold AuthMiddleware.authenticateToken. intros H.
  destruct (bearer_token authorization) as [token|] eqn:Hb; [|discriminate].
  apply bearer_token_Some in Hb as ->.
  destruct (Jsonwebtoken.verify _ _ _) as [err|payload] eqn:Hv; [discriminate|].
  apply verify_inr in Hv as (-> & _ & _).
  unfold UserModel.findById in H. run_async.
  destruct (cast_ObjectId "_id" (userId payload)) as [err|i] eqn:Hid;
    [discriminate|].
  destruct (userId payload) as [o|s] eqn:Hu; [|discriminate]. injection Hid as ->.
  cbn in H.
  destruct (List.find _ (users db)) as [doc|] eqn:Hfind; [|discriminate].
  apply find_elem_of in Hfind as [_ Heq]. apply N.eqb_eq in Heq as <-.
  injection H as <-. by exists payload, (u_id doc).
Qed.

(** X3: the middleware is sound.  When [authenticateToken] calls
    [next()], the header was a bearer token signed with the configured
    secret, the secret is not empty, the token has not expired, the user
    that the token names is stored, and [req.user] is built from the
    stored document alone. *)
Theorem authenticateToken_sound
    (config : Env.JwtConfig) (now : Z) (authorization : option AuthHeader)
    (db : Db) (u : AuthUser) :
  AuthMiddleware.authenticateToken config now authorization db = Next u →
  ∃ payload doc,
    authorization = Some (Bearer (Signed (Env.secret config) payload))
    ∧ Env.secret config ≠ ""
    ∧ (∀ e, exp payload = Some e → (now / 1000 < e)%Z)
    ∧ doc ∈ users db
    ∧ userId payload = ValidId (u_id doc)
    ∧ u = {| au_id := ValidId (u_id doc); au_email := u_email doc;
             au_role := Role_to_string (u_role doc);
             au_createdAt := Some (u_createdAt doc);
             au_updatedAt := Some (u_updatedAt doc) |}.
Proof.
  unfold AuthMiddleware.authenticateToken. intros H.
  destruct (bearer_token authorization) as [token|] eqn:Hb; [|discriminate].
  apply bearer_token_Some in Hb as ->.
  destruct (Jsonwebtoken.verify _ _ _) as [err|payload] eqn:Hv; [discriminate|].
  apply verify_inr in Hv as (-> & Hs & Hexp).
  unfold UserModel.findById in H. run_async.
  destruct (cast_ObjectId "_id" (userId payload)) as [err|i] eqn:Hid;
    [discriminate|].
  destruct (userId payload) as [o|s] eqn:Hu; [|discriminate]. injection Hid as ->.
  cbn in H.
  destruct (List.find _ (users db)) as [doc|] eqn:Hfind; [|discriminate].
  apply find_elem_of in Hfind as [Hin Heq]. apply N.eqb_eq in Heq as <-.
  exists payload, doc. split_and!; try done.
  injection H as <-. by destruct (u_role doc).
Qed.

Lemma authenticateToken_sound_witness :
  ∃ payload doc,
    Some (Bearer (Signed "0123456789abcdef0123456789abcdef"
                    {| userId := ValidId 1%N; email := "admin@example.com";
                       role := None; iat := Some 1700000000%Z;
                       exp := Some 1700003600%Z; iss := None; aud := None |}))
    = Some (Bearer (Signed (Env.secret Sample.config) payload))
    ∧ Env.secret Sample.config ≠ ""
    ∧ (∀ e, exp payload = Some e → (Sample.t0 / 1000 < e)%Z)
    ∧ doc ∈ users Sample.db
    ∧ userId payload = ValidId (u_id doc)
    ∧ Sample.caller Sample.alice
      = {| au_id := ValidId (u_id doc); au_email := u_email doc;
           au_role := Role_to_string (u_role doc);
           au_createdAt := Some (u_createdAt doc);
           au_updatedAt := Some (u_updatedAt doc) |}.
Proof.
  apply (authenticateToken_sound Sample.config Sample.t0 _ Sample.db). reflexivity.
Defined.

(** ** The store invariant *)

Lemma fmap_update_first {A B} (key : A → B) (p : A → bool) (f : A → A) l :
  (∀ x, p x = true → key (f x) = key x) →
  key <$> update_first p f l = key <$> l.
Proof.
  intros H. induction l as [|x l IH]; [reflexivity|]. cbn [update_first].
  destruct (p x) eqn:Hp; rewrite !fmap_cons; [by rewrite H|by rewrite IH].
Qed.

Lemma remove_first_sublist {A} (p : A → bool) l : remove_first p l `sublist_of` l.
Proof.
  induction l as [|x l IH]; [constructor|]. simpl.
  destruct (p x); [by apply sublist_cons|by apply sublist_skip].
Qed.

Lemma NoDup_fmap_remove_first {A B} (key : A → B) (p : A → bool) l :
  NoDup (key <$> l) → NoDup (key <$> remove_first p l).
Proof.
  intros H. eapply sublist_NoDup; [exact H|].
  apply (fmap_sublist key _ _ (remove_first_sublist p l)).
Qed.

Lemma Forall_fmap_remove_first {A B} (key : A → B) (P : B → Prop) (p : A → bool) l :
  Forall P (key <$> l) → Forall P (key <$> remove_first p l).
Proof.
  rewrite !Forall_forall. intros H x Hx. apply H.
  eapply elem_of_sublist; [exact Hx|].
  apply (fmap_sublist key _ _ (remove_first_sublist p l)).
Qed.

Lemma NoDup_snoc_fresh (n : N) (l : list N) :
  NoDup l → Forall (λ i, (i < n)%N) l → NoDup (l ++ [n]).
Proof.
  intros Hl Hn. apply NoDup_app. split; [done|]. split; [|apply NoDup_singleton].
  intros x Hx Hx'. apply list_elem_of_singleton in Hx' as ->.
  rewrite Forall_forall in Hn. specialize (Hn _ Hx). lia.
Qed.

Lemma Forall_lt_succ (n : N) (l : list N) :
  Forall (λ i, (i < n)%N) l → Forall (λ i, (i < N.succ n)%N) l.
Proof. intros H. eapply Forall_impl; [exact H|]. intros x Hx. simpl in *. lia. Qed.

Lemma store_ok_fresh_id db : store_ok db → store_ok (snd (fresh_id db)).
Proof.
  unfold store_ok, generated_ids. simpl. intros (?&?&?&?&?&?).
  repeat split; try done. by apply Forall_lt_succ.
Qed.

Lemma store_ok_insert_user db u :
  store_ok db → u_id u = nextId db → u_email u ∉ u_email <$> users db →
  store_ok (UserModel.insert u (snd (fresh_id db))).
Proof.
  unfold store_ok, generated_ids. simpl. intros (Hu&He&Hm&Hw&Hs&Hall) Hid Hem.
  rewrite !Forall_app in Hall. destruct Hall as (Hu'&Hw').
  rewrite !fmap_app. simpl. rewrite Hid.
  repeat split; try done.
  - by apply NoDup_snoc_fresh.
  - apply NoDup_app. split; [done|]. split; [|apply NoDup_singleton].
    intros x Hx Hx'. by apply list_elem_of_singleton in Hx' as ->.
  - rewrite !Forall_app. repeat split; try by apply Forall_lt_succ.
    apply Forall_singleton. lia.
Qed.

Lemma store_ok_add_weightEntry db w :
  store_ok db → w_id w = nextId db →
  store_ok (set_weightEntries (weightEntries db ++ [w]) (snd (fresh_id db))).
Proof.
  unfold store_ok, generated_ids. simpl. intros (Hu&He&Hm&Hw&Hs&Hall) Hid.
  rewrite !Forall_app in Hall. destruct Hall as (Hu'&Hw').
  rewrite !fmap_app. simpl. rewrite Hid.
  repeat split; try done.
  - by apply NoDup_snoc_fresh.
  - rewrite !Forall_app. repeat split; try by apply Forall_lt_succ.
    apply Forall_singleton. lia.
Qed.

(** A change of the shipments alone keeps the invariant when their ids
    stay unique and the supply of fresh ids does not go back. *)
Lemma store_ok_shipments db db' :
  store_ok db →
  users db' = users db → medications db' = medications db →
  weightEntries db' = weightEntries db →
  NoDup (s_id <$> shipments db') → (nextId db ≤ nextId db')%N →
  store_ok db'.
Proof.
  unfold store_ok, generated_ids. intros (Hu&He&Hm&Hw&Hs&Hall) -> -> -> Hs' Hn.
  split_and!; try done.
  eapply Forall_impl; [exact Hall|]. intros x Hx. simpl in *. lia.
Qed.

Lemma store_ok_update_weightEntry db p f :
  store_ok db → (∀ x, p x = true → w_id (f x) = w_id x) →
  store_ok (set_weightEntries (update_first p f (weightEntries db)) db).
Proof.
  unfold store_ok, generated_ids. simpl. intros H Hf.
  by rewrite (fmap_update_first w_id p f _ Hf).
Qed.

Lemma store_ok_remove_weightEntry db p :
  store_ok db → store_ok (set_weightEntries (remove_first p (weightEntries db)) db).
Proof.
  unfold store_ok, generated_ids. simpl. intros (Hu&He&Hm&Hw&Hs&Hall).
  rewrite !Forall_app in Hall. destruct Hall as (Hu'&Hw').
  repeat split; try done; [by apply NoDup_fmap_remove_first|].
  rewrite !Forall_app. repeat split; try done. by apply Forall_fmap_remove_first.
Qed.

(** ** Registration and login *)

Lemma validate_user_inr i now x u :
  UserModel.validate i now x = inr u →
  ∃ e n d r,
    UserModel.in_email x = Some e ∧ UserModel.in_name x = Some n
    ∧ UserModel.in_dob x = Some d
    ∧ UserModel.Role_of_string (UserModel.in_role x) = Some r
    ∧ UserModel.normalize_email e ≠ "" ∧ Js.trim n ≠ ""
    ∧ u = {| u_id := i; u_email := UserModel.normalize_email e;
             u_passwordHash := UserModel.in_passwordHash x;
             u_name := Js.trim n; u_dob := d; u_role := r;
             u_createdAt := now; u_updatedAt := now |}.
Proof.
  unfold UserModel.validate. intros H.
  destruct (UserModel.in_email x) as [e|]; [|discriminate].
  destruct (UserModel.in_name x) as [n|]; [|discriminate].
  destruct (UserModel.in_dob x) as [d|]; [|discriminate].
  destruct (UserModel.Role_of_string _) as [r|]; [|discriminate].
  destruct (String.eqb_spec (UserModel.normalize_email e) ""); [discriminate|].
  destruct (String.eqb_spec (Js.trim n) ""); [discriminate|].
  injection H as <-. by exists e, n, d, r.
Qed.

Lemma existsb_email_false (e : string) (l : list UserDoc) :
  existsb (λ v, String.eqb (u_email v) e) l = false → e ∉ u_email <$> l.
Proof.
  induction l as [|v l IH]; simpl; intros H Hin; [by apply elem_of_nil in Hin|].
  apply orb_false_elim in H as [Hv Hl].
  apply elem_of_cons in Hin as [->|Hin]; [by rewrite String.eqb_refl in Hv|].
  by apply IH.
Qed.

(** Every way a registration can end, with the store it leaves. *)
Lemma register_outcome config now salt body db :
  let out := AuthController.register config now salt body db in
  (snd out = db ∧ ∃ e, fst out = inl e)
  ∨ (snd out = snd (fresh_id db) ∧ ∃ e, fst out = inl e)
  ∨ ∃ e p n d r u,
      AuthController.rb_email body = Some e
      ∧ AuthController.rb_password body = Some p
      ∧ AuthController.rb_name body = Some n
      ∧ AuthController.rb_dob body = Some d
      ∧ UserModel.Role_of_string
          (Js.or_string (default "" (AuthController.rb_role body)) "user") = Some r
      ∧ UserModel.normalize_email e ≠ "" ∧ Js.trim n ≠ ""
      ∧ u = {| u_id := nextId db; u_email := UserModel.normalize_email e;
               u_passwordHash := Bcrypt salt 12 (bcrypt_key p);
               u_name := Js.trim n; u_dob := d; u_role := r;
               u_createdAt := now; u_updatedAt := now |}
      ∧ List.find (λ v, String.eqb (u_email v) (UserModel.normalize_email e)) (users db)
        = None
      ∧ snd out = UserModel.insert u (snd (fresh_id db))
      ∧ fst out
        = ((λ a, sendSuccess now a "User registered successfully" 201)
             <$> AuthController.issue config now
                   (UserModel.delete_passwordHash (UserModel.toObject u))).
Proof.
  unfold AuthController.register, UserModel.findOne_email, UserModel.create,
    hashPassword, fresh_id.
  run_async.
  destruct (AuthController.rb_email body) as [e|] eqn:He.
  - destruct (List.find _ (users db)) as [v|] eqn:Hfind; [left; eauto|].
    destruct (AuthController.rb_password body) as [p|] eqn:Hp; [|left; eauto].
    cbn beta iota zeta.
    destruct (UserModel.validate _ _ _) as [err|u] eqn:Hv; [right; left; eauto|].
    apply validate_user_inr in Hv as (e' & n & d & r & He' & Hn & Hd & Hr & Hne & Hnn & ->).
    cbn in He', Hn, Hd, Hr. injection He' as <-.
    cbn [u_email users UserModel.in_passwordHash].
    destruct (existsb _ (users db)) eqn:Hex; [right; left; eauto|].
    right. right. exists e, p, n, d, r. eexists. repeat (split; [done|]).
    cbn beta iota zeta. unfold fmap, Res_fmap.
    by destruct (AuthController.issue _ _ _).
  - destruct (AuthController.rb_password body) as [p|] eqn:Hp; [|left; eauto].
    cbn beta iota zeta.
    destruct (UserModel.validate _ _ _) as [err|u] eqn:Hv; [right; left; eauto|].
    apply validate_user_inr in Hv as (e' & _ & _ & _ & He' & _). discriminate.
Qed.

Lemma find_none_existsb {A} (p : A → bool) l :
  List.find p l = None → existsb p l = false.
Proof.
  induction l as [|x l IH]; [reflexivity|]. simpl.
  destruct (p x); [discriminate|]. exact IH.
Qed.

(** The converse: a request that passes the checks is stored, whatever
    the configuration. *)
Lemma register_accepted config now salt body db e p n d r :
  AuthController.rb_email body = Some e →
  AuthController.rb_password body = Some p →
  AuthController.rb_name body = Some n →
  AuthController.rb_dob body = Some d →
  UserModel.Role_of_string
    (Js.or_string (default "" (AuthController.rb_role body)) "user") = Some r →
  UserModel.normalize_email e ≠ "" → Js.trim n ≠ "" →
  List.find (λ v, String.eqb (u_email v) (UserModel.normalize_email e)) (users db)
    = None →
  let u := {| u_id := nextId db; u_email := UserModel.normalize_email e;
              u_passwordHash := Bcrypt salt 12 (bcrypt_key p);
              u_name := Js.trim n; u_dob := d; u_role := r;
              u_createdAt := now; u_updatedAt := now |} in
  AuthController.register config now salt body db
  = ((λ a, sendSuccess now a "User registered successfully" 201)
       <$> AuthController.issue config now
             (UserModel.delete_passwordHash (UserModel.toObject u)),
     UserModel.insert u (snd (fresh_id db))).
Proof.
  intros He Hp Hn Hd Hr Hne Hnn Hfind u.
  unfold AuthController.register, UserModel.findOne_email, UserModel.create,
    hashPassword, fresh_id.
  run_async. rewrite He, Hfind, Hp. cbn beta iota zeta.
  unfold UserModel.validate.
  cbn [UserModel.in_email UserModel.in_name UserModel.in_dob UserModel.in_role
       UserModel.in_passwordHash].
  rewrite Hn, Hd, Hr.
  apply String.eqb_neq in Hne, Hnn. rewrite Hne, Hnn.
  run_async. cbn [u_email users].
  rewrite (find_none_existsb _ _ Hfind).
  unfold fmap, Res_fmap. fold u.
  by destruct (AuthController.issue _ _ _).
Qed.


Lemma login_stored config later e p u db :
  List.find (λ v, String.eqb (u_email v) (UserModel.normalize_email e)) (users db)
    = Some u →
  AuthController.login config later
    {| AuthController.lb_email := Some e; AuthController.lb_password := Some p |} db
  = (match comparePassword (Some p) (u_passwordHash u) with
     | inr true =>
         (λ a, sendSuccess later a "Login successful" 200)
           <$> AuthController.issue config later
                 (UserModel.delete_passwordHash (UserModel.toObject u))
     | inr false => inl (createApiError.unauthorized "Invalid credentials")
     | inl err => inl err
     end, db).
Proof.
  intros Hfind. unfold AuthController.login, UserModel.findOne_email. run_async.
  cbn [AuthController.lb_email AuthController.lb_password]. rewrite Hfind.
  destruct (comparePassword _ _) as [err|[|]]; try reflexivity.
  unfold fmap, Res_fmap. by destruct (AuthController.issue _ _ _).
Qed.




(** X10: registration is not atomic.  When the configured access
    duration is malformed, a request that would have been accepted under
    the durations [1h] and [7d] ends in a thrown error, yet the user has
    been stored: the store is the one that the accepted registration
    leaves, and every later registration with the same body is refused as
    a conflict. *)
Theorem failed_register_leaves_account
    (config : Env.JwtConfig) (now : Z) (salt : N)
    (body : AuthController.RegisterBody) (db : Db) (r : Response) (db' : Db) :
  malformed_duration (Env.expiresIn config) →
  AuthController.register (Env.mkJwtConfig (Env.secret config) "1h" "7d")
    now salt body db = (inr r, db') →
  ∃ err,
    AuthController.register config now salt body db = (inl err, db')
    ∧ users db' ≠ users db
    ∧ ∀ later salt',
        AuthController.register config later salt' body db'
        = (inl (createApiError.conflict "User already exists with this email"), db').
Proof.
  intros Hbad H.
  destruct (register_outcome (Env.mkJwtConfig (Env.secret config) "1h" "7d")
              now salt body db)
    as [(_ & err & He)|[(_ & err & He)|(e & p & n & d & ro & u & He & Hp & Hn & Hd
                                         & Hr & Hne & Hnn & Hu & Hfind & Hdb & _)]];
    rewrite H in *; try discriminate.
  cbn [fst snd] in Hdb. subst db'.
  rewrite (register_accepted config now salt body db e p n d ro He Hp Hn Hd Hr Hne
             Hnn Hfind).
  rewrite <- Hu.
  destruct (issue_malformed config now
              (UserModel.delete_passwordHash (UserModel.toObject u)) Hbad)
    as [err Herr].
  rewrite Herr. exists err. split; [reflexivity|]. split.
  { simpl. intros Heq. apply (f_equal length) in Heq.
    rewrite length_app in Heq. simpl in Heq. lia. }
  intros later salt'.
  unfold AuthController.register, UserModel.findOne_email. run_async. rewrite He.
  assert (Hnew : List.find (λ v, String.eqb (u_email v) (UserModel.normalize_email e))
                   (users (UserModel.insert u (snd (fresh_id db)))) = Some u).
  { simpl. apply find_app_new; [done|]. subst u. simpl. apply String.eqb_refl. }
  by rewrite Hnew.
Qed.

Lemma failed_register_leaves_account_witness :
  let config := Env.mkJwtConfig "0123456789abcdef0123456789abcdef" "1w" "7d" in
  let body :=
    {| AuthController.rb_email := Some "carol@example.com";
       AuthController.rb_password := Some "s3cret";
       AuthController.rb_name := Some "Carol Jones";
       AuthController.rb_dob := Some 0%Z;
       AuthController.rb_role := None |} in
  ∃ err db',
    AuthController.register config Sample.t0 5%N body Sample.db = (inl err, db')
    ∧ users db' ≠ users Sample.db
    ∧ ∀ later salt',
        AuthController.register config later salt' body db'
        = (inl (createApiError.conflict "User already exists with this email"), db').
Proof.
  intros config body.
  destruct (failed_register_leaves_account config Sample.t0 5%N body Sample.db _ _
              ltac:(left; repeat split; discriminate) eq_refl)
    as (err & H1 & H2 & H3).
  eauto.
Defined.

Lemma refreshToken_frame config now req_refreshToken db :
  snd (AuthController.refreshToken config now req_refreshToken db) = db
  ∧ match fst (AuthController.refreshToken config now req_refreshToken db) with
    | inr r => status r = 200%Z
    | inl _ => True
    end.
Proof.
  unfold AuthController.refreshToken.
  destruct req_refreshToken as [[key payload|raw]|]; [| |done].
  - unfold UserModel.findById. run_async.
    destruct (Auth.verifyRefreshToken _ _ _); [done|].
    destruct (cast_ObjectId _ _); [done|]. cbn beta iota zeta.
    destruct (List.find _ _); [|done].
    by destruct (AuthController.issue _ _ _).
  - destruct raw as [|c raw]; [done|].
    unfold UserModel.findById. run_async. done.
Qed.

(** X11: token refresh never writes to the store; when it answers, it
    answers 200; and it fails in two ways only: "Refresh token is
    required" (400) when the token is absent or empty, and "Invalid or
    expired refresh token" (401) for everything that goes wrong
    afterwards, the "User not found" error of the handler included, which
    its own [catch] replaces. *)
Theorem refreshToken_failures
    (config : Env.JwtConfig) (now : Z) (req_refreshToken : option Token) (db : Db) :
  snd (AuthController.refreshToken config now req_refreshToken db) = db
  ∧ match fst (AuthController.refreshToken config now req_refreshToken db) with
    | inr r => status r = 200%Z
    | inl err =>
        err = createApiError.badRequest "Refresh token is required"
        ∨ err = createApiError.unauthorized "Invalid or expired refresh token"
    end.
Proof.
  unfold AuthController.refreshToken.
  destruct req_refreshToken as [[key payload|raw]|]; [| |by split; [|left]].
  - unfold UserModel.findById. run_async.
    destruct (Auth.verifyRefreshToken _ _ _); [by split; [|right]|].
    destruct (cast_ObjectId _ _); [by split; [|right]|]. cbn beta iota zeta.
    destruct (List.find _ _); [|by split; [|right]].
    destruct (AuthController.issue _ _ _); [by split; [|right]|by split].
  - destruct raw as [|c raw]; [by split; [|left]|].
    unfold UserModel.findById. run_async. simpl. by split; [|right].
Qed.

(** ** Weight entries: what a request can change *)

Lemma filter_update_first {A} (P : A → Prop) `{∀ x, Decision (P x)}
    (p : A → bool) (f : A → A) l :
  (∀ x, x ∈ l → p x = true → ¬ P x ∧ ¬ P (f x)) →
  filter P (update_first p f l) = filter P l.
Proof.
  induction l as [|x l IH]; intros Hp; [reflexivity|]. cbn [update_first].
  destruct (p x) eqn:Hx.
  - destruct (Hp x ltac:(left) Hx) as [H1 H2].
    by rewrite !filter_cons_False.
  - rewrite !filter_cons, IH; [done|]. intros y Hy. apply Hp. by right.
Qed.

Lemma filter_remove_first {A} (P : A → Prop) `{∀ x, Decision (P x)}
    (p : A → bool) l :
  (∀ x, x ∈ l → p x = true → ¬ P x) →
  filter P (remove_first p l) = filter P l.
Proof.
  induction l as [|x l IH]; intros Hp; [reflexivity|]. cbn [remove_first].
  destruct (p x) eqn:Hx.
  - by rewrite filter_cons_False by (by apply Hp; [left|]).
  - rewrite !filter_cons, IH; [done|]. intros y Hy. apply Hp. by right.
Qed.

Lemma NoDup_fmap_elem_inj {A B} (key : A → B) (l : list A) x y :
  NoDup (key <$> l) → x ∈ l → y ∈ l → key x = key y → x = y.
Proof.
  induction l as [|z l IH]; intros Hnd Hx Hy Hk; [by apply elem_of_nil in Hx|].
  rewrite fmap_cons in Hnd. apply NoDup_cons in Hnd as [Hz Hnd].
  apply elem_of_cons in Hx as [->|Hx]; apply elem_of_cons in Hy as [->|Hy].
  - done.
  - destruct Hz. rewrite Hk. by apply list_elem_of_fmap_2.
  - destruct Hz. rewrite <- Hk. by apply list_elem_of_fmap_2.
  - by apply IH.
Qed.

Lemma owner_ValidId userId uid :
  WeightEntryController.owner userId = inr uid → userId = ValidId uid.
Proof.
  unfold WeightEntryController.owner. destruct userId as [o|s]; simpl; [|discriminate].
  by intros [= ->].
Qed.

Lemma userId_of_Some req_user userId :
  WeightEntryController.userId_of req_user = Some userId →
  ∃ a, req_user = Some a ∧ au_id a = userId.
Proof.
  unfold WeightEntryController.userId_of, AuthController.truthy_id.
  destruct req_user as [a|]; [|discriminate].
  destruct (au_id a) as [o|[|c s]] eqn:Ha; intros [= <-]; eauto.
Qed.

Lemma createWeightEntry_frame now later req_user body db :
  ∃ r db',
    WeightEntryController.createWeightEntry now later req_user body db = (inr r, db')
    ∧ status r ∈ [201; 401; 409; 500]%Z
    ∧ users db' = users db ∧ medications db' = medications db
    ∧ shipments db' = shipments db
    ∧ (store_ok db → store_ok db')
    ∧ ∀ v, (∀ a, req_user = Some a → au_id a ≠ ValidId v) →
           entries_of v db' = entries_of v db.
Proof.
  unfold WeightEntryController.createWeightEntry.
  destruct (WeightEntryController.userId_of req_user) as [userId|] eqn:Hu.
  2:{ eexists _, _. split; [reflexivity|]. split; [listed|]. done. }
  apply userId_of_Some in Hu as (a & -> & Ha).
  unfold fresh_id. run_async.
  destruct (WeightEntryController.owner userId) as [err|uid] eqn:Ho.
  { eexists _, _. split; [reflexivity|]. split; [listed|]. done. }
  apply owner_ValidId in Ho as ->. cbn beta iota zeta.
  destruct (WeightEntryController.cast_Date _) as [err|date].
  { eexists _, _. split; [reflexivity|]. split; [listed|]. done. }
  cbn beta iota zeta.
  destruct (List.find _ (weightEntries db)).
  { eexists _, _. split; [reflexivity|]. split; [listed|]. done. }
  destruct (WeightEntryController.validate_weight _) as [err|q].
  { eexists _, _. split; [reflexivity|]. split; [listed|].
    split_and!; try done. apply store_ok_fresh_id. }
  destruct (WeightEntryController.validate_recordedAt _) as [err|recordedAt].
  { eexists _, _. split; [reflexivity|]. split; [listed|].
    split_and!; try done. apply store_ok_fresh_id. }
  eexists _, _. split; [reflexivity|]. split; [listed|].
  split_and!; try done.
  - intros Hok. by apply (store_ok_add_weightEntry db).
  - intros v Hv. unfold entries_of. cbn [weightEntries set_weightEntries].
    rewrite filter_app, filter_cons_False, filter_nil, app_nil_r; [done|].
    simpl. intros ->. by apply (Hv a).
Qed.

Lemma owned_by_true i uid w :
  WeightEntryController.owned_by i uid w = true → w_id w = i ∧ w_userId w = uid.
Proof.
  unfold WeightEntryController.owned_by. intros [H1 H2]%andb_prop.
  by apply N.eqb_eq in H1, H2.
Qed.

Lemma assign_inr x w w' :
  WeightEntryController.assign x w = inr w' →
  w_id w' = w_id w ∧ w_userId w' = w_userId w.
Proof.
  unfold WeightEntryController.assign. run_async.
  destruct (match WeightEntryController.wb_recordedAt x with
            | Some v => WeightEntryController.validate_recordedAt (Js.new_Date v)
            | None => inr (w_recordedAt w)
            end); [discriminate|].
  by intros [= <-].
Qed.

Lemma save_modified_inr now w a w' :
  w_id a = w_id w → w_userId a = w_userId w →
  WeightEntryController.save_modified now w a = inr w' →
  w_id w' = w_id w ∧ w_userId w' = w_userId w.
Proof.
  intros Hi Hu. unfold WeightEntryController.save_modified. run_async.
  destruct (WeightEntryController.validate_weight _); [discriminate|].
  destruct (WeightEntryController.modified w a); by intros [= <-].
Qed.

Lemma readWeightEntries_frame now req_user q db :
  ∃ r,
    WeightEntryController.getWeightEntries now req_user q db = (inr r, db)
    ∧ status r ∈ [200; 401; 500]%Z.
Proof.
  unfold WeightEntryController.getWeightEntries.
  destruct (WeightEntryController.userId_of req_user) as [userId|];
    [|eexists; split; [reflexivity|listed]].
  run_async.
  destruct (WeightEntryController.owner userId);
    [eexists; split; [reflexivity|listed]|].
  cbn beta iota zeta.
  destruct (WeightEntryController.skip_limit _ _ _);
    eexists; (split; [reflexivity|listed]).
Qed.

Lemma getWeightEntry_frame now req_user params_id db :
  ∃ r,
    WeightEntryController.getWeightEntry now req_user params_id db = (inr r, db)
    ∧ status r ∈ [200; 400; 401; 404; 500]%Z.
Proof.
  unfold WeightEntryController.getWeightEntry.
  destruct (WeightEntryController.userId_of req_user) as [userId|];
    [|eexists; split; [reflexivity|listed]].
  destruct (negb (ObjectId_isValid params_id));
    [eexists; split; [reflexivity|listed]|].
  run_async.
  destruct (cast_ObjectId "_id" params_id);
    [eexists; split; [reflexivity|listed]|].
  cbn beta iota zeta.
  destruct (WeightEntryController.owner userId);
    [eexists; split; [reflexivity|listed]|].
  cbn beta iota zeta.
  destruct (List.find _ _); eexists; (split; [reflexivity|listed]).
Qed.

Lemma updateWeightEntry_frame now req_user params_id body db :
  ∃ r db',
    WeightEntryController.updateWeightEntry now req_user params_id body db
    = (inr r, db')
    ∧ status r ∈ [200; 400; 401; 404; 500]%Z
    ∧ users db' = users db ∧ medications db' = medications db
    ∧ shipments db' = shipments db
    ∧ (store_ok db → store_ok db')
    ∧ (NoDup (w_id <$> weightEntries db) →
       ∀ v, (∀ a, req_user = Some a → au_id a ≠ ValidId v) →
            entries_of v db' = entries_of v db).
Proof.
  unfold WeightEntryController.updateWeightEntry.
  destruct (WeightEntryController.userId_of req_user) as [userId|] eqn:Hu.
  2:{ eexists _, _. split; [reflexivity|]. split; [listed|]. done. }
  apply userId_of_Some in Hu as (a & -> & Ha).
  destruct (negb (ObjectId_isValid params_id)).
  { eexists _, _. split; [reflexivity|]. split; [listed|]. done. }
  run_async.
  destruct (cast_ObjectId "_id" params_id) as [err|i].
  { eexists _, _. split; [reflexivity|]. split; [listed|]. done. }
  cbn beta iota zeta.
  destruct (WeightEntryController.owner userId) as [err|uid] eqn:Ho.
  { eexists _, _. split; [reflexivity|]. split; [listed|]. done. }
  apply owner_ValidId in Ho as ->. cbn beta iota zeta.
  destruct (List.find _ (weightEntries db)) as [w|] eqn:Hfind.
  2:{ eexists _, _. split; [reflexivity|]. split; [listed|]. done. }
  apply find_elem_of in Hfind as [Hin [Hi Hw]%owned_by_true].
  destruct (WeightEntryController.assign body w) as [err|assigned] eqn:Hassign.
  { eexists _, _. split; [reflexivity|]. split; [listed|]. done. }
  apply assign_inr in Hassign as [Hid0 Huid0]. cbn beta iota zeta.
  destruct (WeightEntryController.save_modified _ _ _) as [err|w'] eqn:Hs.
  { eexists _, _. split; [reflexivity|]. split; [listed|]. done. }
  apply save_modified_inr in Hs as [Hid' Huid']; [|done|done].
  eexists _, _. split; [reflexivity|]. split; [listed|].
  split_and!; try done.
  - intros Hok. apply store_ok_update_weightEntry; [done|].
    intros x Hx. apply N.eqb_eq in Hx. congruence.
  - intros Hnd v Hv. unfold entries_of. cbn [weightEntries set_weightEntries].
    apply filter_update_first. intros x Hx Hp. apply N.eqb_eq in Hp.
    assert (x = w) as -> by (by apply (NoDup_fmap_elem_inj w_id (weightEntries db))).
    assert (uid ≠ v) by (intros ->; by apply (Hv a)).
    split; congruence.
Qed.

Lemma deleteWeightEntry_frame now req_user params_id db :
  ∃ r db',
    WeightEntryController.deleteWeightEntry now req_user params_id db = (inr r, db')
    ∧ status r ∈ [200; 400; 401; 404; 500]%Z
    ∧ users db' = users db ∧ medications db' = medications db
    ∧ shipments db' = shipments db
    ∧ (store_ok db → store_ok db')
    ∧ ∀ v, (∀ a, req_user = Some a → au_id a ≠ ValidId v) →
           entries_of v db' = entries_of v db.
Proof.
  unfold WeightEntryController.deleteWeightEntry.
  destruct (WeightEntryController.userId_of req_user) as [userId|] eqn:Hu.
  2:{ eexists _, _. split; [reflexivity|]. split; [listed|]. done. }
  apply userId_of_Some in Hu as (a & -> & Ha).
  destruct (negb (ObjectId_isValid params_id)).
  { eexists _, _. split; [reflexivity|]. split; [listed|]. done. }
  run_async.
  destruct (cast_ObjectId "_id" params_id) as [err|i].
  { eexists _, _. split; [reflexivity|]. split; [listed|]. done. }
  cbn beta iota zeta.
  destruct (WeightEntryController.owner userId) as [err|uid] eqn:Ho.
  { eexists _, _. split; [reflexivity|]. split; [listed|]. done. }
  apply owner_ValidId in Ho as ->. cbn beta iota zeta.
  destruct (List.find _ (weightEntries db)) as [w|] eqn:Hfind.
  2:{ eexists _, _. split; [reflexivity|]. split; [listed|]. done. }
  eexists _, _. split; [reflexivity|]. split; [listed|].
  split_and!; try done.
  - intros Hok. by apply store_ok_remove_weightEntry.
  - intros v Hv. unfold entries_of. cbn [weightEntries set_weightEntries].
    apply filter_remove_first. intros x Hx [_ Hp]%owned_by_true.
    intros Hxv. apply (Hv a eq_refl). congruence.
Qed.

(** ** Shipments *)

Lemma shipment_apply_update_inr now x ids s s' :
  ShipmentController.apply_update now x ids s = inr s' → s_id s' = s_id s.
Proof.
  unfold ShipmentController.apply_update.
  destruct ids as [[i|] uid]; cbn [fst snd];
    [destruct (N.eqb i (s_id s))|]; run_async; try discriminate;
    by intros [= <-].
Qed.

Lemma shipmentRoutes_frame now r db :
  ∃ resp db',
    Routes.shipmentRoutes now r db = (inr resp, db')
    ∧ status resp ∈ match r with
                    | Routes.GetShipments => [200; 500]
                    | _ => [200; 201; 400; 404]
                    end%Z
    ∧ users db' = users db ∧ medications db' = medications db
    ∧ weightEntries db' = weightEntries db
    ∧ (store_ok db → store_ok db').
Proof.
  destruct r as [|body|params_id body|params_id]; cbn [Routes.shipmentRoutes].
  - eexists _, _. split; [reflexivity|]. split; [listed|]. done.
  - destruct (createShipment_outcome now body db)
      as [(e & db' & -> & Hu & Hm & Hw & Hs & Hn)
         |(s & db' & -> & _ & Hnew & _ & Hu & Hm & Hw & Hs & Hn)];
      eexists _, _; (split; [reflexivity|]); (split; [cbn; listed|]);
      split_and!; try done; intros Hok;
      apply (store_ok_shipments db db' Hok Hu Hm Hw); try done; rewrite Hs.
    + by destruct Hok as (_ & _ & _ & _ & ? & _).
    + rewrite fmap_app. apply NoDup_app. split; [by destruct Hok as (_&_&_&_&?&_)|].
      split; [|apply NoDup_singleton].
      intros x Hx Hx'. by apply list_elem_of_singleton in Hx' as ->.
  - unfold ShipmentController.updateShipment. run_async.
    destruct (cast_ObjectId "_id" params_id) as [err|i].
    { eexists _, _. split; [reflexivity|]. split; [listed|]. done. }
    cbn beta iota zeta.
    destruct (ShipmentController.cast_update body) as [err|ids].
    { eexists _, _. split; [reflexivity|]. split; [listed|]. done. }
    cbn beta iota zeta.
    destruct (List.find _ (shipments db)) as [s|] eqn:Hfind.
    2:{ eexists _, _. split; [reflexivity|]. split; [listed|]. done. }
    apply find_elem_of in Hfind as [Hin Hi]. apply N.eqb_eq in Hi.
    destruct (ShipmentController.apply_update _ _ _ _) as [err|s'] eqn:Hs.
    { eexists _, _. split; [reflexivity|]. split; [listed|]. done. }
    apply shipment_apply_update_inr in Hs.
    eexists _, _. split; [reflexivity|]. split; [listed|].
    split_and!; try done. intros Hok.
    apply (store_ok_shipments db _ Hok); try done.
    cbn [shipments set_shipments].
    rewrite (fmap_update_first s_id).
    + by destruct Hok as (_ & _ & _ & _ & ? & _).
    + intros x Hx. apply N.eqb_eq in Hx. congruence.
  - unfold ShipmentController.deleteShipment. run_async.
    destruct (cast_ObjectId "_id" params_id) as [err|i].
    { eexists _, _. split; [reflexivity|]. split; [listed|]. done. }
    cbn beta iota zeta.
    destruct (List.find _ (shipments db)) as [s|] eqn:Hfind.
    2:{ eexists _, _. split; [reflexivity|]. split; [listed|]. done. }
    eexists _, _. split; [reflexivity|]. split; [listed|].
    split_and!; try done. intros Hok.
    apply (store_ok_shipments db _ Hok); try done.
    cbn [shipments set_shipments]. apply NoDup_fmap_remove_first.
    by destruct Hok as (_ & _ & _ & _ & ? & _).
Qed.

(** ** The routers *)

Lemma handleAuthError_status now err :
  status (AuthMiddleware.handleAuthError now err) = 401%Z
  ∨ status (AuthMiddleware.handleAuthError now err) = 500%Z.
Proof.
  unfold AuthMiddleware.handleAuthError.
  destruct (Jsonwebtoken.instanceof_JsonWebTokenError err); [by left|].
  destruct (Jsonwebtoken.instanceof_TokenExpiredError err); [by left|by right].
Qed.

Lemma middleware_Responded config now authorization db r :
  AuthMiddleware.authenticateToken config now authorization db = Responded r →
  status r = 401%Z ∨ status r = 500%Z.
Proof.
  unfold AuthMiddleware.authenticateToken.
  destruct (bearer_token authorization); [|intros [= <-]; by left].
  destruct (Jsonwebtoken.verify _ _ _) as [err|decoded].
  { cbn. intros [= <-]. apply handleAuthError_status. }
  unfold UserModel.findById. run_async. cbn.
  destruct (cast_ObjectId _ _) as [err|o].
  { cbn. intros [= <-]. apply handleAuthError_status. }
  cbn. destruct (List.find _ _); [discriminate|]. intros [= <-]. by left.
Qed.

Lemma stub_responds config now authorization :
  ∃ r, Auth.authenticateToken config now authorization = Responded r
     ∧ (status r = 401%Z ∨ status r = 500%Z).
Proof.
  unfold Auth.authenticateToken.
  destruct (bearer_token authorization); [|eauto].
  destruct (Jsonwebtoken.verify _ _ _) as [error|]; [|eauto].
  destruct (Jsonwebtoken.instanceof_TokenExpiredError error); [eauto|].
  destruct (Jsonwebtoken.instanceof_JsonWebTokenError error); eauto.
Qed.

Lemma weightEntryRoutes_frame config now authorization r db :
  ∃ resp db',
    Routes.weightEntryRoutes config now authorization r db = (inr resp, db')
    ∧ status resp ∈ [200; 201; 400; 401; 404; 409; 500]%Z
    ∧ users db' = users db ∧ medications db' = medications db
    ∧ shipments db' = shipments db
    ∧ (store_ok db → store_ok db')
    ∧ (NoDup (w_id <$> weightEntries db) →
       ∀ v, (∀ payload,
               authorization = Some (Bearer (Signed (Env.secret config) payload)) →
               userId payload ≠ ValidId v) →
            entries_of v db' = entries_of v db).
Proof.
  unfold Routes.weightEntryRoutes, Routes.protect.
  destruct (AuthMiddleware.authenticateToken config now authorization db)
    as [resp|u] eqn:Hmw.
  { apply middleware_Responded in Hmw.
    eexists _, _. split; [reflexivity|].
    split; [destruct Hmw as [-> | ->]; listed|]. done. }
  apply authenticateToken_Next_id in Hmw as (payload & i & -> & Hid & Hau).
  assert (Hother : ∀ v,
            (∀ payload0,
               Some (Bearer (Signed (Env.secret config) payload))
               = Some (Bearer (Signed (Env.secret config) payload0)) →
               userId payload0 ≠ ValidId v) →
            ∀ a, Some u = Some a → au_id a ≠ ValidId v).
  { intros v Hv a [= <-]. rewrite Hau, <- Hid. by apply Hv. }
  destruct r as [q|later body|params_id|params_id body|params_id].
  - destruct (readWeightEntries_frame now (Some u) q db) as (resp & -> & Hs).
    eexists _, _. split; [reflexivity|]. split; [in_list Hs; listed|]. done.
  - destruct (createWeightEntry_frame now later (Some u) body db)
      as (resp & db' & -> & Hs & ? & ? & ? & ? & Hiso).
    eexists _, _. split; [reflexivity|]. split; [in_list Hs; listed|].
    split_and!; try done. intros _ v Hv. apply Hiso. by apply Hother.
  - destruct (getWeightEntry_frame now (Some u) params_id db) as (resp & -> & Hs).
    eexists _, _. split; [reflexivity|]. split; [in_list Hs; listed|]. done.
  - destruct (updateWeightEntry_frame now (Some u) params_id body db)
      as (resp & db' & -> & Hs & ? & ? & ? & ? & Hiso).
    eexists _, _. split; [reflexivity|]. split; [in_list Hs; listed|].
    split_and!; try done. intros Hnd v Hv. apply Hiso; [done|]. by apply Hother.
  - destruct (deleteWeightEntry_frame now (Some u) params_id db)
      as (resp & db' & -> & Hs & ? & ? & ? & ? & Hiso).
    eexists _, _. split; [reflexivity|]. split; [in_list Hs; listed|].
    split_and!; try done. intros _ v Hv. apply Hiso. by apply Hother.
Qed.

(** ** The application *)

Lemma issue_fmap_status config now o message code :
  match (λ a, sendSuccess now a message code) <$> AuthController.issue config now o with
  | inr r => status r = code
  | inl _ => True
  end.
Proof. unfold fmap, Res_fmap. by destruct (AuthController.issue _ _ _). Qed.

Lemma register_frame config now salt body db :
  let out := AuthController.register config now salt body db in
  match fst out with
  | inr r => status r = 201%Z
  | inl _ => True
  end
  ∧ medications (snd out) = medications db
  ∧ weightEntries (snd out) = weightEntries db
  ∧ shipments (snd out) = shipments db
  ∧ (store_ok db → store_ok (snd out)).
Proof.
  intros out. subst out.
  destruct (register_outcome config now salt body db)
    as [(-> & err & ->)|[(-> & err & ->)|(e & p & n & d & ro & u & He & Hp & Hn & Hd
                                         & Hr & _ & _ & Hu & Hfind & -> & ->)]].
  - done.
  - split_and!; try done. apply store_ok_fresh_id.
  - split; [apply issue_fmap_status|]. split_and!; try done.
    intros Hok. apply store_ok_insert_user; [done|by subst u|].
    subst u. cbn [u_email]. apply existsb_email_false.
    by apply find_none_existsb.
Qed.

Lemma login_frame config now body db :
  snd (AuthController.login config now body db) = db
  ∧ match fst (AuthController.login config now body db) with
    | inr r => status r = 200%Z
    | inl _ => True
    end.
Proof.
  unfold AuthController.login, UserModel.findOne_email. run_async.
  destruct (match AuthController.lb_email body with
            | Some s => List.find _ (users db)
            | None => None
            end); [|done].
  destruct (comparePassword _ _) as [err|[|]]; try done.
  cbn beta iota zeta. by destruct (AuthController.issue _ _ _).
Qed.

Lemma getProfile_frame now req_user db :
  snd (AuthController.getProfile now req_user db) = db
  ∧ match fst (AuthController.getProfile now req_user db) with
    | inr r => status r = 200%Z
    | inl _ => True
    end.
Proof.
  unfold AuthController.getProfile, UserModel.findById.
  destruct (AuthController.truthy_id req_user); [|done]. run_async.
  destruct (cast_ObjectId _ _); [done|]. cbn beta iota zeta.
  by destruct (List.find _ _).
Qed.

Lemma medicationRoutes_responds config now authorization errors_isEmpty r db :
  ∃ resp,
    Routes.medicationRoutes config now authorization errors_isEmpty r db
    = (inr resp, db)
    ∧ (status resp = 401%Z ∨ status resp = 500%Z).
Proof.
  unfold Routes.medicationRoutes, Routes.protect.
  destruct (stub_responds config now authorization) as (resp & -> & Hs). eauto.
Qed.

Lemma GetMe_frame config now authorization db :
  let out := Routes.authRoutes config now (Routes.GetMe authorization) db in
  snd out = db
  ∧ match fst out with
    | inr r => status r ∈ [200; 401; 500]%Z
    | inl _ => True
    end.
Proof.
  cbn [Routes.authRoutes]. unfold Routes.protect.
  destruct (AuthMiddleware.authenticateToken config now authorization db)
    as [resp|u] eqn:Hmw.
  - apply middleware_Responded in Hmw. split; [done|].
    cbn. destruct Hmw as [-> | ->]; listed.
  - destruct (getProfile_frame now (Some u) db) as [Hdb Hs]. split; [done|].
    destruct (fst (AuthController.getProfile now (Some u) db)); [done|].
    rewrite Hs. listed.
Qed.

(** X7: the status codes that the application can answer with, route
    by route.  The error handler of app.ts answers 500 to everything that
    is thrown, so register answers 201 or 500, login and refresh 200 or
    500: the 400, 401, 404 and 409 of the [ApiError]s never reach the
    client.  The medication routes answer 401 or 500 only, since the
    middleware they are mounted behind never calls [next()].  The shipment
    routes never answer 401; the list of shipments answers 200, or 500 from
    its own catch, and the other three 200, 201, 400 or 404.  A request
    whose body the parser refuses is answered 500. *)
Theorem app_status_codes
    (isDevelopment : bool) (stack : JsError → string) (config : Env.JwtConfig)
    (now : Z) (req : App.Request) (db : Db) :
  status (fst (App.app isDevelopment stack config now req db))
  ∈ match req with
    | App.AuthRoute (Routes.PostRegister _ _) => [201; 500]
    | App.AuthRoute (Routes.PostLogin _) => [200; 500]
    | App.AuthRoute (Routes.PostRefresh _) => [200; 500]
    | App.AuthRoute Routes.PostLogout => [200]
    | App.AuthRoute (Routes.GetMe _) => [200; 401; 500]
    | App.WeightEntryRoute _ _ => [200; 201; 400; 401; 404; 409; 500]
    | App.MedicationRoute _ _ _ => [401; 500]
    | App.ShipmentRoute Routes.GetShipments => [200; 500]
    | App.ShipmentRoute _ => [200; 201; 400; 404]
    | App.Refused _ => [500]
    | App.Unrouted => [404]
    end%Z.
Proof.
  unfold App.app.
  destruct req as [[salt body|body|token| |authorization]|authorization r
                  |authorization errors_isEmpty r|r|message|]; cbn [App.route].
  - cbn [Routes.authRoutes].
    destruct (register_frame config now salt body db) as [Hs _].
    destruct (AuthController.register config now salt body db) as [[err|resp] db'];
      cbn in *; [listed|rewrite Hs; listed].
  - cbn [Routes.authRoutes].
    destruct (login_frame config now body db) as [_ Hs].
    destruct (AuthController.login config now body db) as [[err|resp] db'];
      cbn in *; [listed|rewrite Hs; listed].
  - cbn [Routes.authRoutes].
    destruct (refreshToken_frame config now token db) as [_ Hs].
    destruct (AuthController.refreshToken config now token db) as [[err|resp] db'];
      cbn in *; [listed|rewrite Hs; listed].
  - cbn. listed.
  - destruct (GetMe_frame config now authorization db) as [_ Hs].
    destruct (Routes.authRoutes config now (Routes.GetMe authorization) db)
      as [[err|resp] db']; cbn in *; [listed|done].
  - destruct (weightEntryRoutes_frame config now authorization r db)
      as (resp & db' & -> & Hs & _). done.
  - destruct (medicationRoutes_responds config now authorization errors_isEmpty r db)
      as (resp & -> & [Hs|Hs]); cbn; rewrite Hs; listed.
  - destruct (shipmentRoutes_frame now r db) as (resp & db' & -> & Hs & _).
    by destruct r.
  - cbn. listed.
  - cbn. listed.
Qed.

(** X13: every request keeps the store invariant: ids stay unique
    within each collection, shipments included, whose [_id] a client may
    choose; the ids of users and weight entries, which only the id
    generator makes, stay below the supply of fresh ids; and emails stay
    unique among users. *)
Theorem app_preserves_store_ok
    (isDevelopment : bool) (stack : JsError → string) (config : Env.JwtConfig)
    (now : Z) (req : App.Request) (db : Db) :
  store_ok db →
  store_ok (snd (App.app isDevelopment stack config now req db)).
Proof.
  intros Hok.
  assert (Happ : snd (App.app isDevelopment stack config now req db)
                 = snd (App.route config now req db)).
  { unfold App.app. by destruct (App.route config now req db) as [[err|resp] db']. }
  rewrite Happ. clear Happ.
  destruct req as [[salt body|body|token| |authorization]|authorization r
                  |authorization errors_isEmpty r|r|message|]; cbn [App.route].
  - cbn [Routes.authRoutes].
    by apply (register_frame config now salt body db).
  - cbn [Routes.authRoutes]. by rewrite (proj1 (login_frame config now body db)).
  - cbn [Routes.authRoutes].
    by rewrite (proj1 (refreshToken_frame config now token db)).
  - done.
  - by rewrite (proj1 (GetMe_frame config now authorization db)).
  - destruct (weightEntryRoutes_frame config now authorization r db)
      as (resp & db' & -> & _ & _ & _ & _ & H & _). by apply H.
  - by destruct (medicationRoutes_responds config now authorization errors_isEmpty
                   r db) as (resp & -> & _).
  - destruct (shipmentRoutes_frame now r db)
      as (resp & db' & -> & _ & _ & _ & _ & H). by apply H.
  - done.
  - done.
Qed.

Lemma app_preserves_store_ok_witness :
  let chosen :=
    ShipmentController.mkBody (Some (ValidId 500%N)) (Some (ValidId 2%N))
      (Some [ShipmentController.mkItemBody (Some "Semaglutide") (Some 4%Q) None])
      None None None None in
  let db' :=
    snd (App.app false (λ _, "") Sample.config Sample.t0
           (App.ShipmentRoute (Routes.PostShipment chosen)) Sample.db) in
  store_ok db' ∧ (s_id <$> shipments db') = [30%N; 500%N] ∧ nextId db' = 100%N.
Proof.
  intros chosen db'. split; [|split; reflexivity].
  apply (app_preserves_store_ok false (λ _, "") Sample.config Sample.t0
           (App.ShipmentRoute (Routes.PostShipment chosen)) Sample.db).
  unfold store_ok. split_and!; try (apply (bool_decide_unpack _); by vm_compute).
Defined.

Lemma app_snd isDevelopment stack config now req db :
  snd (App.app isDevelopment stack config now req db)
  = snd (App.route config now req db).
Proof.
  unfold App.app. by destruct (App.route config now req db) as [[err|resp] db'].
Qed.

Lemma route_keeps_weightEntries config now req db :
  match req with
  | App.WeightEntryRoute _ _ => True
  | _ => weightEntries (snd (App.route config now req db)) = weightEntries db
  end.
Proof.
  destruct req as [[salt body|body|token| |authorization]|authorization r
                  |authorization errors_isEmpty r|r|message|]; cbn [App.route]; try done.
  - cbn [Routes.authRoutes].
    by destruct (register_frame config now salt body db) as (_ & _ & ? & _).
  - cbn [Routes.authRoutes]. by rewrite (proj1 (login_frame config now body db)).
  - cbn [Routes.authRoutes].
    by rewrite (proj1 (refreshToken_frame config now token db)).
  - by rewrite (proj1 (GetMe_frame config now authorization db)).
  - by destruct (medicationRoutes_responds config now authorization errors_isEmpty
                   r db) as (resp & -> & _).
  - by destruct (shipmentRoutes_frame now r db)
      as (resp & db' & -> & _ & ? & ? & ? & _).
Qed.

(** X14: what a request can write.  No request changes the medications;
    only a registration changes the users, by appending one; the
    weight-entry routes change nothing but weight entries, the shipment
    routes nothing but shipments; every other request, those to the
    medication routes included, leaves the whole store as it was. *)
Theorem app_write_footprint
    (isDevelopment : bool) (stack : JsError → string) (config : Env.JwtConfig)
    (now : Z) (req : App.Request) (db : Db) :
  let db' := snd (App.app isDevelopment stack config now req db) in
  medications db' = medications db
  ∧ match req with
    | App.AuthRoute (Routes.PostRegister _ _) =>
        (users db' = users db ∨ ∃ u, users db' = users db ++ [u])
        ∧ weightEntries db' = weightEntries db ∧ shipments db' = shipments db
    | App.WeightEntryRoute _ _ =>
        users db' = users db ∧ shipments db' = shipments db
    | App.ShipmentRoute _ =>
        users db' = users db ∧ weightEntries db' = weightEntries db
    | _ => db' = db
    end.
Proof.
  intros db'. subst db'. rewrite app_snd.
  destruct req as [[salt body|body|token| |authorization]|authorization r
                  |authorization errors_isEmpty r|r|message|]; cbn [App.route].
  - cbn [Routes.authRoutes].
    destruct (register_frame config now salt body db) as (_ & Hm & Hw & Hs & _).
    split; [done|]. split; [|done].
    destruct (register_outcome config now salt body db)
      as [(-> & _)|[(-> & _)|(e & p & n & d & ro & u & _ & _ & _ & _ & _ & _ & _ & _
                               & _ & -> & _)]]; [by left|by left|right; by exists u].
  - cbn [Routes.authRoutes]. by rewrite (proj1 (login_frame config now body db)).
  - cbn [Routes.authRoutes].
    by rewrite (proj1 (refreshToken_frame config now token db)).
  - done.
  - by rewrite (proj1 (GetMe_frame config now authorization db)).
  - by destruct (weightEntryRoutes_frame config now authorization r db)
      as (resp & db' & -> & _ & ? & ? & ? & _).
  - by destruct (medicationRoutes_responds config now authorization errors_isEmpty
                   r db) as (resp & -> & _).
  - by destruct (shipmentRoutes_frame now r db)
      as (resp & db' & -> & _ & ? & ? & ? & _).
  - done.
  - done.
Qed.

(** X15: the weight entries of a user are changed only by requests
    that carry a token for that user.  In a store with unique ids, any
    request other than a weight-entry request whose bearer token names
    user [v] leaves the entries of [v] exactly as they were. *)
Theorem app_weight_entries_isolated
    (isDevelopment : bool) (stack : JsError → string) (config : Env.JwtConfig)
    (now : Z) (req : App.Request) (db : Db) (v : ObjectId) :
  store_ok db →
  match req with
  | App.WeightEntryRoute (Some (Bearer (Signed _ payload))) _ =>
      userId payload ≠ ValidId v
  | _ => True
  end →
  entries_of v (snd (App.app isDevelopment stack config now req db))
  = entries_of v db.
Proof.
  intros Hok Hreq. rewrite app_snd. unfold entries_of.
  pose proof (route_keeps_weightEntries config now req db) as H.
  destruct req as [r|authorization r|authorization errors_isEmpty r|r|message|];
    try (by rewrite H).
  destruct (weightEntryRoutes_frame config now authorization r db)
    as (resp & db' & Hr & _ & _ & _ & _ & _ & Hiso).
  cbn [App.route]. rewrite Hr. cbn [snd]. apply Hiso; [apply Hok|].
  intros payload ->. exact Hreq.
Qed.

Lemma app_weight_entries_isolated_witness :
  entries_of 1%N
    (snd (App.app false (λ _, "") Sample.config Sample.t0
            (App.WeightEntryRoute
               (Some (Bearer (Signed "0123456789abcdef0123456789abcdef"
                                {| userId := ValidId 2%N;
                                   email := "patient@example.com";
                                   role := None; iat := Some 1700000000%Z;
                                   exp := Some 1700003600%Z;
                                   iss := None; aud := None |})))
               (Routes.DeleteWeightEntry (ValidId 20%N)))
            Sample.db))
  = entries_of 1%N Sample.db.
Proof.
  apply app_weight_entries_isolated.
  - unfold store_ok. split_and!; apply (bool_decide_unpack _); by vm_compute.
  - discriminate.
Defined.

(** ** A weight entry from creation to deletion *)

(** X16: a created weight entry can be read back and deleted by its
    creator.  When a create answers 201, one entry has been appended; it
    carries the fresh id, the caller's id and the weight of the request;
    its recorded instant is the one that the [recordedAt] of the request
    denotes when that value is truthy, and otherwise (an absent field, [0],
    [''], [null], [false]) the second clock reading of the handler.  The
    caller's read of that id answers 200 with the entry, the caller's
    delete answers 200 and restores the list of entries as it was before
    the create, and a read after the delete answers 404. *)
Theorem created_entry_round_trip
    (now later : Z) (a : AuthUser) (body : WeightEntryController.Body)
    (db : Db) (r : Response) (db' : Db) :
  store_ok db →
  WeightEntryController.createWeightEntry now later (Some a) body db = (inr r, db') →
  status r = 201%Z →
  ∃ w,
    weightEntries db' = weightEntries db ++ [w]
    ∧ au_id a = ValidId (w_userId w)
    ∧ w_id w = nextId db
    ∧ (Js.truthy (WeightEntryController.wb_recordedAt body) = true →
       ∃ v, WeightEntryController.wb_recordedAt body = Some v
          ∧ Js.new_Date v = Some (w_recordedAt w))
    ∧ (Js.truthy (WeightEntryController.wb_recordedAt body) = false →
       w_recordedAt w = later)
    ∧ Some (w_weight w) = WeightEntryController.wb_weight body
    ∧ (∀ then_,
         WeightEntryController.getWeightEntry then_ (Some a) (ValidId (w_id w)) db'
         = (inr {| status := 200;
                   body := WeightEntryController.envelope then_ true
                             "Weight entry retrieved successfully"
                             (Some (json_of_WeightEntry w)) |}, db'))
    ∧ (∀ then_,
         ∃ db'',
           WeightEntryController.deleteWeightEntry then_ (Some a) (ValidId (w_id w)) db'
           = (inr {| status := 200;
                     body := WeightEntryController.envelope then_ true
                               "Weight entry deleted successfully" (Some JNull) |},
              db'')
           ∧ weightEntries db'' = weightEntries db
           ∧ ∀ then',
               WeightEntryController.getWeightEntry then' (Some a)
                 (ValidId (w_id w)) db''
               = (inr (WeightEntryController.not_found then'), db'')).
Proof.
  intros Hok. unfold WeightEntryController.createWeightEntry.
  destruct (WeightEntryController.userId_of (Some a)) as [userId|] eqn:Hu.
  2:{ intros [= <- <-]. discriminate. }
  unfold fresh_id. run_async.
  destruct (WeightEntryController.owner userId) as [err|uid] eqn:Ho.
  { intros [= <- <-]. discriminate. }
  cbn beta iota zeta.
  destruct (WeightEntryController.cast_Date _) as [err|date] eqn:Hdate.
  { intros [= <- <-]. discriminate. }
  cbn beta iota zeta.
  destruct (List.find _ (weightEntries db)) eqn:Hdup.
  { intros [= <- <-]. discriminate. }
  destruct (WeightEntryController.validate_weight _) as [err|q] eqn:Hq.
  { intros [= <- <-]. discriminate. }
  destruct (WeightEntryController.validate_recordedAt _) as [err|t] eqn:Ht.
  { intros [= <- <-]. discriminate. }
  intros [= <- <-] _.
  pose proof (owner_ValidId _ _ Ho) as ->.
  pose proof (userId_of_Some _ _ Hu) as (a' & [= <-] & Ha).
  eexists. split; [reflexivity|]. split; [exact Ha|]. split; [reflexivity|].
  unfold WeightEntryController.validate_recordedAt,
    WeightEntryController.date_or in Ht.
  split.
  { intros Htruthy. rewrite Htruthy in Ht. cbn [w_recordedAt].
    destruct (WeightEntryController.wb_recordedAt body) as [v|]; [|discriminate].
    exists v. split; [reflexivity|]. cbn in Ht.
    destruct (Js.new_Date v); [|discriminate]. by injection Ht as ->. }
  split.
  { intros Hfalsy. rewrite Hfalsy in Ht. cbn [w_recordedAt]. by injection Ht. }
  split.
  { cbn [w_weight]. unfold WeightEntryController.validate_weight in Hq.
    destruct (WeightEntryController.wb_weight body) as [q'|]; [|discriminate].
    destruct (Qle_bool 0 q'); [|discriminate]. by injection Hq as ->. }
  destruct Hok as (_ & _ & _ & Hnd & _ & Hall).
  unfold generated_ids in Hall. rewrite !Forall_app in Hall.
  destruct Hall as (_ & Hlt).
  assert (Hnone : List.find (WeightEntryController.owned_by (nextId db) uid)
                    (weightEntries db) = None).
  { apply find_foreign. intros x Hx. unfold WeightEntryController.owned_by.
    destruct (N.eqb_spec (w_id x) (nextId db)) as [Heq|]; [|done].
    rewrite Forall_forall in Hlt.
    specialize (Hlt (w_id x) (list_elem_of_fmap_2 w_id _ _ Hx)). simpl in Hlt. lia. }
  set (w := {| w_id := nextId db; w_userId := uid; w_weight := q;
               w_recordedAt := t;
               w_notes := WeightEntryController.wb_notes body;
               w_createdAt := later; w_updatedAt := later |}).
  assert (Hnew : List.find (WeightEntryController.owned_by (nextId db) uid)
                   (weightEntries db ++ [w]) = Some w).
  { apply find_app_new; [exact Hnone|].
    unfold WeightEntryController.owned_by. cbn. by rewrite !N.eqb_refl. }
  split.
  - intros then_. unfold WeightEntryController.getWeightEntry.
    rewrite Hu. cbn [ObjectId_isValid negb w_id]. run_async. cbn [cast_ObjectId].
    run_async. rewrite Ho. cbn beta iota zeta.
    cbn [weightEntries set_weightEntries]. change (w_id w) with (nextId db).
    by rewrite Hnew.
  - intros then_. eexists. split.
    { unfold WeightEntryController.deleteWeightEntry.
      rewrite Hu. cbn [ObjectId_isValid negb w_id]. run_async. cbn [cast_ObjectId].
      run_async. rewrite Ho. cbn beta iota zeta.
      cbn [weightEntries set_weightEntries]. change (w_id w) with (nextId db).
      rewrite Hnew. reflexivity. }
    assert (Hrem : remove_first (WeightEntryController.owned_by (nextId db) uid)
                     (weightEntries db ++ [w]) = weightEntries db).
    { clear Hnew Hdup Hnd Hlt. induction (weightEntries db) as [|x l IH].
      - cbn. unfold WeightEntryController.owned_by. cbn. by rewrite !N.eqb_refl.
      - cbn [List.find] in Hnone. rewrite <- app_comm_cons. cbn [remove_first].
        destruct (WeightEntryController.owned_by (nextId db) uid x); [discriminate|].
        by rewrite IH. }
    split; [cbn [weightEntries set_weightEntries]; exact Hrem|].
    intros then'. unfold WeightEntryController.getWeightEntry.
    rewrite Hu. cbn [ObjectId_isValid negb w_id]. run_async. cbn [cast_ObjectId].
    run_async. rewrite Ho. cbn beta iota zeta.
    cbn [weightEntries set_weightEntries]. change (w_id w) with (nextId db).
    by rewrite Hrem, Hnone.
Qed.

Lemma created_entry_round_trip_witness :
  ∃ w, w_id w = 100%N
     ∧ au_id (Sample.caller Sample.bob) = ValidId (w_userId w)
     ∧ w_recordedAt w = (Sample.t0 + 1)%Z
     ∧ Some (w_weight w) = Some 180%Q.
Proof.
  destruct (created_entry_round_trip Sample.t0 (Sample.t0 + 1)
              (Sample.caller Sample.bob)
              (WeightEntryController.mkBody (Some 180%Q) (Some (Js.DateNumber 0)) None)
              Sample.db _ _
              ltac:(unfold store_ok; split_and!;
                    apply (bool_decide_unpack _); by vm_compute)
              eq_refl eq_refl)
    as (w & _ & Ha & Hid & _ & Ht & Hw & _).
  exists w. split; [exact Hid|]. split; [exact Ha|].
  split; [exact (Ht eq_refl)|exact Hw].
Defined.

(** ** The order of a listing *)

Lemma ascii_compare_trans_lt a b c :
  Ascii.compare a b = Lt → Ascii.compare b c = Lt → Ascii.compare a c = Lt.
Proof.
  unfold Ascii.compare. rewrite !N.compare_lt_iff. lia.
Qed.

Lemma ascii_compare_eq a b : Ascii.compare a b = Eq → a = b.
Proof.
  unfold Ascii.compare. rewrite N.compare_eq_iff. intros H.
  by rewrite <- (ascii_N_embedding a), <- (ascii_N_embedding b), H.
Qed.

Lemma string_leb_trans s1 s2 s3 :
  String.leb s1 s2 = true → String.leb s2 s3 = true → String.leb s1 s3 = true.
Proof.
  unfold String.leb. revert s2 s3.
  induction s1 as [|a s1 IH]; intros [|b s2] [|c s3]; cbn; try done.
  destruct (Ascii.compare a b) eqn:Hab; try done;
    destruct (Ascii.compare b c) eqn:Hbc; try done.
  - apply ascii_compare_eq in Hab as ->. apply ascii_compare_eq in Hbc as ->.
    rewrite (proj2 (N.compare_eq_iff _ _) eq_refl : Ascii.compare c c = Eq).
    apply IH.
  - apply ascii_compare_eq in Hab as ->. by rewrite Hbc.
  - apply ascii_compare_eq in Hbc as <-. by rewrite Hab.
  - by rewrite (ascii_compare_trans_lt a b c Hab Hbc).
Qed.

Lemma key_leb_total a b : key_leb a b = true ∨ key_leb b a = true.
Proof.
  destruct a as [|x|s], b as [|y|t]; cbn; auto.
  - rewrite !Qle_bool_iff. destruct (Qlt_le_dec x y); [left|right]; [|done].
    by apply Qlt_le_weak.
  - apply String.leb_total.
Qed.

Lemma key_leb_trans a b c :
  key_leb a b = true → key_leb b c = true → key_leb a c = true.
Proof.
  destruct a as [|x|s], b as [|y|t], c as [|z|u]; cbn; try done.
  - rewrite !Qle_bool_iff. apply Qle_trans.
  - apply string_leb_trans.
Qed.

Lemma StronglySorted_weaken {A} (R R' : A → A → Prop) l :
  (∀ a b, R a b → R' a b) → StronglySorted R l → StronglySorted R' l.
Proof.
  intros HR. induction 1 as [|x l Hl IH Hx]; constructor; [done|].
  eapply Forall_impl; [exact Hx|]. intros y. apply HR.
Qed.

(** X17: a listing is ordered by the requested key in the requested
    direction, whatever the key: each entry is followed only by entries
    that are not before it.  With the defaults, later recorded instants
    come first. *)
Theorem listing_is_ordered
    (path : string) (descending : bool) (l : list WeightEntryDoc) :
  StronglySorted
    (λ a b, if descending then WeightEntryController.key_le path b a
            else WeightEntryController.key_le path a b)
    (WeightEntryController.sorted path descending l)
  ∧ StronglySorted (λ a b, (w_recordedAt b ≤ w_recordedAt a)%Z)
      (WeightEntryController.sorted "recordedAt" true l).
Proof.
  assert (Hasc : ∀ path, StronglySorted (WeightEntryController.key_le path)
                   (merge_sort (WeightEntryController.key_le path) l)).
  { intros p. apply StronglySorted_merge_sort.
    - intros a b c. apply key_leb_trans.
    - intros a b. apply key_leb_total. }
  assert (Hdesc : ∀ path, StronglySorted (flip (WeightEntryController.key_le path))
                    (merge_sort (flip (WeightEntryController.key_le path)) l)).
  { intros p. apply StronglySorted_merge_sort.
    - intros a b c Hab Hbc. exact (key_leb_trans _ _ _ Hbc Hab).
    - intros a b. apply key_leb_total. }
  split.
  - unfold WeightEntryController.sorted. destruct descending; [apply Hdesc|apply Hasc].
  - unfold WeightEntryController.sorted.
    eapply StronglySorted_weaken; [|exact (Hdesc "recordedAt")].
    intros a b. unfold flip, WeightEntryController.key_le,
      WeightEntryController.sort_key. cbn.
    rewrite Qle_bool_iff, <- Zle_Qle. done.
Qed.

(** ** Pagination metadata *)

Lemma ceil_quotient_nat (total limit : nat) :
  1 ≤ limit →
  ApiResponse.ceil_quotient (Z.of_nat total) (Z.of_nat limit)
  = ApiResponse.Finite (Z.of_nat (ceil_div total limit)).
Proof.
  intros Hl. unfold ApiResponse.ceil_quotient, ceil_div.
  destruct (Z.eqb_spec (Z.of_nat limit) 0) as [H0|_]; [lia|]. f_equal.
  rewrite Nat2Z.inj_div.
  replace (Z.of_nat (total + limit - 1)) with (Z.of_nat total + Z.of_nat limit - 1)%Z
    by lia.
  set (t := Z.of_nat total). set (n := Z.of_nat limit).
  assert (Hn : (0 < n)%Z) by lia.
  pose proof (Z.div_mod (- t) n ltac:(lia)).
  pose proof (Z.mod_pos_bound (- t) n Hn).
  apply Z.div_unique with (r := ((t + n - 1) - n * - (- t / n))%Z); [|lia].
  left. nia.
Qed.

Lemma page_of_nonempty {A} (l : list A) (limit p : nat) :
  1 ≤ limit → (page_of limit p l ≠ [] ↔ (p - 1) * limit < length l).
Proof.
  intros Hl. unfold page_of. split.
  - intros H. destruct (Nat.lt_ge_cases ((p - 1) * limit) (length l)); [done|].
    destruct H. by rewrite drop_ge, take_nil.
  - intros H Hnil. apply (f_equal length) in Hnil.
    rewrite length_take, length_drop in Hnil. simpl in Hnil. lia.
Qed.

Lemma lt_ceil_div (total limit p : nat) :
  1 ≤ limit → (p < ceil_div total limit ↔ p * limit < total).
Proof.
  intros Hl. unfold ceil_div.
  pose proof (Nat.div_mod_eq (total + limit - 1) limit).
  pose proof (Nat.mod_upper_bound (total + limit - 1) limit ltac:(lia)).
  split; intros; nia.
Qed.

(** X18: [calculatePagination] describes the pages of a list.  For a
    limit and a page number of at least 1, [totalPages] is the number of
    pages that hold the items, page [page] has an item exactly when it is
    at most [totalPages], [hasNext] holds exactly when the next page has
    an item, and [hasPrev] exactly when the page is not the first. *)
Theorem calculatePagination_describes_pages
    {A} (l : list A) (limit page : nat) :
  1 ≤ limit → 1 ≤ page →
  let meta :=
    ApiResponse.calculatePagination (Z.of_nat page) (Z.of_nat limit)
      (Z.of_nat (length l)) in
  ApiResponse.totalPages meta = ApiResponse.Finite (Z.of_nat (ceil_div (length l) limit))
  ∧ (page_of limit page l ≠ [] ↔ page ≤ ceil_div (length l) limit)
  ∧ (ApiResponse.hasNext meta = true ↔ page_of limit (page + 1) l ≠ [])
  ∧ (ApiResponse.hasPrev meta = true ↔ 1 < page).
Proof.
  intros Hl Hp meta. subst meta. unfold ApiResponse.calculatePagination.
  cbn [ApiResponse.totalPages ApiResponse.hasNext ApiResponse.hasPrev].
  rewrite (ceil_quotient_nat _ _ Hl). split; [done|]. split; [|split].
  - rewrite (page_of_nonempty l limit page Hl).
    pose proof (lt_ceil_div (length l) limit (page - 1) Hl). lia.
  - rewrite (page_of_nonempty l limit (page + 1) Hl).
    cbn [ApiResponse.less_than]. rewrite Z.ltb_lt.
    replace (page + 1 - 1) with page by lia.
    pose proof (lt_ceil_div (length l) limit page Hl). lia.
  - rewrite Z.ltb_lt. lia.
Qed.

Lemma calculatePagination_describes_pages_witness :
  let l := weightEntries Sample.db in
  let meta := ApiResponse.calculatePagination 2 3 4 in
  ApiResponse.totalPages meta = ApiResponse.Finite 2
  ∧ (page_of 3 2 l ≠ [] ↔ 2 ≤ 2)
  ∧ (ApiResponse.hasNext meta = true ↔ page_of 3 3 l ≠ [])
  ∧ (ApiResponse.hasPrev meta = true ↔ 1 < 2).
Proof.
  apply (calculatePagination_describes_pages (weightEntries Sample.db) 3 2); lia.
Defined.

(** ** The database connection *)

(** X19: the retry schedule of [connectDB].  From the initial state
    a call and the timers it leads to make at most five connection
    attempts.  If the first success is the attempt after [k < 5]
    failures, the timers were set for 5, 10, 20 and 40 seconds, as many as
    there were failures; the last call resolves and the attempt counter
    is back at 0.  If the first five attempts fail, four timers were set
    and the fifth call rejects, with the counter at 5. *)
Theorem connectDB_retry_schedule (connects : list bool) :
  5 ≤ length connects →
  (∃ k, k < 5
      ∧ take k connects = replicate k false
      ∧ connects !! k = Some true
      ∧ Database.retries true connects Database.initial
        = (take k [5000; 10000; 20000; 40000]%Z,
           Some (Database.Resolved None),
           {| Database.isConnecting := false; Database.connectionAttempts := 0;
              Database.readyState := 1 |}))
  ∨ (take 5 connects = replicate 5 false
     ∧ Database.retries true connects Database.initial
       = ([5000; 10000; 20000; 40000]%Z,
          Some Database.Rejected,
          {| Database.isConnecting := false; Database.connectionAttempts := 5;
             Database.readyState := 0 |})).
Proof.
  intros Hlen.
  destruct connects as [|c0 [|c1 [|c2 [|c3 [|c4 rest]]]]]; simpl in Hlen; try lia.
  destruct c0; [left; exists 0; split; [lia|done]|].
  destruct c1; [left; exists 1; split; [lia|done]|].
  destruct c2; [left; exists 2; split; [lia|done]|].
  destruct c3; [left; exists 3; split; [lia|done]|].
  destruct c4; [left; exists 4; split; [lia|done]|].
  right. done.
Qed.

Lemma connectDB_retry_schedule_witness :
  Database.retries true [false; false; true; false; false] Database.initial
  = ([5000; 10000]%Z, Some (Database.Resolved None),
     {| Database.isConnecting := false; Database.connectionAttempts := 0;
        Database.readyState := 1 |}).
Proof.
  destruct (connectDB_retry_schedule [false; false; true; false; false]
              (le_n 5)) as [(k & Hk & Htake & Hlook & H)|[Htake _]].
  - destruct k as [|[|[|k]]]; try discriminate Hlook; try discriminate Htake.
    exact H.
  - discriminate Htake.
Defined.

(** X20: [startServer] exits only when [connectDB] rejects, which
    takes a failed connection attempt after at least four recorded
    failures; in a fresh process it always goes on to [listen], whether
    the database could be reached or not. *)
Theorem startServer_exits_only_after_retries
    (connects : bool) (st : Database.State) :
  (fst (Server.startServer connects st) = Server.Exit1
   ↔ Database.isConnecting st = false ∧ Database.readyState st ≠ 1%Z
     ∧ connects = false ∧ 4 ≤ Database.connectionAttempts st)
  ∧ fst (Server.startServer connects Database.initial) = Server.Listening.
Proof.
  split; [|by destruct connects].
  unfold Server.startServer, Database.connectDB.
  destruct (Database.isConnecting st); [cbn; split; [done|by intros [? _]]|].
  destruct (Z.eqb_spec (Database.readyState st) 1);
    [cbn; split; [done|by intros (_ & ? & _)]|].
  destruct connects; [cbn; split; [done|by intros (_ & _ & ? & _)]|].
  cbv zeta. unfold Database.MAX_RETRY_ATTEMPTS.
  destruct (Nat.ltb_spec (S (Database.connectionAttempts st)) 5); cbn.
  - split; [done|]. intros (_ & _ & _ & ?). lia.
  - split; [|done]. intros _. split_and!; try done. lia.
Qed.

(** ** Rejected logins *)

(** X12: a login that the handler refuses, because no user has the
    email or because the password does not match the stored digest, is
    answered by the application with status 500; outside development the
    body is the same fixed text in both cases, and the store is
    unchanged. *)
Theorem app_answers_rejected_login_with_500
    (isDevelopment : bool) (stack : JsError → string) (config : Env.JwtConfig)
    (now : Z) (e p : string) (db : Db) :
  (∀ u,
     List.find (λ v, String.eqb (u_email v) (UserModel.normalize_email e)) (users db)
       = Some u →
     comparePassword (Some p) (u_passwordHash u) = inr false) →
  App.app isDevelopment stack config now
    (App.AuthRoute
       (Routes.PostLogin {| AuthController.lb_email := Some e;
                            AuthController.lb_password := Some p |})) db
  = (App.globalErrorHandler isDevelopment stack
       (createApiError.unauthorized "Invalid credentials"), db)
  ∧ App.globalErrorHandler false stack
      (createApiError.unauthorized "Invalid credentials")
    = {| status := 500;
         body := JObj [("error", JStr "Internal server error");
                       ("message", JStr "Something went wrong")] |}.
Proof.
  intros H. split; [|reflexivity].
  unfold App.app. cbn [App.route Routes.authRoutes].
  destruct (List.find (λ v, String.eqb (u_email v) (UserModel.normalize_email e))
              (users db)) as [u|] eqn:Hfind.
  - rewrite (login_stored config now e p u db Hfind), (H u eq_refl). reflexivity.
  - unfold AuthController.login, UserModel.findOne_email. run_async.
    cbn [AuthController.lb_email]. by rewrite Hfind.
Qed.

Lemma app_answers_rejected_login_with_500_witness :
  status (fst (App.app false (λ _, "") Sample.config Sample.t0
                 (App.AuthRoute
                    (Routes.PostLogin
                       {| AuthController.lb_email := Some "patient@example.com";
                          AuthController.lb_password := Some "guess" |}))
                 Sample.db))
  = 500%Z.
Proof.
  destruct (app_answers_rejected_login_with_500 false (λ _, "") Sample.config
              Sample.t0 "patient@example.com" "guess" Sample.db) as [-> _].
  - intros u [= <-]. reflexivity.
  - reflexivity.
Defined.

(** ** From registration to the protected routes *)

(** X21: the access token of a registration opens the protected routes.
    In a store that satisfies the invariant, a registration that answers
    has answered with an access token that the middleware accepts, on the
    store the registration left, at every instant before the token's
    expiry, attaching the id, email and role of the new user; from the
    expiry on the middleware answers that the token is invalid. *)
Theorem registered_token_authenticates
    (config : Env.JwtConfig) (now : Z) (salt : N)
    (body : AuthController.RegisterBody) (db : Db) (r : Response) (db' : Db) :
  store_ok db →
  AuthController.register config now salt body db = (inr r, db') →
  ∃ u access refresh expiresAt e,
    users db' = users db ++ [u]
    ∧ r = sendSuccess now
            (AuthController.authResponse (api_user u) access refresh expiresAt)
            "User registered successfully" 201
    ∧ token_exp access = Some e
    ∧ ∀ later,
        AuthMiddleware.authenticateToken config later (Some (Bearer access)) db'
        = if (e <=? later / 1000)%Z then Responded (invalid_token_response later)
          else Next {| au_id := ValidId (u_id u); au_email := u_email u;
                       au_role := Role_to_string (u_role u);
                       au_createdAt := Some (u_createdAt u);
                       au_updatedAt := Some (u_updatedAt u) |}.
Proof.
  intros Hok H.
  destruct (register_outcome config now salt body db)
    as [(_ & err & He)|[(_ & err & He)|(e & p & n & d & ro & u & He & Hp & Hn & Hd
                                         & Hr & _ & _ & Hu & Hfind & Hdb & Hout)]];
    rewrite H in *; try discriminate.
  cbn [fst snd] in Hdb, Hout. subst db'.
  unfold AuthController.issue in Hout.
  destruct (Auth.generateAccessToken config now _) as [err|access] eqn:Ha;
    [discriminate|].
  destruct (Auth.generateRefreshToken config now _) as [err|refresh] eqn:Hrf;
    [discriminate|].
  destruct (Auth.getTokenExpiration now _) as [err|expiresAt] eqn:Hx;
    [discriminate|].
  cbn in Hout. injection Hout as Hout.
  destruct (generate_shape config now _ _ access Ha) as (ex & _ & Hsecret & Haccess).
  exists u, access, refresh, expiresAt, ex.
  split; [done|]. split; [by subst r|]. split; [by subst access|].
  intros later.
  unfold AuthMiddleware.authenticateToken, bearer_token. subst access.
  rewrite (verify_signed config later _ ex Hsecret) by reflexivity.
  destruct (Z.leb_spec ex (later / 1000)); [reflexivity|].
  unfold UserModel.findById. run_async. cbn.
  assert (Hnew : List.find (λ v, N.eqb (u_id v) (nextId db)) (users db ++ [u])
                 = Some u).
  { apply find_app_new; [|subst u; cbn; apply N.eqb_refl].
    destruct Hok as (_ & _ & _ & _ & _ & Hall).
    unfold generated_ids in Hall. rewrite !Forall_app in Hall. destruct Hall as (Hlt & _).
    apply find_foreign. intros x Hin.
    destruct (N.eqb_spec (u_id x) (nextId db)) as [Heq|]; [|done].
    rewrite Forall_forall in Hlt.
    specialize (Hlt (u_id x) (list_elem_of_fmap_2 u_id _ _ Hin)). simpl in Hlt. lia. }
  subst u. cbn in *. rewrite Hnew. by destruct ro.
Qed.

Lemma registered_token_authenticates_witness :
  let out :=
    AuthController.register Sample.config Sample.t0 5%N
      {| AuthController.rb_email := Some "carol@example.com";
         AuthController.rb_password := Some "s3cret";
         AuthController.rb_name := Some "Carol Jones";
         AuthController.rb_dob := Some 0%Z;
         AuthController.rb_role := None |} Sample.db in
  ∃ u access e,
    users (snd out) = users Sample.db ++ [u]
    ∧ token_exp access = Some e
    ∧ ∀ later,
        AuthMiddleware.authenticateToken Sample.config later (Some (Bearer access))
          (snd out)
        = if (e <=? later / 1000)%Z then Responded (invalid_token_response later)
          else Next {| au_id := ValidId (u_id u); au_email := u_email u;
                       au_role := Role_to_string (u_role u);
                       au_createdAt := Some (u_createdAt u);
                       au_updatedAt := Some (u_updatedAt u) |}.
Proof.
  intros out.
  destruct (registered_token_authenticates Sample.config Sample.t0 5%N
              {| AuthController.rb_email := Some "carol@example.com";
                 AuthController.rb_password := Some "s3cret";
                 AuthController.rb_name := Some "Carol Jones";
                 AuthController.rb_dob := Some 0%Z;
                 AuthController.rb_role := None |} Sample.db _ _
              ltac:(unfold store_ok; split_and!;
                    apply (bool_decide_unpack _); by vm_compute)
              eq_refl)
    as (u & access & refresh & expiresAt & e & Hdb & _ & He & Hauth).
  exists u, access, e. split; [exact Hdb|]. split; [exact He|exact Hauth].
Defined.



(** ** Medications change hands *)



(** ** Names *)

Lemma string_of_list_ascii_app l1 l2 :
  string_of_list_ascii (l1 ++ l2)
  = string_of_list_ascii l1 +:+ string_of_list_ascii l2.
Proof.
  induction l1 as [|c l1 IH]; [reflexivity|].
  change (String c (string_of_list_ascii (l1 ++ l2))
          = String c (string_of_list_ascii l1 +:+ string_of_list_ascii l2)).
  by rewrite IH.
Qed.

Lemma rev_string_cons c s :
  Js.rev_string (String c s) = Js.rev_string s +:+ String c "".
Proof.
  unfold Js.rev_string. cbn [list_ascii_of_string].
  change (rev (c :: list_ascii_of_string s)) with (rev (list_ascii_of_string s) ++ [c]).
  by rewrite string_of_list_ascii_app.
Qed.

Lemma string_app_nil_r s : s +:+ "" = s.
Proof.
  induction s as [|c s IH]; [reflexivity|].
  change (String c (s +:+ "") = String c s). by rewrite IH.
Qed.

Lemma string_app_assoc s1 s2 s3 : (s1 +:+ s2) +:+ s3 = s1 +:+ (s2 +:+ s3).
Proof.
  induction s1 as [|c s1 IH]; [reflexivity|].
  change (String c ((s1 +:+ s2) +:+ s3) = String c (s1 +:+ (s2 +:+ s3))).
  by rewrite IH.
Qed.

Lemma split_space_aux_cons cur s :
  ∃ x rest, Js.split_space_aux cur s = x :: rest.
Proof.
  revert cur. induction s as [|c r IH]; intros cur; cbn; [eauto|].
  destruct (Ascii.eqb c " "); eauto.
Qed.

(** Joining the pieces of a split gives the string back. *)
Lemma join_split_space_aux cur s :
  Js.join_space (Js.split_space_aux cur s) = Js.rev_string cur +:+ s.
Proof.
  revert cur. induction s as [|c r IH]; intros cur; cbn [Js.split_space_aux].
  - cbn. by rewrite string_app_nil_r.
  - destruct (Ascii.eqb_spec c " ") as [->|Hc].
    + destruct (split_space_aux_cons "" r) as (x & rest & Hx).
      cbn [Js.join_space]. rewrite Hx, <- Hx, IH. reflexivity.
    + rewrite IH, rev_string_cons, string_app_assoc. reflexivity.
Qed.

Lemma has_blank_app a b : has_blank (a +:+ b) = has_blank a || has_blank b.
Proof.
  induction a as [|c a IH]; [reflexivity|].
  change (Ascii.eqb c " " || has_blank (a +:+ b)
          = (Ascii.eqb c " " || has_blank a) || has_blank b).
  by rewrite IH, orb_assoc.
Qed.

(** The first piece of a split holds no blank, and it is the whole
    string when the string holds none. *)
Lemma split_space_aux_head cur s :
  has_blank (Js.rev_string cur) = false →
  has_blank (hd "" (Js.split_space_aux cur s)) = false
  ∧ (has_blank s = false → Js.split_space_aux cur s = [Js.rev_string cur +:+ s])
  ∧ (has_blank s = true → tl (Js.split_space_aux cur s) ≠ []).
Proof.
  revert cur. induction s as [|c r IH]; intros cur Hcur; cbn [Js.split_space_aux].
  - cbn. rewrite string_app_nil_r. done.
  - destruct (Ascii.eqb_spec c " ") as [->|Hc].
    + cbn. split; [done|]. split; [done|]. intros _.
      by destruct (split_space_aux_cons "" r) as (x & rest & ->).
    + assert (Hcur' : has_blank (Js.rev_string (String c cur)) = false).
      { rewrite rev_string_cons, has_blank_app, Hcur. cbn.
        apply Ascii.eqb_neq in Hc. by rewrite Hc. }
      destruct (IH _ Hcur') as (H1 & H2 & H3).
      split; [done|]. cbn [has_blank].
      apply Ascii.eqb_neq in Hc. rewrite Hc. cbn [orb].
      split; [|done]. intros Hr. rewrite (H2 Hr), rev_string_cons, string_app_assoc.
      reflexivity.
Qed.

Lemma list_ascii_of_string_app a b :
  list_ascii_of_string (a +:+ b) = list_ascii_of_string a ++ list_ascii_of_string b.
Proof.
  induction a as [|c a IH]; [reflexivity|].
  change (c :: list_ascii_of_string (a +:+ b)
          = c :: (list_ascii_of_string a ++ list_ascii_of_string b)).
  by rewrite IH.
Qed.

Lemma rev_string_snoc k c :
  Js.rev_string (k +:+ String c "") = String c (Js.rev_string k).
Proof.
  unfold Js.rev_string. rewrite list_ascii_of_string_app. cbn [list_ascii_of_string].
  by rewrite rev_app_distr.
Qed.

Lemma skip_spaces_first t :
  Js.skip_spaces t = ""
  ∨ ∃ c r, Js.skip_spaces t = String c r ∧ Js.is_space c = false.
Proof.
  induction t as [|c r IH]; [by left|]. cbn [Js.skip_spaces].
  destruct (Js.is_space c) eqn:Hc; [exact IH|]. right. by exists c, r.
Qed.

Lemma skip_spaces_snoc s c :
  Js.is_space c = false →
  ∃ k, Js.skip_spaces (s +:+ String c "") = k +:+ String c "".
Proof.
  intros Hc. induction s as [|a s IH].
  - exists "". change ("" +:+ String c "") with (String c "").
    cbn [Js.skip_spaces]. by rewrite Hc.
  - change (String a s +:+ String c "") with (String a (s +:+ String c "")).
    cbn [Js.skip_spaces]. destruct (Js.is_space a); [exact IH|].
    by exists (String a s).
Qed.

(** A trimmed string does not begin with a blank. *)
Lemma trim_starts_blank s : starts_blank (Js.trim s) = false.
Proof.
  unfold Js.trim.
  destruct (skip_spaces_first s) as [->|(c & r & -> & Hc)]; [reflexivity|].
  rewrite rev_string_cons.
  destruct (skip_spaces_snoc (Js.rev_string r) c Hc) as [k ->].
  rewrite rev_string_snoc. cbn.
  destruct (Ascii.eqb_spec c " ") as [->|]; [discriminate Hc|done].
Qed.

Lemma or_string_empty a : Js.or_string a "" = a.
Proof. unfold Js.or_string. by destruct (String.eqb_spec a "") as [->|]. Qed.

(** X23: [firstName] and [lastName] of the API user recombine into the
    stored name.  A name with no blank is the first name, and the last
    name is empty; a name that holds a blank and does not begin with one
    is the first name, a blank and the last name, and the first name holds
    no blank; a name that begins with a blank is kept whole as the first
    name.  Names that went through the schema's [trim] never begin with a
    blank. *)
Theorem names_recombine (o : UserModel.Object) :
  let u := AuthController.transformUserForAPI o in
  let name := UserModel.o_name o in
  (if has_blank name then
     if starts_blank name then firstName u = name
     else name = firstName u +:+ " " +:+ lastName u
          ∧ has_blank (firstName u) = false
   else firstName u = name ∧ lastName u = "")
  ∧ ∀ n, starts_blank (Js.trim n) = false.
Proof.
  intros u name. split; [|apply trim_starts_blank].
  subst u. unfold AuthController.transformUserForAPI.
  cbn [firstName lastName]. fold name. rewrite or_string_empty.
  unfold Js.split_space.
  destruct (split_space_aux_head "" name eq_refl) as (Hhd & Hnone & Hsome).
  pose proof (join_split_space_aux "" name) as Hjoin.
  destruct (has_blank name) eqn:Hb.
  - specialize (Hsome eq_refl).
    destruct (Js.split_space_aux "" name) as [|p0 [|p1 rest]] eqn:Hsplit; [done..|].
    cbn [hd tl] in *.
    change (Js.join_space (p0 :: p1 :: rest))
      with (p0 +:+ " " +:+ Js.join_space (p1 :: rest)) in Hjoin.
    change (Js.rev_string "" +:+ name) with name in Hjoin.
    destruct (starts_blank name) eqn:Hs.
    + destruct name as [|c r]; [discriminate|]. cbn in Hs.
      apply Ascii.eqb_eq in Hs as ->. cbn in Hsplit. injection Hsplit as <- _.
      reflexivity.
    + assert (p0 ≠ "").
      { intros ->. rewrite <- Hjoin in Hs. discriminate. }
      unfold Js.or_string. destruct (String.eqb_spec p0 ""); [done|]. done.
  - rewrite (Hnone eq_refl). change (Js.rev_string "" +:+ name) with name.
    cbn. split; [|reflexivity].
    unfold Js.or_string. by destruct (String.eqb name "").
Qed.

(** ** The custom validators *)

Lemma age_at_least today dob n :
  (n ≤ UserValidation.age today dob)%Z ↔ ymd_le (anniversary n dob) today.
Proof.
  unfold UserValidation.age, ymd_le, anniversary. cbn.
  destruct (Z.ltb_spec (UserValidation.month today - UserValidation.month dob) 0);
    cbn [orb].
  - lia.
  - destruct (Z.eqb_spec (UserValidation.month today - UserValidation.month dob) 0);
      cbn [andb].
    + destruct (Z.ltb_spec (UserValidation.date today) (UserValidation.date dob)); lia.
    + lia.
Qed.

(** X25: the custom validator of [dob] accepts a date of birth exactly
    when the thirteenth birthday is today or earlier and the 121st
    birthday is still to come, days being compared as calendar days. *)
Theorem dob_custom_accepts_between_birthdays (today dob : UserValidation.Ymd) :
  UserValidation.dob_custom today dob = inr true
  ↔ ymd_le (anniversary 13 dob) today ∧ ¬ ymd_le (anniversary 121 dob) today.
Proof.
  rewrite <- !age_at_least. unfold UserValidation.dob_custom.
  destruct (Z.ltb_spec (UserValidation.age today dob) 13).
  - split; [discriminate|lia].
  - destruct (Z.ltb_spec 120 (UserValidation.age today dob)).
    + split; [discriminate|lia].
    + split; [lia|done].
Qed.



